(* ===== verification/_CoqProject ===== *)
-Q . S2P
Prelude.v
Models.v
Auth.v
Serializers.v
NewsViews.v
CommentsView.v
GenericViews.v
Registration.v
ReadViews.v
UpdateViews.v
Routing.v
Schema.v
Concurrency.v
Race.v
Admin.v
Bounds.v
AdminForms.v
