(* ===== verification/Prelude.v ===== *)
(** * A verification development of django_blog_backend (the [blog] app)

    The program is a Django REST framework backend for a news site.  Its
    only bespoke logic lives in four files of [src/blog]:
    - [models.py]: the tables Category, News, Comment and Like, their
      foreign keys with their [on_delete] rules and the uniqueness
      constraints (unique category name and slug, unique news slug,
      [unique_together = (user, news)] on Like);
    - [serializers.py]: the wire representations, the fields a client may
      write, and two computed fields ([likes_count], [comments_count]) and
      one fallback field ([user_name]);
    - [views.py]: the view sets and their hooks ([get_queryset],
      [perform_create]), the [like] toggle action of [NewsViewSet], the
      per-article [comments] function view and registration;
    - [urls.py]: the routing table.

    How the parts interact.  Every request first passes the framework's
    pipeline (authentication, then the view's permission classes, then
    the handler).  Handlers read and write the database only through the
    ORM, whose behaviour is fixed by the declarations of [models.py]:
    inserts that violate a NOT NULL, foreign-key or unique constraint
    raise [IntegrityError]; deletes cascade or set to NULL.

    Layout of the development (one file per component, in dependency
    order):
    - [Prelude] (this file): the error taxonomy of the framework as a
      result monad ([result], with stdpp's [≫=]), row counting and
      [QuerySet.get] over [gmap] tables ([count_where], [qs_get]) with
      their algebra, Python string helpers ([py_strip], [py_truthy]), the
      [blog] hint database and the development's tactics.
    - [Models]: the four models of [models.py] and Django's [User] as
      records ([Category], [News], [Comment], [Like]); the database [DB]
      as one record of tables with their id sequences; the ORM operations
      the views call ([like_get], [like_insert], [like_create],
      [get_or_create] with its IntegrityError fallback, [like_update],
      [news_insert], [category_insert], [comment_insert], [like_delete],
      [news_delete] with CASCADE, [category_delete] with SET_NULL,
      [user_delete] with the three CASCADE keys to User); the
      invariant [db_wf] (sequences ahead of keys, foreign keys resolve,
      NOT NULL, unique constraints), an executable check of it
      ([db_wf_check]) and its preservation by every write; a sample
      database for the witnesses.
    - [Auth]: requests ([Request]: method, bearer token, the [category]
      query parameter, the clock), simplejwt's user lookup
      ([authenticate]), the permission classes and rest_framework's
      pipeline ([dispatch]: authenticate, check permissions, run the
      handler), and the permission class every view of [views.py]
      declares.
    - [Serializers]: the fields of [serializers.py] as rest_framework
      validates them ([char_field] with the validator list of a
      [CharField]: required, stripped, blank, [max_length], null
      characters, slug, [UniqueValidator]; primary-key fields; the
      [unique_together] check of [LikeSerializer]) and the
      representations ([comment_data] with [get_user_name], [news_data]
      with [get_likes_count] and [get_comments_count], [like_data]).
    - [NewsViews]: [NewsViewSet.get_queryset], [get_object] by slug
      through the queryset, and the [like] action.
    - [CommentsView]: the function view [comments], GET and POST.
    - [GenericViews]: the create routes of the four view sets with their
      [perform_create] hooks, the destroy routes of News and Category,
      and the partial update of Like.
    - [Registration]: [RegisterSerializer] (its fields as rest_framework
      builds them from Django's [User], its [create] hashing the
      password) and [RegisterView]; the login check of the token
      endpoint ([login]).
    - [ReadViews]: the list and retrieve routes of the four view sets
      (News in [Meta.ordering], the others in key order).
    - [UpdateViews]: the PUT and PATCH routes of the four view sets
      ([upd_field]: an absent key of a PATCH keeps the stored value) and
      the destroy routes of Comment and Like.
    - [Routing]: the URL table of [urls.py] ([url_patterns], tried in
      order by [resolve]; [route_path] is [reverse()]), the token views
      ([token_obtain] with its [password_field]), and [serve], the whole API: resolve the path, then run the view the
      route and the method select ([handle]); [serve_all] serves a
      sequence of requests.
    - [Schema]: the methods each route serves, as [handle] dispatches
      them, with the read-only and HEAD theorems of [serve].
    - [Concurrency]: the [like] action split at its queries ([worker_step]
      over [Phase]: the get, create and re-get of [get_or_create], the
      delete, the count), a pool of concurrent requests stepping one query
      of one request at a time ([pool_step]), a generic explorer listing
      every state a finitely branching step function reaches ([explore],
      proved complete) and schedules ([run_schedule], [serial]); a lone
      worker computes exactly the sequential handler ([lone_worker_run]).
    - [Race]: the abstraction of a pool of requests on one (user, news)
      pair to a finite system (the pair's row flag and each request's
      phase), proved a simulation ([race_sim]) that also computes every
      schedule exactly ([abs_run_schedule]), and the theorems on two and
      three toggles it gives on every database.
    - [Admin]: the change lists [admin.py] configures: [NewsAdmin]'s
      search ([smart_split] as Django's regular expression, unquoting,
      [icontains] as SQLite's [LIKE]), its list filters and order, and
      Django's default pagination of every registered admin
      ([changelist_page]).
    - [Bounds]: the [max_length] of every string column ([db_bounds])
      and its preservation by every handler and by [serve_all].
    - [AdminForms]: the add, change and delete views of the admin for
      the four models [admin.py] registers, with the [ModelForm] Django
      builds from [models.py] ([category_form_clean], [news_form_clean],
      [comment_form_clean], [like_form_clean]: field cleaning and
      [validate_unique]) and the save or delete it runs.

    How state and operations correspond to the code.  A handler is a
    function of the database and the request returning [Ok (answer,
    database')] or [Err e]; the views of [views.py] are handlers of the
    same name ([like], [comments], [get_queryset]) or named after the
    route ([news_create], [like_viewset_partial_update]).  Each handler
    writes at most once and only as its last database step (the like
    toggle writes in [get_or_create] or in the delete, never both), so an
    [Err] leaves the database as it was, which is what autocommit gives
    these handlers (the project does not set ATOMIC_REQUESTS).

    What the theorems show, by group (C<n> is the claim's id).
    - The like toggle ([NewsViews]): one call flips the existence of the
      caller's row and reports it with the article's row count after the
      call (C1); after [k] calls from no row there are [k mod 2] rows
      (C2); the count it reports exceeds [NewsSerializer]'s
      [likes_count] by exactly the article's rows flagged unliked, which
      POST /likes/ can write (C16).
    - The whole API ([Routing], [Schema]): every sequence of requests,
      on any path with any method and body, keeps the database invariant
      [db_wf], unique category names and slugs included (C5); GET, HEAD
      and OPTIONS never write (C6); the URL table and [reverse()] are
      inverse, so no pattern shadows another (C11); HEAD is answered as
      GET everywhere but on the [comments] function view, which answers
      405 (C12).
    - Comments ([CommentsView], [GenericViews], [UpdateViews]): GET lists
      exactly the article's comments, newest first, as many as
      [comments_count] (C10); an authenticated POST stores the caller's
      username and email whatever the body said (C3), while the generic
      /comments/ route stores the body's (C19) and lets any caller
      re-sign any comment by PATCH (C27); an anonymous POST never
      succeeds and, with a valid body, fails at the NOT NULL constraint
      of [Comment.user] (C4); the body must name [news], [name] and
      [email] even when the view overrides them (C18).
    - Articles, categories and users ([GenericViews], [ReadViews],
      [UpdateViews], [Models]): POST /news/ forces the author (C13); GET
      /news/ lists the queryset newest first (C26); DELETE cascades to
      comments and likes, for any authenticated caller (C14); deleting a
      user removes exactly the user's articles, comments and likes and
      the comments and likes of those articles, and keeps the invariant
      (C15).  The lemmas [category_destroy_sets_null], [like_errors] and
      [destroy_any_owner] show the SET_NULL of a category's articles,
      the order of the like action's errors and the deletes open to any
      caller.
    - The generic likes route ([GenericViews]): PATCH /likes/{id}/
      reassigns a row to another user (C20); a POST /likes/ naming
      another user is a 500 instead of a 400 (C21).
    - Registration ([Registration]): a registration inserts one user
      with the stripped username and the hash of the stripped password
      and answers without the password (C23); the token endpoint, whose
      fields strip the username and the password too, then accepts a
      password exactly when it is the registered one once stripped (C25).
    - Concurrent toggles ([Concurrency], [Race]): every interleaving of
      any number of like requests keeps the invariant, so (user, news)
      never has two rows (C7); on every database, two racing toggles
      from no row always split into one create and one delete, as the
      spec's section 4.2 asks (C8); but on every database three toggles
      have an interleaving that loses one (C9) and one that ends in a
      500 (C17), where no serial order does ([double_click_counts]: a
      reported count can match no serial order).
    - Column widths ([Bounds], [AdminForms]): every sequence of requests
      keeps each string column within its [max_length], except
      [Comment.name], which the per-article view fills with a username of
      up to 150 characters against its declared 100 (C22); such a
      comment, stored by the per-article view for any user whose
      username is longer than 100 characters, is refused by the admin's
      change form as it stands (C24).
    - The admin ([Admin], [AdminForms]): a search of plain words finds
      the articles holding every word in the title or the body (C28);
      the change list holds exactly the articles each list filter and
      the search select, newest first and then by key, each once (C30);
      a page holds at most 100 rows (200 with [?all]) and is a slice of
      that list ([changelist_page_bounds]); every add, change and delete
      view of the four registered models ends in the form with its
      errors, a write that keeps the invariant and the widths, or the
      redirect for a missing object, never in a database error (C29).

    Modelling choices.  Django's auto-increment keys are [nat] sequences
    kept in the database record; the UUID key of News is an [N] given to
    the create route (the environment's [uuid4()]), whose collision is an
    IntegrityError.  Timestamps are the [Z] clock value carried by the
    request ([timezone.now()]).  A query's [count()] is the size of a
    filtered map, [get()] is [qs_get], and [order_by] is stdpp's stable
    [merge_sort] of the rows.  Strings are [string]s whose characters are
    read as the code points U+0000 to U+00FF, so Python's [len] is
    [String.length] and [str.strip()] and the regular expressions are
    written for those code points.  Django's [EmailValidator] and Pillow's image
    check are parameters ([email_ok], [image_ok]), and so are Django's
    password hash and its check ([make_password], [check_password]): they
    belong to the libraries, not to this repository.  The database
    engine is taken to be SQLite, Django's default (the settings are not
    in the repository): it decides the case folding of [icontains] and
    that [VARCHAR] widths are not enforced.  No fuel is needed: every
    handler is a straight-line composition of total functions; [like_n]
    iterates the toggle by structural recursion on the number of calls.

    Bounds of the concurrency claims.  A request runs at most five
    queries ([phase_measure]), and the abstract system of [Race] has the
    same bound, so [explore] with fuel 10 lists every abstract state two
    requests reach ([explore_complete]); C8 checks them all, and the
    simulation carries the result to every database.  C7 holds for every
    database satisfying the invariant and any number of requests.  C9
    and C17 run a schedule of three requests on the abstract system,
    which [abs_run_schedule] shows computes the concrete one exactly, so
    their interleavings exist on every database where the user has no
    row for the article.

    Requests.  A request body is given as what each serializer reads of
    it ([Routing.Body], an absent key is [None]); a body that is not
    JSON (a 400 of the parser) is not modelled.  Paths are lists of
    segments ending in a slash; Django's redirect of a path without the
    final slash and the router's format-suffix routes ([.json]) are not
    modelled.  A failing request writes nothing ([serve_all] keeps the
    database), which holds because every handler raises before its
    first write or, after it, only where the invariant rules it out.

    Fuel.  [smart_split] of [Admin] runs its rounds with the length of
    the term as fuel; each round takes at least one character, so the
    fuel never runs out ([split_bits_fuel]: any larger fuel gives the
    same bits).

    Not modelled: the admin's staff permissions, its
    [prepopulated_fields] (filled in the browser) and its HTML; the
    deletion of a user through Django's own [UserAdmin] is the ORM
    operation [user_delete]; simplejwt's tokens: a request carries the
    user its token names ([req_token]), and the JWT encoding, signature,
    lifetimes and the Bearer header are left out, since they belong to
    the library and to the project's settings, which are not in the
    repository.  Nothing else of [src/blog] is left out: its remaining
    lines are imports and comments.  *)

From stdpp Require Import base gmap strings list list_numbers sorting.

Declare Scope blog_scope.
Delimit Scope blog_scope with blog.
Open Scope blog_scope.

(** ** Errors of the framework, as a result monad *)

(** The exceptions the views raise, as rest_framework renders them. *)
Inductive api_error :=
| NotAuthenticated                         (* 401: no credentials *)
| AuthenticationFailed                     (* 401: token for no user *)
| PermissionDenied                         (* 403 *)
| NotFound                                 (* 404: Http404 *)
| MethodNotAllowed                         (* 405 *)
| ValidationError (errs : list (string * string))  (* 400: field, message *)
| IntegrityError                           (* 500: a constraint failed *)
| MultipleObjectsReturned                  (* 500: get() found two rows *)
| DoesNotExist                             (* 500: a related row is missing *)
| ServerError.                             (* 500: another uncaught exception *)

Definition status_code (e : api_error) : nat :=
  match e with
  | NotAuthenticated | AuthenticationFailed => 401
  | PermissionDenied => 403
  | NotFound => 404
  | MethodNotAllowed => 405
  | ValidationError _ => 400
  | IntegrityError | MultipleObjectsReturned | DoesNotExist | ServerError => 500
  end.

Inductive result (A : Type) :=
| Ok (a : A)
| Err (e : api_error).
Arguments Ok {A} a.
Arguments Err {A} e.

#[export] Instance result_ret : MRet result := fun _ a => Ok a.
#[export] Instance result_bind : MBind result := fun _ _ k m =>
  match m with Ok a => k a | Err e => Err e end.

Notation "'raise' e" := (Err e) (at level 10) : blog_scope.
Notation "'assert!' b 'else' e ';' k" := (if b then k else Err e)
  (at level 100, b at level 200, e at level 9, right associativity) : blog_scope.

Definition is_ok {A} (r : result A) : bool :=
  match r with Ok _ => true | Err _ => false end.

Lemma bind_ok {A B} (m : result A) (k : A -> result B) (b : B) :
  (m ≫= k) = Ok b <-> exists a, m = Ok a /\ k a = Ok b.
Proof. destruct m; simpl; split; naive_solver. Qed.

Lemma bind_err {A B} (m : result A) (k : A -> result B) (e : api_error) :
  m = Err e -> (m ≫= k) = Err e.
Proof. by intros ->. Qed.

Lemma bind_ret {A B} (a : A) (k : A -> result B) : (Ok a ≫= k) = k a.
Proof. reflexivity. Qed.

(** [[f(x) for x in l]] where [f] may raise: the first error, or every
    result. *)
Fixpoint mapR {A B} (f : A -> result B) (l : list A) : result (list B) :=
  match l with
  | [] => Ok []
  | x :: l' => y ← f x; ys ← mapR f l'; Ok (y :: ys)
  end.

Lemma mapR_ok {A B} (f : A -> result B) (g : A -> B) l :
  (forall x, x ∈ l -> f x = Ok (g x)) -> mapR f l = Ok (g <$> l).
Proof.
  induction l as [|x l IH]; intros Hf; [done|]. simpl.
  rewrite (Hf x) by apply list_elem_of_here. simpl.
  rewrite IH; [done|]. intros y Hy. apply Hf, list_elem_of_further, Hy.
Qed.

Lemma mapR_Forall2 {A B} (f : A -> result B) l :
  (forall x, x ∈ l -> exists y, f x = Ok y) ->
  exists l', mapR f l = Ok l' /\ Forall2 (fun x y => f x = Ok y) l l'.
Proof.
  induction l as [|x l IH]; intros Hf; [by exists []|].
  destruct (Hf x) as [y Hy]; [apply list_elem_of_here|].
  destruct IH as (l' & Hl' & H2); [intros z Hz; apply Hf, list_elem_of_further, Hz|].
  exists (y :: l'). simpl. rewrite Hy, Hl'. split; [done|]. by constructor.
Qed.

(** The first element of [omap f l] comes from an element of [l]. *)
Lemma head_omap_Some {A B} (f : A -> option B) l y :
  head (omap f l) = Some y -> exists x, x ∈ l /\ f x = Some y.
Proof.
  induction l as [|x l IH]; [done|]. cbn. destruct (f x) eqn:E; cbn.
  - intros [= <-]. exists x. split; [apply list_elem_of_here|done].
  - intros (x' & ? & ?)%IH. exists x'. split; [apply list_elem_of_further|]; done.
Qed.

(** Two lists related elementwise: what a function reads of one it reads
    of the other, and an order on one carries to the other. *)
Lemma Forall2_fmap_eq {A B C} (f : A -> C) (g : B -> C) (P : A -> B -> Prop) l l' :
  (forall x y, P x y -> f x = g y) -> Forall2 P l l' -> f <$> l = g <$> l'.
Proof. intros Hfg. induction 1; simpl; f_equal; eauto. Qed.

Lemma Sorted_Forall2 {A B} (R : relation A) (R' : relation B) (P : A -> B -> Prop) l l' :
  (forall x y x' y', P x x' -> P y y' -> R x y -> R' x' y') ->
  Forall2 P l l' -> Sorted R l -> Sorted R' l'.
Proof.
  intros HR H2. induction H2 as [|x x' l l' Hx H2 IH]; intros Hs; [constructor|].
  apply Sorted_inv in Hs as [Hs Hhd]. constructor; [by apply IH|].
  destruct H2 as [|y y' ? ? Hy]; constructor. inversion Hhd; eauto.
Qed.

(** Invert equalities between results and close impossible ones. *)
Ltac res_inv :=
  repeat match goal with
  | H : Ok _ = Ok _ |- _ => injection H as H; subst
  | H : Err _ = Err _ |- _ => injection H as H; subst
  | H : Ok _ = Err _ |- _ => discriminate H
  | H : Err _ = Ok _ |- _ => discriminate H
  end.

(** ** Counting rows *)

(** [qs.filter(p).count()] on a table: the number of rows satisfying [p]. *)
Definition count_where {K V} `{Countable K} (p : V -> bool) (m : gmap K V) : nat :=
  size (filter (fun kv : K * V => p kv.2 = true) m).

(** The rows of a table satisfying [p], as a list in key order. *)
Definition rows_where {K V} `{Countable K} (p : V -> bool) (m : gmap K V) : list V :=
  (map_to_list (filter (fun kv : K * V => p kv.2 = true) m)).*2.

Section count.
Context {K V : Type} `{Countable K}.
Implicit Types (p : V -> bool) (m : gmap K V).

Lemma count_where_empty p : count_where p (∅ : gmap K V) = 0.
Proof. unfold count_where. by rewrite map_filter_empty, map_size_empty. Qed.

Lemma count_where_insert_fresh p m k v :
  m !! k = None ->
  count_where p (<[k:=v]> m) = (if p v then 1 else 0) + count_where p m.
Proof.
  intros Hk. unfold count_where. rewrite map_filter_insert.
  case_decide as Hp; simpl in Hp |- *.
  - rewrite Hp, map_size_insert_None; [done|].
    apply map_lookup_filter_None_2. by left.
  - destruct (p v); [done|]. by rewrite delete_id.
Qed.

Lemma count_where_delete p m k v :
  m !! k = Some v ->
  count_where p m = (if p v then 1 else 0) + count_where p (delete k m).
Proof.
  intros Hk. rewrite <-(insert_delete_id m k v) at 1 by done.
  apply count_where_insert_fresh, lookup_delete_eq.
Qed.

Lemma count_where_ext p q m :
  (forall k v, m !! k = Some v -> p v = q v) ->
  count_where p m = count_where q m.
Proof.
  intros Hpq. unfold count_where. f_equal.
  apply map_filter_ext. intros k v Hm. simpl. by rewrite (Hpq k v Hm).
Qed.

Lemma count_where_zero p m :
  count_where p m = 0 <-> forall k v, m !! k = Some v -> p v = false.
Proof.
  unfold count_where. rewrite map_size_empty_iff. split.
  - intros Hf k v Hk. destruct (p v) eqn:Hp; [|done].
    exfalso. apply (map_filter_empty_not_lookup (M:=gmap K) _ m k v Hf); [done|exact Hk].
  - intros Hall. apply map_empty. intros k.
    apply map_lookup_filter_None_2. destruct (m !! k) eqn:Hk; [right|by left].
    intros v' [= <-] Hp. simpl in Hp. by rewrite (Hall k v) in Hp.
Qed.

Lemma count_where_le p q m :
  (forall v, p v = true -> q v = true) -> count_where p m <= count_where q m.
Proof.
  intros Hpq. unfold count_where. apply map_subseteq_size.
  apply map_subseteq_spec. intros k v.
  rewrite !map_lookup_filter_Some. simpl. naive_solver.
Qed.

(** A count splits along a second predicate. *)
Lemma count_where_split p q m :
  count_where p m = count_where (fun v => p v && q v) m + count_where (fun v => p v && negb (q v)) m.
Proof.
  induction m as [|k v m Hk IH] using map_ind; [by rewrite !count_where_empty|].
  rewrite !count_where_insert_fresh by done. destruct (p v), (q v); simpl; lia.
Qed.

Lemma rows_where_length p m : length (rows_where p m) = count_where p m.
Proof. unfold rows_where, count_where. by rewrite length_fmap, length_map_to_list. Qed.

Lemma elem_of_rows_where p m v :
  v ∈ rows_where p m <-> exists k, m !! k = Some v /\ p v = true.
Proof.
  unfold rows_where. rewrite list_elem_of_fmap. split.
  - intros [[k v'] [-> Hin]]. rewrite elem_of_map_to_list, map_lookup_filter_Some in Hin.
    simpl in *. naive_solver.
  - intros [k [Hk Hp]]. exists (k, v). rewrite elem_of_map_to_list, map_lookup_filter_Some.
    naive_solver.
Qed.
End count.

(** [QuerySet.get(...)]: no row is [DoesNotExist] (here [None]); two or
    more rows are [MultipleObjectsReturned]. *)
Definition qs_get {K V} `{Countable K} (p : V -> bool) (m : gmap K V) : result (option (K * V)) :=
  match map_to_list (filter (fun kv : K * V => p kv.2 = true) m) with
  | [] => Ok None
  | [kv] => Ok (Some kv)
  | _ => Err MultipleObjectsReturned
  end.

Section qs_get.
Context {K V : Type} `{Countable K}.
Implicit Types (p : V -> bool) (m : gmap K V).

(** Where the filter selects at most one row (a unique constraint),
    [get()] never raises [MultipleObjectsReturned]. *)
Lemma qs_get_spec p m :
  (forall k1 k2 v1 v2, m !! k1 = Some v1 -> m !! k2 = Some v2 ->
     p v1 = true -> p v2 = true -> k1 = k2) ->
  (qs_get p m = Ok None /\ count_where p m = 0) \/
  (exists k v, qs_get p m = Ok (Some (k, v)) /\ m !! k = Some v /\ p v = true /\
               count_where p m = 1).
Proof.
  intros Huniq. unfold qs_get, count_where. rewrite <-length_map_to_list.
  pose proof (NoDup_fst_map_to_list (filter (fun kv : K * V => p kv.2 = true) m)) as Hnd.
  assert (Hin : forall k v, (k, v) ∈ map_to_list (filter (fun kv : K * V => p kv.2 = true) m) ->
    m !! k = Some v /\ p v = true).
  { intros k v. rewrite elem_of_map_to_list, map_lookup_filter_Some. done. }
  destruct (map_to_list _) as [|[k1 v1] [|[k2 v2] rest]]; simpl.
  - by left.
  - right. exists k1, v1. destruct (Hin k1 v1) as [? ?]; [set_solver|done].
  - exfalso. destruct (Hin k1 v1) as [H1 M1]; [set_solver|].
    destruct (Hin k2 v2) as [H2 M2]; [set_solver|].
    pose proof (Huniq k1 k2 v1 v2 H1 H2 M1 M2) as ->.
    simpl in Hnd. apply NoDup_cons_1_1 in Hnd. set_solver.
Qed.

(** [get()] returns the one row that matches. *)
Lemma qs_get_unique p m k v :
  (forall k1 k2 v1 v2, m !! k1 = Some v1 -> m !! k2 = Some v2 ->
     p v1 = true -> p v2 = true -> k1 = k2) ->
  m !! k = Some v -> p v = true -> qs_get p m = Ok (Some (k, v)).
Proof.
  intros Huniq Hk Hp. destruct (qs_get_spec p m Huniq) as [[_ Hc]|(k' & v' & Hg & Hk' & Hp' & _)].
  - apply count_where_zero with (k := k) (v := v) in Hc; [congruence|done].
  - pose proof (Huniq k' k v' v Hk' Hk Hp' Hp) as ->. rewrite Hg. congruence.
Qed.

(** The row [get()] returns is a row of the table that matches. *)
Lemma qs_get_some p m k v :
  qs_get p m = Ok (Some (k, v)) -> m !! k = Some v /\ p v = true.
Proof.
  unfold qs_get. intros Hget.
  destruct (map_to_list _) as [|kv [|]] eqn:Hl; simpl in Hget; simplify_eq.
  assert (Hin : (k, v) ∈ map_to_list (filter (fun kv : K * V => p kv.2 = true) m))
    by (rewrite Hl; set_solver).
  by rewrite elem_of_map_to_list, map_lookup_filter_Some in Hin.
Qed.

(** [get()] finds nothing exactly when no row matches. *)
Lemma qs_get_none p m :
  (forall k v, m !! k = Some v -> p v = false) -> qs_get p m = Ok None.
Proof.
  intros Hall. apply count_where_zero in Hall. unfold count_where in Hall.
  unfold qs_get. rewrite <-length_map_to_list in Hall.
  by destruct (map_to_list _).
Qed.
End qs_get.

(** ** Lists *)

(** Replacing one element of a list changes a sum over it by the
    difference of the two. *)
Lemma sum_list_with_insert {A} (f : A -> nat) (l : list A) i x y :
  l !! i = Some y -> sum_list_with f (<[i := x]> l) + f y = sum_list_with f l + f x.
Proof.
  revert i. induction l as [|z l IH]; intros [|i] Hi; simpl in *; simplify_eq; [lia|].
  specialize (IH i Hi). lia.
Qed.

(** ** Python string helpers *)

(** [str.isspace()] of a character, read as the code point U+0000 to
    U+00FF: tab to carriage return, the four separators U+001C to U+001F,
    space, NEL (U+0085) and the no-break space (U+00A0). *)
Definition py_isspace (c : Ascii.ascii) : bool :=
  match Ascii.nat_of_ascii c with
  | 9 | 10 | 11 | 12 | 13 | 28 | 29 | 30 | 31 | 32 | 133 | 160 => true
  | _ => false
  end.

Fixpoint lstrip (s : string) : string :=
  match s with
  | EmptyString => EmptyString
  | String c s' => if py_isspace c then lstrip s' else s
  end.

Definition str_rev (s : string) : string :=
  String.string_of_list_ascii (rev (String.list_ascii_of_string s)).

(** [str.strip()]. *)
Definition py_strip (s : string) : string := str_rev (lstrip (str_rev (lstrip s))).

(** Python truthiness of a string: [if s:]. *)
Definition py_truthy (s : string) : bool :=
  match s with EmptyString => false | _ => true end.

(** The digits of [int()]: at least one, single underscores between
    digits allowed. *)
Fixpoint py_digits (acc : Z) (after_digit : bool) (cs : list Ascii.ascii) : option Z :=
  match cs with
  | [] => if after_digit then Some acc else None
  | c :: cs' =>
      let k := Ascii.nat_of_ascii c in
      if (48 <=? k) && (k <=? 57) then py_digits (acc * 10 + Z.of_nat (k - 48))%Z true cs'
      else if (k =? 95) && after_digit then py_digits acc false cs'
      else None
  end.

(** [int(s)] of a string, [None] for a [ValueError]: surrounding
    whitespace is ignored, then an optional sign ([-] is 45, [+] is 43)
    and the digits. *)
Definition py_int (s : string) : option Z :=
  match String.list_ascii_of_string (py_strip s) with
  | [] => None
  | c :: cs =>
      if Ascii.nat_of_ascii c =? 45 then Z.opp <$> py_digits 0 false cs
      else if Ascii.nat_of_ascii c =? 43 then py_digits 0 false cs
      else py_digits 0 false (c :: cs)
  end.

(** [get_object_or_404(queryset, pk=value)] on a table with an integer
    key: [int(value)] (a [ValueError] is a 404), then the row with that key. *)
Definition pk_lookup {V} (tbl : gmap nat V) (value : string) : result (nat * V) :=
  match py_int value with
  | Some z =>
      if bool_decide (0 <= z)%Z then
        match tbl !! Z.to_nat z with
        | Some v => Ok (Z.to_nat z, v)
        | None => Err NotFound
        end
      else Err NotFound
  | None => Err NotFound
  end.

Lemma pk_lookup_ok {V} (tbl : gmap nat V) pk k v : pk_lookup tbl pk = Ok (k, v) -> tbl !! k = Some v.
Proof.
  unfold pk_lookup. destruct (py_int pk) as [z|]; [|done].
  case_bool_decide; [|done]. destruct (tbl !! Z.to_nat z) eqn:E; intros; simplify_eq; done.
Qed.

Lemma pk_lookup_is_Some {V} (tbl : gmap nat V) pk k v : pk_lookup tbl pk = Ok (k, v) -> is_Some (tbl !! k).
Proof. intros ?%pk_lookup_ok. eauto. Qed.

(** ** Automation *)

Create HintDb blog discriminated.
Create Rewrite HintDb blog.

(** The lemmas that an operation keeps the database invariant
    ([Models.db_wf]); a handler's invariant proof runs [ok_inv] on it
    and closes with [eauto 3 with wf]. *)
Create HintDb wf discriminated.
#[export] Hint Resolve pk_lookup_is_Some : wf.

(** Decompose a successful run of straight-line handler code: each bind
    into the call that succeeded and its continuation, each branch on the
    value it took. *)
Ltac ok_inv :=
  repeat match goal with
  | H : mbind _ _ = Ok _ |- _ => apply bind_ok in H as (? & ? & H)
  | H : (match ?x with _ => _ end) = Ok _ |- _ => destruct x eqn:?
  | H : (if ?b then _ else _) = (_, _) |- _ => destruct b; injection H as ??; subst
  | H : Ok _ = Ok _ |- _ => injection H as H; subst
  | H : Err _ = Ok _ |- _ => discriminate H
  end.

#[export] Hint Resolve count_where_insert_fresh count_where_delete : blog.
#[export] Hint Rewrite @count_where_empty @bind_ret : blog.
