(* ===== verification/Models.v ===== *)
(** * Models: the tables of [models.py] and the ORM operations the views use

    Each Django model is a record whose fields are the model's columns
    (the [id] primary key is the key of the table, not a field).  The
    database is one record of tables, each a [gmap] from primary key to
    row, with the auto-increment sequence of every table with an integer
    key.  The ORM primitives are written the way Django executes them
    against a database that enforces the constraints declared in
    [models.py]: a NOT NULL, foreign-key or unique violation is an
    [IntegrityError]; [get()] distinguishes zero, one and several rows;
    [delete()] applies the [on_delete] rule of every foreign key that
    points at the deleted row. *)

From stdpp Require Import base gmap strings list sorting.
From S2P Require Import Prelude.

(** ** Rows *)

(** [django.contrib.auth.models.User], the columns the views use. *)
Record User := mkUser {
  username : string;
  user_email : string;
  password : string;
}.

(** [class Category(models.Model)]. *)
Record Category := mkCategory {
  cat_name : string;
  cat_slug : string;
}.

(** [class News(models.Model)]; the key is the UUID [id]. *)
Record News := mkNews {
  news_category : option nat;     (* ForeignKey(Category, SET_NULL, null=True) *)
  news_author : nat;              (* ForeignKey(User, CASCADE) *)
  news_title : string;
  news_slug : string;
  news_image : string;
  news_body : string;
  news_date_posted : Z;           (* auto_now_add *)
  news_updated_at : Z;            (* auto_now *)
  news_is_breaking : bool;
}.

(** [class Comment(models.Model)].  [user] is declared without
    [null=True]: the column is NOT NULL, but the Python attribute can hold
    [None] before the row is saved, hence the [option]. *)
Record Comment := mkComment {
  comment_news : N;               (* ForeignKey(News, CASCADE) *)
  comment_user : option nat;      (* ForeignKey(User, CASCADE), NOT NULL *)
  comment_name : string;
  comment_email : string;
  comment_body : string;          (* the [comment] TextField *)
  comment_timestamp : Z;          (* auto_now_add *)
}.

(** [class Like(models.Model)], [unique_together = ('user', 'news')]. *)
Record Like := mkLike {
  like_user : nat;
  like_news : N;
  is_liked : bool;                (* default=True *)
  like_timestamp : Z;             (* auto_now_add *)
}.

(** ** The database *)

Record DB := mkDB {
  users : gmap nat User;
  categories : gmap nat Category;
  news : gmap N News;
  comments : gmap nat Comment;
  likes : gmap nat Like;
  next_user : nat;
  next_category : nat;
  next_comment : nat;
  next_like : nat;
}.

Definition set_news (t : gmap N News) (db : DB) : DB :=
  mkDB (users db) (categories db) t (comments db) (likes db)
       (next_user db) (next_category db) (next_comment db) (next_like db).
Definition set_comments (t : gmap nat Comment) (nc : nat) (db : DB) : DB :=
  mkDB (users db) (categories db) (news db) t (likes db)
       (next_user db) (next_category db) nc (next_like db).
Definition set_likes (t : gmap nat Like) (nl : nat) (db : DB) : DB :=
  mkDB (users db) (categories db) (news db) (comments db) t
       (next_user db) (next_category db) (next_comment db) nl.
Definition set_categories (t : gmap nat Category) (db : DB) : DB :=
  mkDB (users db) t (news db) (comments db) (likes db)
       (next_user db) (next_category db) (next_comment db) (next_like db).
Definition set_users (t : gmap nat User) (nu : nat) (db : DB) : DB :=
  mkDB t (categories db) (news db) (comments db) (likes db)
       nu (next_category db) (next_comment db) (next_like db).

(** ** Queries *)

(** The lookup [Like.objects.filter(news=news, user=user)]. *)
Definition like_matches (u : nat) (n : N) (l : Like) : bool :=
  bool_decide (like_user l = u) && bool_decide (like_news l = n).

(** [news.like_set.count()]: every Like row of the article. *)
Definition like_set_count (db : DB) (n : N) : nat :=
  count_where (fun l => bool_decide (like_news l = n)) (likes db).

(** [news.comments]: the comments whose [news] is the article. *)
Definition comment_of (n : N) (c : Comment) : bool := bool_decide (comment_news c = n).

(** [Like.objects.get(news=news, user=user)]. *)
Definition like_get (db : DB) (u : nat) (n : N) : result (option (nat * Like)) :=
  qs_get (like_matches u n) (likes db).

(** The INSERT of a Like row, with both foreign keys and the unique
    (user, news) index checked by the database. *)
Definition like_insert (db : DB) (row : Like) : result (nat * DB) :=
  if bool_decide (is_Some (users db !! like_user row)) && bool_decide (is_Some (news db !! like_news row))
     && bool_decide (count_where (like_matches (like_user row) (like_news row)) (likes db) = 0)
  then Ok (next_like db, set_likes (<[next_like db := row]> (likes db)) (S (next_like db)) db)
  else Err IntegrityError.

(** [Like.objects.create(news=news, user=user)]: [is_liked] takes its
    default and [timestamp] the clock. *)
Definition like_create (db : DB) (u : nat) (n : N) (now : Z) : result (nat * Like * DB) :=
  let row := mkLike u n true now in
  '(k, db') ← like_insert db row;
  Ok (k, row, db').

(** [QuerySet.get_or_create]: [get]; on [DoesNotExist] [create]; on an
    [IntegrityError] of the create, [get] again and re-raise if there is
    still no row.  Returns the row, [created], and the new database. *)
Definition get_or_create (db : DB) (u : nat) (n : N) (now : Z)
    : result (nat * Like * bool * DB) :=
  found ← like_get db u n;
  match found with
  | Some kv => Ok (kv, false, db)
  | None =>
      match like_create db u n now with
      | Ok (k, row, db') => Ok ((k, row), true, db')
      | Err IntegrityError =>
          again ← like_get db u n;
          match again with
          | Some kv => Ok (kv, false, db)
          | None => Err IntegrityError
          end
      | Err e => Err e
      end
  end.

(** [serializer.save()] of a new News row under the key [uuid4()]: the
    primary key and the slug are unique, both foreign keys resolve. *)
Definition news_insert (db : DB) (nid : N) (x : News) : result DB :=
  if bool_decide (news db !! nid = None) &&
     bool_decide (map_Forall (fun _ y => news_slug y <> news_slug x) (news db)) &&
     bool_decide (is_Some (users db !! news_author x)) &&
     match news_category x with Some c => bool_decide (is_Some (categories db !! c)) | None => true end
  then Ok (set_news (<[nid := x]> (news db)) db)
  else Err IntegrityError.

(** [serializer.save()] of a new Category: name and slug are unique. *)
Definition category_insert (db : DB) (x : Category) : result (nat * DB) :=
  if bool_decide (map_Forall (fun _ y => cat_name y <> cat_name x /\ cat_slug y <> cat_slug x)
                    (categories db))
  then Ok (next_category db,
           mkDB (users db) (<[next_category db := x]> (categories db)) (news db) (comments db)
                (likes db) (next_user db) (S (next_category db)) (next_comment db) (next_like db))
  else Err IntegrityError.

(** [User.objects.create(...)]: the INSERT into [auth_user], whose
    [username] column is unique. *)
Definition user_insert (db : DB) (x : User) : result (nat * DB) :=
  if bool_decide (map_Forall (fun _ y => username y <> username x) (users db))
  then Ok (next_user db, set_users (<[next_user db := x]> (users db)) (S (next_user db)) db)
  else Err IntegrityError.

(** [instance.save()] of an existing Like row: the UPDATE, with the
    foreign keys and the unique (user, news) index checked. *)
Definition like_update (db : DB) (k : nat) (row : Like) : result DB :=
  if bool_decide (is_Some (users db !! like_user row)) && bool_decide (is_Some (news db !! like_news row))
     && bool_decide (map_Forall (fun k' l => k' = k \/ like_matches (like_user row) (like_news row) l = false)
                      (likes db))
  then Ok (set_likes (<[k := row]> (likes db)) (next_like db) db)
  else Err IntegrityError.

(** [instance.save()] of an existing News row: the UPDATE, with the slug
    unique among the other rows and both foreign keys checked. *)
Definition news_update (db : DB) (nid : N) (x : News) : result DB :=
  if bool_decide (map_Forall (fun n y => n = nid \/ news_slug y <> news_slug x) (news db)) &&
     bool_decide (is_Some (users db !! news_author x)) &&
     match news_category x with Some c => bool_decide (is_Some (categories db !! c)) | None => true end
  then Ok (set_news (<[nid := x]> (news db)) db)
  else Err IntegrityError.

(** [instance.save()] of an existing Category row: name and slug unique
    among the other rows. *)
Definition category_update (db : DB) (k : nat) (x : Category) : result DB :=
  if bool_decide (map_Forall (fun k' y => k' = k \/ (cat_name y <> cat_name x /\ cat_slug y <> cat_slug x))
                    (categories db))
  then Ok (set_categories (<[k := x]> (categories db)) db)
  else Err IntegrityError.

(** [instance.save()] of an existing Comment row: the article exists and
    the user is set (NOT NULL) and exists. *)
Definition comment_update (db : DB) (k : nat) (c : Comment) : result DB :=
  match comment_user c with
  | None => Err IntegrityError
  | Some u =>
      if bool_decide (is_Some (news db !! comment_news c)) && bool_decide (is_Some (users db !! u))
      then Ok (set_comments (<[k := c]> (comments db)) (next_comment db) db)
      else Err IntegrityError
  end.

(** [comment.delete()]: no foreign key points at Comment. *)
Definition comment_delete (db : DB) (k : nat) : DB :=
  set_comments (delete k (comments db)) (next_comment db) db.

(** [like_obj.delete()]: no foreign key points at Like, nothing cascades. *)
Definition like_delete (db : DB) (k : nat) : DB :=
  set_likes (delete k (likes db)) (next_like db) db.

(** [news_obj.delete()]: [Comment.news] and [Like.news] are CASCADE. *)
Definition news_delete (db : DB) (n : N) : DB :=
  mkDB (users db) (categories db) (delete n (news db))
       (filter (fun kv : nat * Comment => comment_news kv.2 <> n) (comments db))
       (filter (fun kv : nat * Like => like_news kv.2 <> n) (likes db))
       (next_user db) (next_category db) (next_comment db) (next_like db).

(** [category.delete()]: [News.category] is SET_NULL. *)
Definition unset_category (c : nat) (x : News) : News :=
  if bool_decide (news_category x = Some c)
  then mkNews None (news_author x) (news_title x) (news_slug x) (news_image x)
              (news_body x) (news_date_posted x) (news_updated_at x) (news_is_breaking x)
  else x.

Definition category_delete (db : DB) (c : nat) : DB :=
  mkDB (users db) (delete c (categories db)) (unset_category c <$> news db)
       (comments db) (likes db)
       (next_user db) (next_category db) (next_comment db) (next_like db).

(** The articles of user [u]: the rows the CASCADE of [News.author]
    reaches. *)
Definition user_news (db : DB) (u : nat) : list N :=
  (map_to_list (filter (fun kv : N * News => news_author kv.2 = u) (news db))).*1.

(** The CASCADE of [Comment.user]: the user's comments go. *)
Definition user_comment_cascade (u : nat) (tbl : gmap nat Comment) : gmap nat Comment :=
  filter (fun kv : nat * Comment => comment_user kv.2 <> Some u) tbl.

(** The CASCADE of [Like.user]: the user's likes go. *)
Definition user_like_cascade (u : nat) (tbl : gmap nat Like) : gmap nat Like :=
  filter (fun kv : nat * Like => like_user kv.2 <> u) tbl.

(** [user.delete()]: Django's collector follows the three CASCADE keys
    to User: [News.author], whose articles go with their own cascades
    to comments and likes, then [Comment.user] and [Like.user], then the
    user row.  No route of the API deletes a user; Django's admin does. *)
Definition user_delete (db : DB) (u : nat) : DB :=
  let db1 := foldl news_delete db (user_news db u) in
  mkDB (delete u (users db1)) (categories db1) (news db1)
       (user_comment_cascade u (comments db1)) (user_like_cascade u (likes db1))
       (next_user db1) (next_category db1) (next_comment db1) (next_like db1).

(** [serializer.save()] of a new Comment: the INSERT, with the NOT NULL
    constraint of [user] and both foreign keys checked. *)
Definition comment_insert (db : DB) (c : Comment) : result (nat * DB) :=
  match comment_user c with
  | None => Err IntegrityError
  | Some u =>
      if bool_decide (is_Some (users db !! u)) && bool_decide (is_Some (news db !! comment_news c))
      then Ok (next_comment db,
               set_comments (<[next_comment db := c]> (comments db)) (S (next_comment db)) db)
      else Err IntegrityError
  end.

(** ** The database invariant *)

(** What the schema guarantees of every committed state: the sequences
    are ahead of the keys, every foreign key points at a row (and the NOT
    NULL ones are set), and the unique constraints hold. *)
Record db_wf (db : DB) : Prop := {
  wf_comment_seq : forall k, is_Some (comments db !! k) -> k < next_comment db;
  wf_like_seq : forall k, is_Some (likes db !! k) -> k < next_like db;
  wf_news_author : forall n x, news db !! n = Some x -> is_Some (users db !! news_author x);
  wf_news_category : forall n x c, news db !! n = Some x -> news_category x = Some c ->
    is_Some (categories db !! c);
  wf_comment_news : forall k c, comments db !! k = Some c -> is_Some (news db !! comment_news c);
  wf_comment_user : forall k c, comments db !! k = Some c ->
    exists u, comment_user c = Some u /\ is_Some (users db !! u);
  wf_like_news : forall k l, likes db !! k = Some l -> is_Some (news db !! like_news l);
  wf_like_user : forall k l, likes db !! k = Some l -> is_Some (users db !! like_user l);
  wf_like_unique : forall k1 k2 l1 l2, likes db !! k1 = Some l1 -> likes db !! k2 = Some l2 ->
    like_user l1 = like_user l2 -> like_news l1 = like_news l2 -> k1 = k2;
  wf_news_slug_unique : forall n1 n2 x1 x2, news db !! n1 = Some x1 -> news db !! n2 = Some x2 ->
    news_slug x1 = news_slug x2 -> n1 = n2;
  wf_cat_slug_unique : forall c1 c2 x1 x2, categories db !! c1 = Some x1 ->
    categories db !! c2 = Some x2 -> cat_slug x1 = cat_slug x2 -> c1 = c2;
  wf_cat_name_unique : forall c1 c2 x1 x2, categories db !! c1 = Some x1 ->
    categories db !! c2 = Some x2 -> cat_name x1 = cat_name x2 -> c1 = c2;
  wf_user_seq : forall k, is_Some (users db !! k) -> k < next_user db;
  wf_category_seq : forall k, is_Some (categories db !! k) -> k < next_category db;
  wf_username_unique : forall k1 k2 x1 x2, users db !! k1 = Some x1 -> users db !! k2 = Some x2 ->
    username x1 = username x2 -> k1 = k2;
}.

Lemma like_matches_true u n l :
  like_matches u n l = true <-> like_user l = u /\ like_news l = n.
Proof. unfold like_matches. by rewrite andb_true_iff, !bool_decide_eq_true. Qed.

#[export] Hint Rewrite like_matches_true : blog.

(** Under the unique index, at most one row matches (user, news). *)
Lemma like_matches_unique db u n k1 k2 l1 l2 :
  db_wf db -> likes db !! k1 = Some l1 -> likes db !! k2 = Some l2 ->
  like_matches u n l1 = true -> like_matches u n l2 = true -> k1 = k2.
Proof.
  intros Hwf H1 H2. autorewrite with blog. intros [? ?] [? ?].
  eapply (wf_like_unique _ Hwf); eauto; congruence.
Qed.

(** [get()] never sees two rows, and sees one exactly when one exists. *)
Lemma like_get_spec db u n :
  db_wf db ->
  (like_get db u n = Ok None /\ count_where (like_matches u n) (likes db) = 0) \/
  (exists k l, like_get db u n = Ok (Some (k, l)) /\ likes db !! k = Some l /\
               like_matches u n l = true /\ count_where (like_matches u n) (likes db) = 1).
Proof. intros Hwf. apply qs_get_spec. intros. eapply like_matches_unique; eauto. Qed.

(** ** The ORM operations preserve the invariant *)

Ltac wf_lookup :=
  repeat match goal with
  | H : <[_:=_]> _ !! _ = Some _ |- _ => apply lookup_insert_Some in H as [[<- <-]|[? H]]
  | H : delete _ _ !! _ = Some _ |- _ => apply lookup_delete_Some in H as [? H]
  | H : filter _ _ !! _ = Some _ |- _ => apply map_lookup_filter_Some in H as [H ?]
  | H : is_Some (<[_:=_]> _ !! _) |- _ => rewrite lookup_insert_is_Some in H
  | H : is_Some (delete _ _ !! _) |- _ => rewrite lookup_delete_is_Some in H
  end.

(** The fresh key of an auto-increment sequence is free. *)
Lemma like_seq_fresh db : db_wf db -> likes db !! next_like db = None.
Proof.
  intros Hwf. apply eq_None_not_Some. intros Hs.
  pose proof (wf_like_seq _ Hwf _ Hs). lia.
Qed.

Lemma comment_seq_fresh db : db_wf db -> comments db !! next_comment db = None.
Proof.
  intros Hwf. apply eq_None_not_Some. intros Hs.
  pose proof (wf_comment_seq _ Hwf _ Hs). lia.
Qed.

#[export] Hint Resolve like_seq_fresh comment_seq_fresh : blog.

(** Counting the Like rows after an INSERT at the sequence's next key. *)
Lemma count_likes_insert_next db (p : Like -> bool) row :
  db_wf db ->
  count_where p (<[next_like db := row]> (likes db)) = (if p row then 1 else 0) + count_where p (likes db).
Proof. intros Hwf. apply count_where_insert_fresh. eauto with blog. Qed.

(** The INSERT of a Like succeeds exactly when both foreign keys resolve
    and no row has the same (user, news). *)
Lemma like_insert_ok db row :
  is_Some (users db !! like_user row) -> is_Some (news db !! like_news row) ->
  count_where (like_matches (like_user row) (like_news row)) (likes db) = 0 ->
  like_insert db row =
    Ok (next_like db, set_likes (<[next_like db := row]> (likes db)) (S (next_like db)) db).
Proof. intros Hu Hn Hc. unfold like_insert. by rewrite !bool_decide_eq_true_2. Qed.

Lemma like_create_ok db u n now :
  is_Some (users db !! u) -> is_Some (news db !! n) ->
  count_where (like_matches u n) (likes db) = 0 ->
  like_create db u n now =
    Ok (next_like db, mkLike u n true now,
        set_likes (<[next_like db := mkLike u n true now]> (likes db)) (S (next_like db)) db).
Proof. intros Hu Hn Hc. unfold like_create. by rewrite like_insert_ok. Qed.

Lemma like_create_dup db u n now :
  count_where (like_matches u n) (likes db) <> 0 -> like_create db u n now = Err IntegrityError.
Proof.
  intros Hc. unfold like_create, like_insert. simpl.
  rewrite (bool_decide_eq_false_2 (_ = 0)) by done. by rewrite andb_false_r.
Qed.

Lemma like_insert_wf db row k db' :
  db_wf db -> like_insert db row = Ok (k, db') -> db_wf db'.
Proof.
  intros Hwf Hc. unfold like_insert in Hc.
  destruct (bool_decide _ && _ && _) eqn:Hb; res_inv.
  apply andb_true_iff in Hb as [[Hu Hn]%andb_true_iff Hz].
  apply bool_decide_eq_true in Hu, Hn, Hz.
  destruct Hwf; split; simpl; intros; wf_lookup; eauto.
  - match goal with H : _ \/ _ |- _ => destruct H as [->|[_ ?%wf_like_seq0]] end; lia.
  - exfalso. match goal with H : likes db !! k1 = Some l1 |- _ =>
      apply (proj1 (count_where_zero _ _) Hz) in H end.
    unfold like_matches in *. rewrite andb_false_iff, !bool_decide_eq_false in *.
    simpl in *. naive_solver.
  - exfalso. match goal with H : likes db !! k2 = Some l2 |- _ =>
      apply (proj1 (count_where_zero _ _) Hz) in H end.
    unfold like_matches in *. rewrite andb_false_iff, !bool_decide_eq_false in *.
    simpl in *. naive_solver.
Qed.

Lemma like_create_wf db u n now k row db' :
  db_wf db -> like_create db u n now = Ok (k, row, db') -> db_wf db'.
Proof.
  intros Hwf Hc. unfold like_create in Hc.
  destruct (like_insert _ _) as [[k' db'']|] eqn:Hi; simpl in Hc; res_inv.
  by eapply like_insert_wf.
Qed.

Lemma like_delete_wf db k : db_wf db -> db_wf (like_delete db k).
Proof.
  intros []. split; simpl; intros; wf_lookup; eauto.
  destruct H as [_ ?]. eauto.
Qed.

(** [get_or_create] when the row exists: nothing is written. *)
Lemma get_or_create_found db u n now k l :
  like_get db u n = Ok (Some (k, l)) -> get_or_create db u n now = Ok ((k, l), false, db).
Proof. intros Hg. unfold get_or_create. by rewrite Hg. Qed.

(** [get_or_create] when no row exists: the INSERT of [create]. *)
Lemma get_or_create_new db u n now :
  is_Some (users db !! u) -> is_Some (news db !! n) ->
  like_get db u n = Ok None -> count_where (like_matches u n) (likes db) = 0 ->
  get_or_create db u n now =
    Ok ((next_like db, mkLike u n true now), true,
        set_likes (<[next_like db := mkLike u n true now]> (likes db)) (S (next_like db)) db).
Proof. intros Hu Hn Hg Hc. unfold get_or_create. rewrite Hg. simpl. by rewrite like_create_ok. Qed.

(** ** An executable check of the invariant *)

(** [db_wf] as a conjunction of [map_Forall]s, decided by computation. *)
Definition db_wf_check (db : DB) : Prop :=
  map_Forall (fun k _ => k < next_comment db) (comments db) /\
  map_Forall (fun k _ => k < next_like db) (likes db) /\
  map_Forall (fun _ x => is_Some (users db !! news_author x) /\
     match news_category x with Some c => is_Some (categories db !! c) | None => True end) (news db) /\
  map_Forall (fun _ c => is_Some (news db !! comment_news c) /\
     match comment_user c with Some u => is_Some (users db !! u) | None => False end) (comments db) /\
  map_Forall (fun _ l => is_Some (news db !! like_news l) /\ is_Some (users db !! like_user l)) (likes db) /\
  map_Forall (fun k1 l1 => map_Forall (fun k2 l2 =>
     like_user l1 = like_user l2 -> like_news l1 = like_news l2 -> k1 = k2) (likes db)) (likes db) /\
  map_Forall (fun n1 x1 => map_Forall (fun n2 x2 =>
     news_slug x1 = news_slug x2 -> n1 = n2) (news db)) (news db) /\
  map_Forall (fun c1 x1 => map_Forall (fun c2 x2 =>
     cat_slug x1 = cat_slug x2 -> c1 = c2) (categories db)) (categories db) /\
  map_Forall (fun c1 x1 => map_Forall (fun c2 x2 =>
     cat_name x1 = cat_name x2 -> c1 = c2) (categories db)) (categories db) /\
  map_Forall (fun k _ => k < next_user db) (users db) /\
  map_Forall (fun k _ => k < next_category db) (categories db) /\
  map_Forall (fun k1 x1 => map_Forall (fun k2 x2 =>
     username x1 = username x2 -> k1 = k2) (users db)) (users db).

#[export] Instance db_wf_check_dec db : Decision (db_wf_check db).
Proof.
  unfold db_wf_check.
  repeat (apply and_dec || apply map_Forall_dec || intros ??); try apply _.
  all: repeat case_match; apply _.
Defined.

Lemma db_wf_check_sound db : db_wf_check db -> db_wf db.
Proof.
  intros (Hc & Hl & Hn & Hco & Hli & Hlu & Hns & Hcs & Hcn & Hus & Hcq & Huu).
  split; intros *.
  - intros [? Hk]. exact (Hc _ _ Hk).
  - intros [? Hk]. exact (Hl _ _ Hk).
  - intros Hk. exact (proj1 (Hn _ _ Hk)).
  - intros Hk Hcat. pose proof (proj2 (Hn _ _ Hk)) as H. by rewrite Hcat in H.
  - intros Hk. exact (proj1 (Hco _ _ Hk)).
  - intros Hk. pose proof (proj2 (Hco _ _ Hk)) as H.
    destruct (comment_user c); [eauto|done].
  - intros Hk. exact (proj1 (Hli _ _ Hk)).
  - intros Hk. exact (proj2 (Hli _ _ Hk)).
  - intros H1 H2. exact (Hlu _ _ H1 _ _ H2).
  - intros H1 H2. exact (Hns _ _ H1 _ _ H2).
  - intros H1 H2. exact (Hcs _ _ H1 _ _ H2).
  - intros H1 H2. exact (Hcn _ _ H1 _ _ H2).
  - intros [? Hk]. exact (Hus _ _ Hk).
  - intros [? Hk]. exact (Hcq _ _ Hk).
  - intros H1 H2. exact (Huu _ _ H1 _ _ H2).
Qed.

(** ** A sample database *)

(** Alice's article in the category "sports". *)
Definition sample_news : News :=
  mkNews (Some 1) 1 "Cup final" "cup-final" "news_images/cup.jpg" "The final was played." 100 100 false.

(** Two users (alice, bob), the category "sports", one article of alice's
    in it, no comment and no like yet. *)
Definition sample_db : DB :=
  mkDB (<[2 := mkUser "bob" "bob@example.com" "pbkdf2$b"]>
          {[1 := mkUser "alice" "alice@example.com" "pbkdf2$a"]})
       {[1 := mkCategory "Sports" "sports"]}
       {[7%N := sample_news]}
       ∅ ∅ 3 2 1 1.

Lemma sample_db_wf : db_wf sample_db.
Proof. apply db_wf_check_sound. apply (bool_decide_eq_true_1 _). vm_compute. reflexivity. Qed.

(** ** Inserting a comment *)

Lemma comment_insert_ok db c u :
  comment_user c = Some u -> is_Some (users db !! u) -> is_Some (news db !! comment_news c) ->
  comment_insert db c =
    Ok (next_comment db,
        set_comments (<[next_comment db := c]> (comments db)) (S (next_comment db)) db).
Proof. intros Hu Hus Hn. unfold comment_insert. rewrite Hu. by rewrite !bool_decide_eq_true_2. Qed.

(** The NOT NULL constraint of [Comment.user]. *)
Lemma comment_insert_null_user db c :
  comment_user c = None -> comment_insert db c = Err IntegrityError.
Proof. intros Hu. unfold comment_insert. by rewrite Hu. Qed.

Lemma comment_insert_wf db c k db' :
  db_wf db -> comment_insert db c = Ok (k, db') -> db_wf db'.
Proof.
  intros Hwf Hi. unfold comment_insert in Hi.
  destruct (comment_user c) as [u|] eqn:Hu; [|done].
  destruct (bool_decide _ && _) eqn:Hb; res_inv.
  apply andb_true_iff in Hb as [Hus Hn]. apply bool_decide_eq_true in Hus, Hn.
  destruct Hwf; split; simpl; intros; wf_lookup; eauto.
  match goal with H : _ \/ _ |- _ => destruct H as [->|[_ ?%wf_comment_seq0]] end; lia.
Qed.

(** ** Deletes and their [on_delete] rules *)

Lemma news_delete_wf db n : db_wf db -> db_wf (news_delete db n).
Proof.
  intros []. split; simpl; intros; wf_lookup; simpl in *;
    try (rewrite lookup_delete_is_Some; split); eauto.
  - destruct H as [c' Hc]. apply map_lookup_filter_Some in Hc as [Hc ?]. eauto.
  - destruct H as [l' Hl]. apply map_lookup_filter_Some in Hl as [Hl ?]. eauto.
Qed.

Lemma news_delete_fold_wf db l : db_wf db -> db_wf (foldl news_delete db l).
Proof. revert db. induction l as [|n l IH]; intros db Hwf; [done|]. apply IH, news_delete_wf, Hwf. Qed.

(** What deleting a list of articles, one by one, leaves of each table. *)
Lemma news_delete_fold_tables db l :
  users (foldl news_delete db l) = users db /\ categories (foldl news_delete db l) = categories db /\
  (forall n x, news (foldl news_delete db l) !! n = Some x <-> news db !! n = Some x /\ n ∉ l) /\
  (forall k c, comments (foldl news_delete db l) !! k = Some c <->
     comments db !! k = Some c /\ comment_news c ∉ l) /\
  (forall k x, likes (foldl news_delete db l) !! k = Some x <->
     likes db !! k = Some x /\ like_news x ∉ l).
Proof.
  revert db. induction l as [|n l IH]; intros db.
  { split_and!; try done; intros; set_solver. }
  cbn [foldl]. destruct (IH (news_delete db n)) as (-> & -> & Hn & Hc & Hl). simpl.
  split_and!; try done; intros.
  - rewrite Hn. unfold news_delete. simpl. rewrite lookup_delete_Some. set_solver.
  - rewrite Hc. unfold news_delete. simpl. rewrite map_lookup_filter_Some. set_solver.
  - rewrite Hl. unfold news_delete. simpl. rewrite map_lookup_filter_Some. set_solver.
Qed.

Lemma elem_of_user_news db u n :
  n ∈ user_news db u <-> exists x, news db !! n = Some x /\ news_author x = u.
Proof.
  unfold user_news. rewrite list_elem_of_fmap. split.
  - intros ([n' x] & -> & Hin). apply elem_of_map_to_list, map_lookup_filter_Some in Hin. eauto.
  - intros (x & Hx & Hu). exists (n, x). split; [done|].
    apply elem_of_map_to_list, map_lookup_filter_Some. eauto.
Qed.

Lemma elem_of_user_news_author db u n :
  n ∈ user_news db u <-> news_author <$> news db !! n = Some u.
Proof.
  rewrite elem_of_user_news, fmap_Some. split; intros (x & ? & ?); eauto.
Qed.

Lemma user_delete_wf db u : db_wf db -> db_wf (user_delete db u).
Proof.
  intros Hwf. pose proof (news_delete_fold_wf db (user_news db u) Hwf) as Hwf1.
  destruct (news_delete_fold_tables db (user_news db u)) as (Hu & _ & Hn & _ & _).
  assert (forall n x, news (foldl news_delete db (user_news db u)) !! n = Some x -> news_author x <> u)
    as Hauthor by (intros n x (Hx & Hnot)%Hn Hx'; apply Hnot, elem_of_user_news; eauto).
  unfold user_delete, user_comment_cascade, user_like_cascade. destruct Hwf1. split; simpl; intros; wf_lookup; eauto.
  1,2: destruct H as [? H]; wf_lookup; eauto.
  - rewrite lookup_delete_is_Some. split; [intros Heq; symmetry in Heq; by eapply Hauthor|eauto].
  - destruct (wf_comment_user0 _ _ H) as (u' & Hu' & ?). exists u'.
    rewrite lookup_delete_is_Some. simpl in *. split; [done|]. split; [congruence|done].
  - rewrite lookup_delete_is_Some. simpl in *. split; [congruence|eauto].
  - destruct H. eauto.
Qed.

Lemma unset_category_keeps c x :
  news_author (unset_category c x) = news_author x /\ news_slug (unset_category c x) = news_slug x /\
  news_category (unset_category c x) =
    if bool_decide (news_category x = Some c) then None else news_category x.
Proof. unfold unset_category. by case_bool_decide. Qed.

Lemma category_delete_wf db c : db_wf db -> db_wf (category_delete db c).
Proof.
  intros []. split; simpl; eauto.
  - intros n x (y & <- & Hy)%lookup_fmap_Some.
    rewrite (proj1 (unset_category_keeps c y)). eauto.
  - intros n x c' (y & <- & Hy)%lookup_fmap_Some.
    destruct (unset_category_keeps c y) as (_ & _ & ->).
    case_bool_decide as Hc; [done|]. intros Hc'.
    rewrite lookup_delete_is_Some. split; [congruence|eauto].
  - intros k x Hk. rewrite lookup_fmap, fmap_is_Some. eauto.
  - intros k l Hk. rewrite lookup_fmap, fmap_is_Some. eauto.
  - intros n1 n2 x1 x2 (y1 & <- & Hy1)%lookup_fmap_Some (y2 & <- & Hy2)%lookup_fmap_Some.
    rewrite (proj1 (proj2 (unset_category_keeps c y1))), (proj1 (proj2 (unset_category_keeps c y2))).
    eauto.
  - intros c1 c2 x1 x2 H1 H2. apply lookup_delete_Some in H1 as [_ H1].
    apply lookup_delete_Some in H2 as [_ H2]. eauto.
  - intros c1 c2 x1 x2 H1 H2. apply lookup_delete_Some in H1 as [_ H1].
    apply lookup_delete_Some in H2 as [_ H2]. eauto.
  - intros k. rewrite lookup_delete_is_Some. intros [_ ?]. eauto.
Qed.

(** ** Inserts and updates preserve the invariant *)

Lemma news_insert_wf db nid x db' :
  db_wf db -> news_insert db nid x = Ok db' -> db_wf db'.
Proof.
  intros Hwf Hi. unfold news_insert in Hi.
  destruct (bool_decide _ && _ && _ && _) eqn:Hb; res_inv.
  apply andb_true_iff in Hb as [Hb Hcat]. apply andb_true_iff in Hb as [Hb Hau].
  apply andb_true_iff in Hb as [Hfresh Hslug].
  apply bool_decide_eq_true in Hfresh, Hslug, Hau.
  destruct Hwf; split; simpl; intros *; rewrite ?lookup_insert_is_Some; eauto.
  - intros [[<- <-]|[_ Hk]]%lookup_insert_Some; eauto.
  - intros [[<- <-]|[_ Hk]]%lookup_insert_Some Hc; eauto.
    rewrite Hc in Hcat. by apply bool_decide_eq_true in Hcat.
  - intros Hk. destruct (decide (nid = comment_news c)); [by left|right; eauto].
  - intros Hk. destruct (decide (nid = like_news l)); [by left|right; eauto].
  - intros [[<- <-]|[? H1]]%lookup_insert_Some [[<- <-]|[? H2]]%lookup_insert_Some Hs;
      eauto; exfalso.
    + by apply (Hslug n2 x2).
    + by apply (Hslug n1 x1).
Qed.

Lemma category_insert_wf db x k db' :
  db_wf db -> category_insert db x = Ok (k, db') -> db_wf db'.
Proof.
  intros Hwf Hi. unfold category_insert in Hi.
  case_bool_decide as Huniq; res_inv.
  destruct Hwf; split; simpl; intros *; eauto.
  - intros Hn Hc. rewrite lookup_insert_is_Some.
    destruct (decide (next_category db = c)); [by left|right; eauto].
  - intros [[<- <-]|[? H1]]%lookup_insert_Some [[<- <-]|[? H2]]%lookup_insert_Some Hs;
      eauto; exfalso.
    + by apply (proj2 (Huniq c2 x2 H2)).
    + by apply (proj2 (Huniq c1 x1 H1)).
  - intros [[<- <-]|[? H1]]%lookup_insert_Some [[<- <-]|[? H2]]%lookup_insert_Some Hs;
      eauto; exfalso.
    + by apply (proj1 (Huniq c2 x2 H2)).
    + by apply (proj1 (Huniq c1 x1 H1)).
  - intros [<-|[_ Hk]]%lookup_insert_is_Some; [lia|].
    match goal with H : forall k, is_Some (categories db !! k) -> _ |- _ => specialize (H k Hk) end. lia.
Qed.

Lemma user_insert_ok db x :
  map_Forall (fun _ y => username y <> username x) (users db) ->
  user_insert db x = Ok (next_user db, set_users (<[next_user db := x]> (users db)) (S (next_user db)) db).
Proof. intros Hu. unfold user_insert. by rewrite bool_decide_eq_true_2. Qed.

Lemma user_insert_wf db x k db' :
  db_wf db -> user_insert db x = Ok (k, db') -> db_wf db'.
Proof.
  intros Hwf Hi. unfold user_insert in Hi.
  case_bool_decide as Huniq; res_inv.
  destruct Hwf; split; simpl; intros *; eauto.
  all: try (intros; rewrite ?lookup_insert_is_Some'; by eauto).
  - intros Hk. destruct (wf_comment_user0 k c Hk) as (u & ? & ?).
    exists u. rewrite lookup_insert_is_Some'. eauto.
  - intros [<-|[_ Hk]]%lookup_insert_is_Some; [lia|].
    match goal with H : forall k, is_Some (users db !! k) -> _ |- _ => specialize (H k Hk) end. lia.
  - intros [[<- <-]|[? H1]]%lookup_insert_Some [[<- <-]|[? H2]]%lookup_insert_Some Hs;
      eauto; exfalso.
    + by apply (Huniq k2 x2 H2).
    + by apply (Huniq k1 x1 H1).
Qed.

Lemma like_update_wf db k row db' :
  db_wf db -> is_Some (likes db !! k) -> like_update db k row = Ok db' -> db_wf db'.
Proof.
  intros Hwf Hk Hu. unfold like_update in Hu.
  destruct (bool_decide _ && _ && _) eqn:Hb; res_inv.
  apply andb_true_iff in Hb as [[Hus Hn]%andb_true_iff Hfree].
  apply bool_decide_eq_true in Hus, Hn, Hfree.
  destruct Hwf; split; simpl; intros *; eauto.
  - rewrite lookup_insert_is_Some. intros [<-|[_ ?]]; eauto.
  - intros [[<- <-]|[_ ?]]%lookup_insert_Some; eauto.
  - intros [[<- <-]|[_ ?]]%lookup_insert_Some; eauto.
  - intros [[<- <-]|[? H1]]%lookup_insert_Some [[<- <-]|[? H2]]%lookup_insert_Some Hu' Hn';
      eauto; exfalso.
    + destruct (Hfree k2 l2 H2) as [|Hm]; [done|]. rewrite Hu', Hn' in Hm.
      unfold like_matches in Hm. by rewrite !bool_decide_eq_true_2 in Hm.
    + destruct (Hfree k1 l1 H1) as [|Hm]; [done|]. rewrite <-Hu', <-Hn' in Hm.
      unfold like_matches in Hm. by rewrite !bool_decide_eq_true_2 in Hm.
Qed.

Lemma news_update_wf db nid x db' :
  db_wf db -> is_Some (news db !! nid) -> news_update db nid x = Ok db' -> db_wf db'.
Proof.
  intros Hwf Hn Hu. unfold news_update in Hu.
  destruct (bool_decide _ && _ && _) eqn:Hb; res_inv.
  apply andb_true_iff in Hb as [[Hs Hau]%andb_true_iff Hc]. apply bool_decide_eq_true in Hs, Hau.
  destruct Hwf; split; simpl; intros *; eauto.
  all: try (rewrite lookup_insert_is_Some; intros; destruct (decide (nid = comment_news c));
            [by left|right; eauto]).
  - intros [[<- <-]|[_ ?]]%lookup_insert_Some; eauto.
  - intros [[<- <-]|[_ ?]]%lookup_insert_Some Hcat; [|eauto].
    rewrite Hcat in Hc. by apply bool_decide_eq_true in Hc.
  - rewrite lookup_insert_is_Some. destruct (decide (nid = like_news l)); [by left|right; eauto].
  - intros [[<- <-]|[? H1]]%lookup_insert_Some [[<- <-]|[? H2]]%lookup_insert_Some Hsl;
      eauto; exfalso.
    + by destruct (Hs n2 x2 H2).
    + by destruct (Hs n1 x1 H1).
Qed.

Lemma category_update_wf db k x db' :
  db_wf db -> is_Some (categories db !! k) -> category_update db k x = Ok db' -> db_wf db'.
Proof.
  intros Hwf Hk Hu. unfold category_update in Hu.
  case_bool_decide as Huniq; res_inv.
  destruct Hwf; split; simpl; intros *; eauto.
  - intros Hn Hc. rewrite lookup_insert_is_Some. destruct (decide (k = c)); [by left|right; eauto].
  - intros [[<- <-]|[? H1]]%lookup_insert_Some [[<- <-]|[? H2]]%lookup_insert_Some Hs;
      eauto; exfalso.
    + by destruct (Huniq c2 x2 H2) as [|[_ ?]].
    + by destruct (Huniq c1 x1 H1) as [|[_ ?]].
  - intros [[<- <-]|[? H1]]%lookup_insert_Some [[<- <-]|[? H2]]%lookup_insert_Some Hs;
      eauto; exfalso.
    + by destruct (Huniq c2 x2 H2) as [|[? _]].
    + by destruct (Huniq c1 x1 H1) as [|[? _]].
  - rewrite lookup_insert_is_Some. intros [<-|[_ ?]]; eauto.
Qed.

Lemma comment_update_wf db k c db' :
  db_wf db -> is_Some (Models.comments db !! k) -> comment_update db k c = Ok db' -> db_wf db'.
Proof.
  intros Hwf Hk Hu. unfold comment_update in Hu.
  destruct (comment_user c) as [u|] eqn:Hcu; [|done].
  destruct (bool_decide _ && _) eqn:Hb; res_inv.
  apply andb_true_iff in Hb as [Hn Hus]. apply bool_decide_eq_true in Hn, Hus.
  destruct Hwf; split; simpl; intros *; eauto.
  - rewrite lookup_insert_is_Some. intros [<-|[_ ?]]; eauto.
  - intros [[<- <-]|[_ ?]]%lookup_insert_Some; eauto.
  - intros [[<- <-]|[_ ?]]%lookup_insert_Some; eauto.
Qed.

Lemma comment_delete_wf db k : db_wf db -> db_wf (comment_delete db k).
Proof. intros []. split; simpl; intros; wf_lookup; eauto. destruct H as [_ ?]. eauto. Qed.

(** ** Deleting a user *)

(** C15: deleting a user follows the three CASCADE keys to User.  On a
    database satisfying the invariant, [user.delete()] keeps the
    invariant; it removes the user's row and no other user; it keeps the
    categories; the articles left are exactly those of other authors;
    the comments and likes left are exactly those neither written by
    the user nor attached to one of the user's articles. *)
Theorem user_delete_spec db u :
  db_wf db ->
  db_wf (user_delete db u) /\
  users (user_delete db u) !! u = None /\
  (forall v, v <> u -> users (user_delete db u) !! v = users db !! v) /\
  categories (user_delete db u) = categories db /\
  (forall n x, news (user_delete db u) !! n = Some x <-> news db !! n = Some x /\ news_author x <> u) /\
  (forall k c, Models.comments (user_delete db u) !! k = Some c <->
     Models.comments db !! k = Some c /\ comment_user c <> Some u /\
     news_author <$> news db !! comment_news c <> Some u) /\
  (forall k l, likes (user_delete db u) !! k = Some l <->
     likes db !! k = Some l /\ like_user l <> u /\ news_author <$> news db !! like_news l <> Some u).
Proof.
  intros Hwf. split; [by apply user_delete_wf|].
  destruct (news_delete_fold_tables db (user_news db u)) as (Hu & Hc & Hn & Hco & Hl).
  unfold user_delete, user_comment_cascade, user_like_cascade. simpl. rewrite Hu, Hc.
  split_and!; intros.
  - apply lookup_delete_eq.
  - by apply lookup_delete_ne.
  - done.
  - rewrite Hn, elem_of_user_news. split.
    + intros [Hx Hnot]. split; [done|]. intros Ha. apply Hnot. eauto.
    + intros [Hx Ha]. split; [done|]. intros (y & Hy & <-). congruence.
  - rewrite map_lookup_filter_Some, Hco, elem_of_user_news_author. simpl. tauto.
  - rewrite map_lookup_filter_Some, Hl, elem_of_user_news_author. simpl. tauto.
Qed.

Lemma user_delete_spec_witness :
  db_wf sample_db /\ db_wf (user_delete sample_db 1) /\ users (user_delete sample_db 1) !! 1 = None.
Proof.
  split; [exact sample_db_wf|].
  destruct (user_delete_spec sample_db 1 sample_db_wf) as (H1 & H2 & _). split; [exact H1|exact H2].
Defined.

