(* ===== verification/Auth.v ===== *)
(** * Auth: requests, token authentication and the permission classes

    Every view of [views.py] runs behind rest_framework's pipeline
    ([APIView.initial]): the request is authenticated first (the bearer
    token of simplejwt names a user, who must exist), then the view's
    [permission_classes] are checked, and only then the handler runs.
    A denied anonymous request is [NotAuthenticated] (401), a denied
    authenticated one [PermissionDenied] (403).  The permission classes a
    view declares are the only part of this file taken from the
    repository ([views.py]); the pipeline itself is the framework's. *)

From stdpp Require Import base gmap strings list.
From S2P Require Import Prelude Models.

Inductive Method := GET | HEAD | OPTIONS | POST | PUT | PATCH | DELETE.

#[export] Instance Method_eq_dec : EqDecision Method.
Proof. solve_decision. Defined.

(** [rest_framework.permissions.SAFE_METHODS]. *)
Definition is_safe_method (m : Method) : bool :=
  match m with GET | HEAD | OPTIONS => true | _ => false end.

(** A request as the views see it. *)
Record Request := mkRequest {
  req_method : Method;
  req_token : option nat;            (* user id named by a valid bearer token *)
  req_category : option string;      (* request.query_params.get('category') *)
  req_now : Z;                       (* timezone.now() during the request *)
}.

(** [JWTAuthentication.authenticate]: no header is the anonymous user; a
    token whose user is gone is [AuthenticationFailed]. *)
Definition authenticate (db : DB) (r : Request) : result (option nat) :=
  match req_token r with
  | None => Ok None
  | Some u => if bool_decide (is_Some (users db !! u)) then Ok (Some u) else Err AuthenticationFailed
  end.

(** The permission classes the views declare. *)
Inductive PermissionClass := AllowAny | IsAuthenticated | IsAuthenticatedOrReadOnly.

(** [BasePermission.has_permission] of each class. *)
Definition has_permission (p : PermissionClass) (m : Method) (user : option nat) : bool :=
  match p with
  | AllowAny => true
  | IsAuthenticated => bool_decide (is_Some user)
  | IsAuthenticatedOrReadOnly => is_safe_method m || bool_decide (is_Some user)
  end.

(** [APIView.initial] followed by the handler. *)
Definition dispatch {A} (db : DB) (perm : PermissionClass) (r : Request)
    (handler : option nat -> result A) : result A :=
  user ← authenticate db r;
  if has_permission perm (req_method r) user then handler user
  else Err (if bool_decide (is_Some user) then PermissionDenied else NotAuthenticated).

(** ** The permission classes of [views.py] *)

Definition RegisterView_permission := AllowAny.
Definition CategoryViewSet_permission := AllowAny.
Definition NewsViewSet_permission := IsAuthenticatedOrReadOnly.
Definition like_permission := IsAuthenticated.
Definition comments_permission := AllowAny.
Definition CommentViewSet_permission := IsAuthenticatedOrReadOnly.
Definition LikeViewSet_permission := IsAuthenticated.

(** ** Lemmas of the pipeline *)

Lemma authenticate_ok db r u :
  authenticate db r = Ok (Some u) -> req_token r = Some u /\ is_Some (users db !! u).
Proof.
  unfold authenticate. destruct (req_token r); [|done].
  case_bool_decide; intros; res_inv; done.
Qed.

Lemma dispatch_anonymous {A} db perm r (h : option nat -> result A) :
  req_token r = None ->
  dispatch db perm r h =
    if has_permission perm (req_method r) None then h None else Err NotAuthenticated.
Proof. intros Ht. unfold dispatch, authenticate. by rewrite Ht. Qed.

(** Every permission class of the project admits an authenticated
    caller. *)
Lemma has_permission_some p m u : has_permission p m (Some u) = true.
Proof. destruct p; simpl; rewrite ?bool_decide_eq_true_2 by eauto; by rewrite ?orb_true_r. Qed.

Lemma dispatch_user {A} db perm r (h : option nat -> result A) u :
  req_token r = Some u -> is_Some (users db !! u) ->
  dispatch db perm r h =
    if has_permission perm (req_method r) (Some u) then h (Some u) else Err PermissionDenied.
Proof.
  intros Ht Hu. unfold dispatch, authenticate. rewrite Ht.
  case_bool_decide; [|done]. simpl. by destruct (has_permission _ _ _).
Qed.

(** A handler only ever runs for a user the pipeline accepted. *)
Lemma dispatch_runs {A} db perm r (h : option nat -> result A) a :
  dispatch db perm r h = Ok a ->
  exists user, authenticate db r = Ok user /\ has_permission perm (req_method r) user = true /\
               h user = Ok a.
Proof.
  unfold dispatch. destruct (authenticate db r) as [user|]; simpl; [|done].
  destruct (has_permission _ _ _) eqn:?; [eauto|]. by case_bool_decide.
Qed.

(** Under [AllowAny] the handler runs for whoever authenticates. *)
Lemma dispatch_allow_any {A} db r (h : option nat -> result A) user :
  authenticate db r = Ok user -> dispatch db AllowAny r h = h user.
Proof. intros Ha. unfold dispatch. by rewrite Ha. Qed.
