(* ===== verification/Serializers.v ===== *)
(** * Serializers: [serializers.py]

    [CommentSerializer] as the views use it: the validation of the
    writable fields ([news], [name], [email], [comment]; [user],
    [timestamp] and [user_name] are read-only) with rest_framework's
    [CharField] rules (required, whitespace stripped, blank refused,
    [max_length] from the model), and the representation of a saved
    comment with the [user_name] fallback.  [NewsSerializer]'s two
    computed fields, [likes_count] and [comments_count].  Django's
    [EmailValidator] is the parameter [email_ok]: it is a regular
    expression of the framework, not code of this repository. *)

From stdpp Require Import base gmap strings list.
From S2P Require Import Prelude Models.

(** ** Validation of a comment *)

(** The request body; an absent key is [None].  The news key is a UUID. *)
Record CommentInput := mkCommentInput {
  in_news : option N;
  in_name : option string;
  in_email : option string;
  in_comment : option string;
}.

(** [serializer.validated_data]. *)
Record CommentValid := mkCommentValid {
  v_news : N;
  v_name : string;
  v_email : string;
  v_comment : string;
}.

Definition msg_required : string := "This field is required.".
Definition msg_blank : string := "This field may not be blank.".
Definition msg_max_length : string := "Ensure this field has no more than max_length characters.".
Definition msg_email : string := "Enter a valid email address.".
Definition msg_pk : string := "Invalid pk - object does not exist.".
Definition msg_null_char : string := "Null characters are not allowed.".
Definition msg_slug : string :=
  "Enter a valid slug consisting of letters, numbers, underscores or hyphens.".
Definition msg_image : string := "Upload a valid image.".
Definition msg_unique_together : string := "The fields user, news must make a unique set.".

(** A validator of a field: the test and the message when it fails. *)
Definition validator := ((string -> bool) * string)%type.

(** [MaxLengthValidator(n)], which [CharField] adds for [max_length]. *)
Definition max_length_validator (n : nat) : validator :=
  (fun value => bool_decide (String.length value <= n), msg_max_length).

(** [ProhibitNullCharactersValidator], which every [CharField] has. *)
Definition no_null_validator : validator :=
  (fun value => negb (bool_decide (Ascii.ascii_of_nat 0 ∈ String.list_ascii_of_string value)),
   msg_null_char).

(** [Field.run_validators]: the validators all run, in order, and the
    messages of those that fail accumulate. *)
Definition run_validators (validators : list validator) (value : string) : list string + string :=
  match omap (fun vd : validator => if vd.1 value then None else Some vd.2) validators with
  | [] => inr value
  | errs => inl errs
  end.

(** [CharField.run_validation] with [trim_whitespace=True] and
    [allow_blank=False]: the messages of a field, or its value. *)
Definition char_field (validators : list validator) (v : option string) : list string + string :=
  match v with
  | None => inl [msg_required]
  | Some raw =>
      let value := py_strip raw in
      if negb (py_truthy value) then inl [msg_blank] else run_validators validators value
  end.

(** The characters of [validate_slug]: [^[-a-zA-Z0-9_]+\Z]. *)
Definition is_slug_char (c : Ascii.ascii) : bool :=
  let n := Ascii.nat_of_ascii c in
  ((48 <=? n) && (n <=? 57)) || ((65 <=? n) && (n <=? 90)) || ((97 <=? n) && (n <=? 122)) ||
  (n =? 45) || (n =? 95).

(** The [RegexValidator] that [SlugField] adds. *)
Definition slug_validator : validator :=
  (fun value => forallb is_slug_char (String.list_ascii_of_string value), msg_slug).

(** [UniqueValidator(queryset)] of a model field: no other row (the
    instance being updated excepted) holds the value. *)
Definition unique_validator {K V} `{Countable K} (field : V -> string) (tbl : gmap K V)
    (instance : option K) (msg : string) : validator :=
  (fun value => bool_decide (map_Forall (fun k x => instance = Some k \/ field x <> value) tbl), msg).

(** [PrimaryKeyRelatedField(queryset=News.objects.all())]. *)
Definition news_pk_field (db : DB) (v : option N) : list string + N :=
  match v with
  | None => inl [msg_required]
  | Some n => if bool_decide (is_Some (news db !! n)) then inr n else inl [msg_pk]
  end.

Definition field_errors {A} (name : string) (r : list string + A) : list (string * string) :=
  match r with inl msgs => (fun m => (name, m)) <$> msgs | inr _ => [] end.

Section comment_validation.
Variable email_ok : string -> bool.

(** [CommentSerializer(data=request.data).is_valid()]: every writable
    field is validated, in the order of [Meta.fields], and the errors of
    all fields are reported together. *)
Definition validate_comment (db : DB) (d : CommentInput) : list (string * string) + CommentValid :=
  let news_r := news_pk_field db (in_news d) in
  let name_r := char_field [max_length_validator 100; no_null_validator] (in_name d) in
  let email_r := char_field [max_length_validator 254; no_null_validator; (email_ok, msg_email)]
                   (in_email d) in
  let comment_r := char_field [no_null_validator] (in_comment d) in
  match news_r, name_r, email_r, comment_r with
  | inr n, inr nm, inr em, inr c => inr (mkCommentValid n nm em c)
  | _, _, _, _ =>
      inl (field_errors "news" news_r ++ field_errors "name" name_r ++
           field_errors "email" email_r ++ field_errors "comment" comment_r)
  end.
End comment_validation.

(** ** Validation of a category, an article and a like *)

Record CategoryInput := mkCategoryInput {
  in_cat_name : option string;
  in_cat_slug : option string;
}.

(** [CategorySerializer(data=...).is_valid()] for a create: both fields
    are unique ([UniqueValidator] first, as rest_framework builds it). *)
Definition validate_category (db : DB) (d : CategoryInput) : list (string * string) + Category :=
  let name_r := char_field [unique_validator cat_name (categories db) None
                              "category with this name already exists.";
                            max_length_validator 100; no_null_validator] (in_cat_name d) in
  let slug_r := char_field [unique_validator cat_slug (categories db) None
                              "category with this slug already exists.";
                            max_length_validator 100; no_null_validator; slug_validator]
                  (in_cat_slug d) in
  match name_r, slug_r with
  | inr nm, inr sl => inr (mkCategory nm sl)
  | _, _ => inl (field_errors "name" name_r ++ field_errors "slug" slug_r)
  end.

Record NewsInput := mkNewsInput {
  in_title : option string;
  in_slug : option string;
  in_category_id : option nat;
  in_image : option string;       (* the uploaded file's name *)
  in_body : option string;
  in_is_breaking : option bool;
}.

Record NewsValid := mkNewsValid {
  nv_title : string;
  nv_slug : string;
  nv_category : nat;
  nv_image : string;
  nv_body : string;
  nv_is_breaking : bool;
}.

(** [PrimaryKeyRelatedField(queryset=Category.objects.all())], required. *)
Definition category_pk_field (db : DB) (v : option nat) : list string + nat :=
  match v with
  | None => inl [msg_required]
  | Some c => if bool_decide (is_Some (categories db !! c)) then inr c else inl [msg_pk]
  end.

Section news_validation.
Variable image_ok : string -> bool.

(** [NewsSerializer(data=...).is_valid()] for a create: the writable
    fields of [Meta.fields] in order ([category_id] is the write-only
    key of [category]; [author], the dates and the counts are read-only).
    [image_ok] is the [ImageField] check of the upload (Pillow). *)
Definition validate_news (db : DB) (d : NewsInput) : list (string * string) + NewsValid :=
  let title_r := char_field [max_length_validator 255; no_null_validator] (in_title d) in
  let slug_r := char_field [unique_validator news_slug (news db) None
                              "news with this slug already exists.";
                            max_length_validator 255; no_null_validator; slug_validator]
                  (in_slug d) in
  let cat_r := category_pk_field db (in_category_id d) in
  let image_r : list string + string :=
    match in_image d with
    | None => inl [msg_required]
    | Some f => if image_ok f then inr f else inl [msg_image]
    end in
  let body_r := char_field [no_null_validator] (in_body d) in
  match title_r, slug_r, cat_r, image_r, body_r with
  | inr t, inr sl, inr c, inr im, inr b =>
      inr (mkNewsValid t sl c im b (default false (in_is_breaking d)))
  | _, _, _, _, _ =>
      inl (field_errors "title" title_r ++ field_errors "slug" slug_r ++
           field_errors "category_id" cat_r ++ field_errors "image" image_r ++
           field_errors "body" body_r)
  end.
End news_validation.

Record LikeInput := mkLikeInput {
  in_like_user : option nat;
  in_like_news : option N;
  in_is_liked : option bool;
}.

(** [PrimaryKeyRelatedField(queryset=User.objects.all())]. *)
Definition user_pk_field (db : DB) (v : option nat) : list string + nat :=
  match v with
  | None => inl [msg_required]
  | Some u => if bool_decide (is_Some (users db !! u)) then inr u else inl [msg_pk]
  end.

(** [LikeSerializer(instance, data, partial).is_valid()]: on a create
    ([instance = None]) [user] and [news] are required (the
    [UniqueTogetherValidator] makes them so); on a partial update an
    absent field keeps the instance's value.  The [unique_together]
    check runs only once every field is valid, on the values the
    serializer would save, excluding the instance. *)
Definition validate_like (db : DB) (instance : option (nat * Like)) (d : LikeInput)
    : list (string * string) + (nat * N * bool) :=
  let user_r := match in_like_user d, instance with
                | None, Some (_, l) => inr (like_user l)
                | v, _ => user_pk_field db v
                end in
  let news_r := match in_like_news d, instance with
                | None, Some (_, l) => inr (like_news l)
                | v, _ => news_pk_field db v
                end in
  let liked := match in_is_liked d, instance with
               | Some b, _ => b
               | None, Some (_, l) => is_liked l
               | None, None => true
               end in
  match user_r, news_r with
  | inr u, inr n =>
      if bool_decide (map_Forall (fun k l => fst <$> instance = Some k \/
                                  like_user l <> u \/ like_news l <> n) (likes db))
      then inr (u, n, liked)
      else inl [("non_field_errors", msg_unique_together)]
  | _, _ => inl (field_errors "user" user_r ++ field_errors "news" news_r)
  end.

(** ** Representations *)

(** [CommentSerializer(instance).data]. *)
Record CommentData := mkCommentData {
  cd_id : nat;
  cd_news : N;
  cd_user : option nat;
  cd_name : string;
  cd_email : string;
  cd_comment : string;
  cd_timestamp : Z;
  cd_user_name : string;
}.

(** [get_user_name]: the author's username, or the stored name when the
    comment has no user.  Reading [obj.user] for a user id whose row is
    gone raises. *)
Definition get_user_name (db : DB) (c : Comment) : result string :=
  match comment_user c with
  | Some u =>
      match users db !! u with
      | Some usr => Ok (username usr)
      | None => Err DoesNotExist
      end
  | None => Ok (comment_name c)
  end.

Definition comment_data (db : DB) (k : nat) (c : Comment) : result CommentData :=
  un ← get_user_name db c;
  Ok (mkCommentData k (comment_news c) (comment_user c) (comment_name c) (comment_email c)
                    (comment_body c) (comment_timestamp c) un).

(** [NewsSerializer.get_likes_count]: the rows flagged liked. *)
Definition get_likes_count (db : DB) (n : N) : nat :=
  count_where (fun l => bool_decide (like_news l = n) && is_liked l) (likes db).

(** [NewsSerializer.get_comments_count]. *)
Definition get_comments_count (db : DB) (n : N) : nat :=
  count_where (comment_of n) (comments db).

(** [CategorySerializer(instance).data]. *)
Record CategoryData := mkCategoryData {
  catd_id : nat;
  catd_name : string;
  catd_slug : string;
}.

(** [NewsSerializer(instance).data]: [category] nested, [author] as
    [str(user)] (the username), the two computed counts. *)
Record NewsData := mkNewsData {
  nd_id : N;
  nd_title : string;
  nd_slug : string;
  nd_category : option CategoryData;
  nd_author : string;
  nd_image : string;
  nd_body : string;
  nd_date_posted : Z;
  nd_updated_at : Z;
  nd_is_breaking : bool;
  nd_likes_count : nat;
  nd_comments_count : nat;
}.

Definition news_data (db : DB) (nid : N) (x : News) : result NewsData :=
  author ← match users db !! news_author x with
           | Some usr => Ok (username usr)
           | None => Err DoesNotExist
           end;
  cat ← match news_category x with
        | None => Ok None
        | Some c =>
            match categories db !! c with
            | Some y => Ok (Some (mkCategoryData c (cat_name y) (cat_slug y)))
            | None => Err DoesNotExist
            end
        end;
  Ok (mkNewsData nid (news_title x) (news_slug x) cat author (news_image x) (news_body x)
                 (news_date_posted x) (news_updated_at x) (news_is_breaking x)
                 (get_likes_count db nid) (get_comments_count db nid)).

(** [LikeSerializer(instance).data]. *)
Record LikeData := mkLikeData {
  ld_id : nat;
  ld_user : nat;
  ld_news : N;
  ld_is_liked : bool;
  ld_timestamp : Z;
}.

Definition like_data (k : nat) (l : Like) : LikeData :=
  mkLikeData k (like_user l) (like_news l) (is_liked l) (like_timestamp l).

(** ** Lemmas *)

(** A required field that is absent is reported as such, whatever the
    other fields hold. *)
Lemma validate_comment_required email_ok db d field :
  (field = "news" /\ in_news d = None) \/ (field = "name" /\ in_name d = None) \/
  (field = "email" /\ in_email d = None) \/ (field = "comment" /\ in_comment d = None) ->
  exists errs, validate_comment email_ok db d = inl errs /\ (field, msg_required) ∈ errs.
Proof.
  intros Hf. unfold validate_comment.
  destruct Hf as [[-> Hn]|[[-> Hn]|[[-> Hn]|[-> Hn]]]]; rewrite Hn; simpl;
    repeat case_match; simplify_eq; eexists; (split; [reflexivity|]); set_solver.
Qed.

(** A stored comment's author exists under the invariant, so its
    representation is total; [comment_repr] is that representation. *)
Definition comment_repr (db : DB) (kc : nat * Comment) : CommentData :=
  mkCommentData kc.1 (comment_news kc.2) (comment_user kc.2) (comment_name kc.2)
    (comment_email kc.2) (comment_body kc.2) (comment_timestamp kc.2)
    (match comment_user kc.2 ≫= (fun u => users db !! u) with
     | Some usr => username usr
     | None => comment_name kc.2
     end).

Lemma comment_data_stored db k c :
  db_wf db -> comments db !! k = Some c -> comment_data db k c = Ok (comment_repr db (k, c)).
Proof.
  intros Hwf Hk. destruct (wf_comment_user _ Hwf _ _ Hk) as (u & Hu & [usr Husr]).
  unfold comment_data, get_user_name, comment_repr. simpl. rewrite Hu. simpl. by rewrite Husr.
Qed.

(** [user_name] of a stored comment is always its author's username: the
    fallback to [name] is dead code while [Comment.user] is NOT NULL. *)
Lemma comment_repr_user_name db k c :
  db_wf db -> comments db !! k = Some c ->
  exists u usr, comment_user c = Some u /\ users db !! u = Some usr /\
                cd_user_name (comment_repr db (k, c)) = username usr.
Proof.
  intros Hwf Hk. destruct (wf_comment_user _ Hwf _ _ Hk) as (u & Hu & [usr Husr]).
  exists u, usr. unfold comment_repr. simpl. rewrite Hu. simpl. by rewrite Husr.
Qed.

(** A value a [CharField] accepts passes every one of its validators. *)
Lemma run_validators_ok vs value value' :
  run_validators vs value = inr value' ->
  value' = value /\ Forall (fun vd : validator => vd.1 value = true) vs.
Proof.
  unfold run_validators. destruct (omap _ vs) as [|m ms] eqn:Hom; [|done]. intros [= <-].
  split; [done|]. induction vs as [|vd vs IH]; [done|]. simpl in Hom.
  destruct (vd.1 value) eqn:Hvd; [|done]. constructor; auto.
Qed.

(** A failing validator's message is among the field's messages. *)
Lemma run_validators_fail vs value (vd : validator) :
  vd ∈ vs -> vd.1 value = false -> exists msgs, run_validators vs value = inl msgs /\ vd.2 ∈ msgs.
Proof.
  intros Hin Hf. unfold run_validators.
  assert (Hm : vd.2 ∈ omap (fun vd : validator => if vd.1 value then None else Some vd.2) vs).
  { apply list_elem_of_omap. exists vd. by rewrite Hf. }
  destruct (omap _ vs); [set_solver|]. eauto.
Qed.

(** A field that validates holds the stripped, non-blank value of the
    body's key. *)
Lemma char_field_value vs v value :
  char_field vs v = inr value -> exists raw, v = Some raw /\ value = py_strip raw /\ py_truthy value = true.
Proof.
  unfold char_field. destruct v as [raw|]; [|done].
  destruct (py_truthy (py_strip raw)) eqn:Ht; [|done]. simpl.
  intros (-> & _)%run_validators_ok. eauto.
Qed.

Lemma char_field_ok vs v value :
  char_field vs v = inr value -> Forall (fun vd : validator => vd.1 value = true) vs.
Proof.
  unfold char_field. destruct v as [raw|]; [|done].
  destruct (negb (py_truthy (py_strip raw))); [done|].
  intros (-> & ?)%run_validators_ok. done.
Qed.

Lemma unique_validator_ok {K V} `{Countable K} (field : V -> string) (tbl : gmap K V) msg value :
  (unique_validator field tbl None msg).1 value = true ->
  map_Forall (fun _ x => field x <> value) tbl.
Proof.
  simpl. rewrite bool_decide_eq_true. intros Hall k x Hk.
  destruct (Hall k x Hk) as [?|?]; done.
Qed.

(** What a valid article body guarantees: a fresh slug and an existing
    category. *)
Lemma validate_news_sound image_ok db d v :
  validate_news image_ok db d = inr v ->
  map_Forall (fun _ y => news_slug y <> nv_slug v) (news db) /\ is_Some (categories db !! nv_category v).
Proof.
  unfold validate_news.
  destruct (char_field _ (in_slug d)) as [|sl] eqn:Hsl; [by repeat case_match|].
  destruct (category_pk_field db (in_category_id d)) as [|c] eqn:Hc; [by repeat case_match|].
  repeat case_match; intros; simplify_eq/=.
  apply char_field_ok, Forall_cons in Hsl as [Hu _]. split; [by eapply unique_validator_ok|].
  unfold category_pk_field in Hc. destruct (in_category_id d); [|done].
  case_bool_decide; by simplify_eq.
Qed.

(** What a valid comment body guarantees: its article exists. *)
Lemma validate_comment_news email_ok db d v :
  validate_comment email_ok db d = inr v -> is_Some (news db !! v_news v).
Proof.
  unfold validate_comment. destruct (news_pk_field db (in_news d)) as [|n] eqn:Hn;
    repeat case_match; intros; simplify_eq/=.
  unfold news_pk_field in Hn. destruct (in_news d); [|done]. case_bool_decide; by simplify_eq.
Qed.
