(* ===== verification/NewsViews.v ===== *)
(** * NewsViews: [NewsViewSet] of [views.py]

    [get_queryset] (the optional [?category=] filter), the object lookup
    by slug that every detail route and the [like] action go through
    ([GenericAPIView.get_object] over [get_queryset]), and the [like]
    action: [get_or_create] the (news, user) Like row, delete it if it
    was already there, and answer [liked] with the article's row count.
    The theorems show that the action is a toggle, that the count it
    reports is the row count after the call, that it preserves the
    database invariant, and in which order its errors come. *)

From stdpp Require Import base gmap strings list sorting.
From S2P Require Import Prelude Models Auth Serializers.

(** ** Queryset and lookup *)

(** [filter(category__slug=s)]: a join, so a news item without category
    never matches. *)
Definition in_category (db : DB) (s : string) (x : News) : bool :=
  match news_category x with
  | Some c =>
      match categories db !! c with
      | Some cat => bool_decide (cat_slug cat = s)
      | None => false
      end
  | None => false
  end.

(** [NewsViewSet.get_queryset]: filter only when the parameter is truthy. *)
Definition get_queryset (db : DB) (r : Request) : gmap N News :=
  match req_category r with
  | Some category_slug =>
      if py_truthy category_slug
      then filter (fun kv : N * News => in_category db category_slug kv.2 = true) (news db)
      else news db
  | None => news db
  end.

(** [self.get_object()] with [lookup_field = 'slug']: [get_object_or_404]
    over the view's queryset. *)
Definition get_object (db : DB) (r : Request) (slug : string) : result (N * News) :=
  found ← qs_get (fun x => bool_decide (news_slug x = slug)) (get_queryset db r);
  match found with
  | Some kv => Ok kv
  | None => Err NotFound
  end.

(** ** The [like] action *)

(** The body [{"liked": liked, "likes_count": ...}]. *)
Record LikeResponse := mkLikeResponse {
  liked : bool;
  likes_count : nat;
}.

(** [NewsViewSet.like], routed for POST only, behind [IsAuthenticated].
    The anonymous branch is unreachable behind the permission (Django
    would refuse an [AnonymousUser] as the [user] of a Like). *)
Definition like (db : DB) (r : Request) (slug : string) : result (LikeResponse * DB) :=
  dispatch db like_permission r (fun user =>
    match user with
    | None => Err ServerError
    | Some u =>
        '(nid, _) ← get_object db r slug;
        '(like_obj, created, db1) ← get_or_create db u nid (req_now r);
        let '(db2, liked) :=
          if negb created then (like_delete db1 like_obj.1, false) else (db1, true) in
        Ok (mkLikeResponse liked (like_set_count db2 nid), db2)
    end).

(** [k] successive calls of the action by the same client. *)
Fixpoint like_n (k : nat) (db : DB) (r : Request) (slug : string) : result DB :=
  match k with
  | 0 => Ok db
  | S k' => '(_, db1) ← like db r slug; like_n k' db1 r slug
  end.

(** ** The queryset and the lookup *)

Lemma get_queryset_sub db r nid x :
  get_queryset db r !! nid = Some x -> news db !! nid = Some x.
Proof.
  unfold get_queryset. destruct (req_category r) as [s|]; [|done].
  destruct (py_truthy s); [|done]. by intros ?%map_lookup_filter_Some_1_1.
Qed.

(** The Like table takes no part in the lookup. *)
Lemma get_queryset_set_likes t n db r : get_queryset (set_likes t n db) r = get_queryset db r.
Proof. reflexivity. Qed.

Lemma get_object_set_likes t n db r slug :
  get_object (set_likes t n db) r slug = get_object db r slug.
Proof. reflexivity. Qed.

Lemma get_object_ok db r slug nid x :
  get_object db r slug = Ok (nid, x) -> news db !! nid = Some x /\ news_slug x = slug.
Proof.
  unfold get_object. destruct (qs_get _ _) as [[[k v]|]|] eqn:Hq; simpl; intros; res_inv.
  apply qs_get_some in Hq as [Hq Hs]. split; [by eapply get_queryset_sub|by case_bool_decide].
Qed.

(** Under the unique index on [News.slug], the lookup finds the article. *)
Lemma get_object_is_Some db r slug nid x :
  get_object db r slug = Ok (nid, x) -> is_Some (news db !! nid).
Proof. intros [? _]%get_object_ok. eauto. Qed.

Lemma get_object_found db r slug nid x :
  db_wf db -> get_queryset db r !! nid = Some x -> news_slug x = slug ->
  get_object db r slug = Ok (nid, x).
Proof.
  intros Hwf Hq Hs. unfold get_object. rewrite (qs_get_unique _ _ nid x); [done| |done|].
  - intros k1 k2 v1 v2 H1 H2 B1 B2. apply get_queryset_sub in H1, H2.
    apply bool_decide_eq_true in B1, B2. eapply (wf_news_slug_unique _ Hwf); eauto; congruence.
  - by apply bool_decide_eq_true.
Qed.

Lemma get_object_missing db r slug :
  (forall nid x, get_queryset db r !! nid = Some x -> news_slug x <> slug) ->
  get_object db r slug = Err NotFound.
Proof.
  intros Hnone. unfold get_object. rewrite qs_get_none; [done|].
  intros k v Hk. apply bool_decide_eq_false. eauto.
Qed.

(** ** The two branches of the toggle *)

(** No row for (user, news): the row is inserted and the answer is
    [liked = true] with one more row for the article. *)
Lemma like_created db r slug u nid x :
  db_wf db -> req_token r = Some u -> is_Some (users db !! u) ->
  get_object db r slug = Ok (nid, x) ->
  count_where (like_matches u nid) (likes db) = 0 ->
  like db r slug =
    Ok (mkLikeResponse true (S (like_set_count db nid)),
        set_likes (<[next_like db := mkLike u nid true (req_now r)]> (likes db))
                  (S (next_like db)) db).
Proof.
  intros Hwf Ht Hu Hg Hc. unfold like. rewrite (dispatch_user _ _ _ _ u) by done. simpl.
  rewrite Hg. simpl. destruct (get_object_ok _ _ _ _ _ Hg) as [Hn _].
  destruct (like_get_spec db u nid Hwf) as [[Hget _]|(k & l & _ & _ & _ & Hc1)]; [|congruence].
  rewrite get_or_create_new by eauto. simpl. do 3 f_equal.
  unfold like_set_count. simpl. rewrite count_likes_insert_next by done.
  simpl. by rewrite bool_decide_eq_true_2.
Qed.

(** A row for (user, news): it is deleted and the answer is
    [liked = false] with one row less for the article. *)
Lemma like_removed db r slug u nid x k l :
  db_wf db -> req_token r = Some u -> is_Some (users db !! u) ->
  get_object db r slug = Ok (nid, x) ->
  likes db !! k = Some l -> like_matches u nid l = true ->
  like db r slug = Ok (mkLikeResponse false (like_set_count (like_delete db k) nid), like_delete db k)
  /\ like_set_count db nid = S (like_set_count (like_delete db k) nid).
Proof.
  intros Hwf Ht Hu Hg Hk Hm. split.
  - unfold like. rewrite (dispatch_user _ _ _ _ u) by done. simpl. rewrite Hg. simpl.
    rewrite (get_or_create_found _ _ _ _ k l); [done|].
    apply qs_get_unique; [|done|done]. intros. eapply like_matches_unique; eauto.
  - unfold like_set_count. rewrite (count_where_delete _ _ k l Hk).
    apply like_matches_true in Hm as [_ ->]. by rewrite bool_decide_eq_true_2.
Qed.

(** Every successful call is one of the two branches. *)
Lemma like_cases db r slug resp db' :
  db_wf db -> like db r slug = Ok (resp, db') ->
  exists u nid x, req_token r = Some u /\ is_Some (users db !! u) /\
    get_object db r slug = Ok (nid, x) /\
    ((count_where (like_matches u nid) (likes db) = 0 /\
      resp = mkLikeResponse true (S (like_set_count db nid)) /\
      db' = set_likes (<[next_like db := mkLike u nid true (req_now r)]> (likes db))
                      (S (next_like db)) db) \/
     (exists k l, likes db !! k = Some l /\ like_matches u nid l = true /\
      resp = mkLikeResponse false (like_set_count (like_delete db k) nid) /\
      db' = like_delete db k /\ like_set_count db nid = S (like_set_count (like_delete db k) nid))).
Proof.
  intros Hwf Hl. pose proof Hl as Hl0.
  apply dispatch_runs in Hl as (user & Ha & _ & Hh).
  destruct user as [u|]; [|done]. apply authenticate_ok in Ha as [Ht Hu].
  destruct (get_object db r slug) as [[nid x]|e] eqn:Hg; [|done].
  exists u, nid, x. do 3 (split; [done|]).
  destruct (like_get_spec db u nid Hwf) as [[_ Hc]|(k & l & _ & Hk & Hm & _)].
  - left. rewrite (like_created db r slug u nid x) in Hl0 by done. res_inv. done.
  - right. destruct (like_removed db r slug u nid x k l) as [Heq Hcount]; [done..|].
    rewrite Heq in Hl0. res_inv. eauto 10.
Qed.

(** The rows of (user, news) after each branch. *)
Lemma like_matches_after_insert db u nid now :
  db_wf db -> count_where (like_matches u nid) (likes db) = 0 ->
  count_where (like_matches u nid) (<[next_like db := mkLike u nid true now]> (likes db)) = 1.
Proof.
  intros Hwf Hc. rewrite count_likes_insert_next by done.
  rewrite Hc. unfold like_matches. simpl. by rewrite !bool_decide_eq_true_2.
Qed.

Lemma like_matches_after_delete db u nid k l :
  db_wf db -> likes db !! k = Some l -> like_matches u nid l = true ->
  count_where (like_matches u nid) (likes (like_delete db k)) = 0.
Proof.
  intros Hwf Hk Hm. destruct (like_get_spec db u nid Hwf) as [[_ Hc]|(k' & l' & _ & _ & _ & Hc)].
  - apply count_where_zero with (k := k) (v := l) in Hc; congruence.
  - rewrite (count_where_delete _ _ k l Hk), Hm in Hc. simpl. lia.
Qed.

(** The lookup of the next call is the lookup of this one. *)
Lemma get_object_frame db db' r slug :
  news db' = news db -> categories db' = categories db ->
  get_object db' r slug = get_object db r slug.
Proof.
  intros Hn Hc. unfold get_object, get_queryset, in_category. by rewrite Hn, Hc.
Qed.

(** One toggle from [c] rows of (user, news) leaves [1 - c]. *)
Lemma like_flip db r slug u nid x :
  db_wf db -> req_token r = Some u -> is_Some (users db !! u) ->
  get_object db r slug = Ok (nid, x) ->
  exists resp db', like db r slug = Ok (resp, db') /\
    liked resp = bool_decide (count_where (like_matches u nid) (likes db) = 0) /\
    count_where (like_matches u nid) (likes db') = (if liked resp then 1 else 0) /\
    db_wf db' /\ users db' = users db /\ news db' = news db /\ categories db' = categories db.
Proof.
  intros Hwf Ht Hu Hg. destruct (get_object_ok _ _ _ _ _ Hg) as [Hn _].
  destruct (like_get_spec db u nid Hwf) as [[_ Hc]|(k & l & _ & Hk & Hm & Hc)].
  - eexists _, _. rewrite (like_created db r slug u nid x) by done. split; [done|].
    simpl. rewrite bool_decide_eq_true_2 by done. split; [done|].
    split; [by apply like_matches_after_insert|]. split; [|done].
    eapply (like_create_wf db u nid (req_now r)); [done|]. by apply like_create_ok.
  - destruct (like_removed db r slug u nid x k l) as [Heq _]; [done..|].
    eexists _, _. split; [exact Heq|]. simpl. rewrite bool_decide_eq_false_2 by lia.
    split; [done|]. split; [by eapply like_matches_after_delete|].
    split; [by apply like_delete_wf|done].
Qed.

(** ** Properties of the action *)

(** C1: the like action is a toggle.  For an authenticated caller and an
    article the lookup finds, the call succeeds; it answers
    [liked = true] exactly when the caller had no Like row for the
    article; afterwards the caller has one row if [liked] and none
    otherwise; the reported [likes_count] is the article's row count
    after the call, one more than before when [liked] and one less
    otherwise. *)
Theorem like_toggle_spec db r slug u nid x :
  db_wf db -> req_token r = Some u -> is_Some (users db !! u) ->
  get_object db r slug = Ok (nid, x) ->
  exists resp db', like db r slug = Ok (resp, db') /\
    liked resp = bool_decide (count_where (like_matches u nid) (likes db) = 0) /\
    count_where (like_matches u nid) (likes db') = (if liked resp then 1 else 0) /\
    likes_count resp = like_set_count db' nid /\
    (if liked resp then likes_count resp = S (like_set_count db nid)
     else S (likes_count resp) = like_set_count db nid).
Proof.
  intros Hwf Ht Hu Hg.
  destruct (like_flip db r slug u nid x) as (resp & db' & Hl & Hliked & Hrows & _); [done..|].
  exists resp, db'. do 3 (split; [done|]).
  destruct (like_cases _ _ _ _ _ Hwf Hl) as (u' & nid' & x' & Ht' & _ & Hg' & Hc).
  rewrite Hg in Hg'. rewrite Ht in Ht'. simplify_eq.
  destruct Hc as [(_ & -> & ->)|(k & l & _ & _ & -> & -> & Hcount)]; simpl; [|done].
  unfold like_set_count. simpl.
  rewrite count_likes_insert_next by done. simpl.
  rewrite bool_decide_eq_true_2 by done. done.
Qed.

Lemma parity_step c k : c <= 1 -> ((1 - c) + k) mod 2 = (c + S k) mod 2.
Proof.
  intros Hc. destruct c as [|[|c]]; [done| |lia].
  replace (1 - 1 + k) with k by lia. replace (1 + S k) with (k + 1 * 2) by lia.
  by rewrite Nat.Div0.mod_add.
Qed.

(** C2: after [k] calls of the action by the same caller on the same
    article, starting from no Like row, the caller has [k mod 2] rows:
    one after an odd number of calls, none after an even number. *)
Theorem like_n_parity k db r slug u nid x :
  db_wf db -> req_token r = Some u -> is_Some (users db !! u) ->
  get_object db r slug = Ok (nid, x) ->
  count_where (like_matches u nid) (likes db) = 0 ->
  exists db', like_n k db r slug = Ok db' /\
    count_where (like_matches u nid) (likes db') = k mod 2.
Proof.
  intros Hwf Ht Hu Hg H0.
  enough (Hgen : forall k db c, db_wf db -> is_Some (users db !! u) ->
    get_object db r slug = Ok (nid, x) -> c <= 1 ->
    count_where (like_matches u nid) (likes db) = c ->
    exists db', like_n k db r slug = Ok db' /\
      count_where (like_matches u nid) (likes db') = (c + k) mod 2).
  { destruct (Hgen k db 0) as (db' & ? & ?); eauto with lia. }
  clear dependent db. clear k. intros k. induction k as [|k IH]; intros db c Hwf Hu Hg Hc Hcount.
  - exists db. split; [done|]. rewrite Nat.add_0_r, Nat.mod_small; lia.
  - destruct (like_flip db r slug u nid x)
      as (resp & db1 & Hl & Hliked & Hrows & Hwf1 & Hus & Hn & Hcat); [done..|].
    destruct (IH db1 (if liked resp then 1 else 0)) as (db' & Hrun & Hfin).
    + done.
    + by rewrite Hus.
    + by rewrite (get_object_frame db db1).
    + destruct (liked resp); lia.
    + done.
    + exists db'. split; [simpl; rewrite Hl; done|].
      rewrite Hfin, Hliked, <-(parity_step c k Hc). f_equal.
      case_bool_decide; lia.
Qed.

(** Every successful call of the action keeps the database invariant:
    foreign keys resolve and (user, news) stays unique. *)
Lemma like_preserves_wf db r slug resp db' :
  db_wf db -> like db r slug = Ok (resp, db') -> db_wf db'.
Proof.
  intros Hwf Hl. destruct (like_cases _ _ _ _ _ Hwf Hl) as (u & nid & x & Ht & Hu & Hg & _).
  destruct (like_flip db r slug u nid x) as (resp' & db'' & Hl' & _ & _ & Hwf' & _); [done..|].
  rewrite Hl in Hl'. by simplify_eq.
Qed.

(** The errors of the action come in the order of the pipeline: an
    anonymous caller gets 401 whatever the slug; a token for a deleted
    user gets 401; an authenticated caller gets the lookup's error (404
    for an unknown slug), and nothing is written in any of these cases. *)
Theorem like_errors db r slug :
  (req_token r = None -> like db r slug = Err NotAuthenticated) /\
  (forall u, req_token r = Some u -> users db !! u = None ->
     like db r slug = Err AuthenticationFailed) /\
  (forall u e, req_token r = Some u -> is_Some (users db !! u) ->
     get_object db r slug = Err e -> like db r slug = Err e).
Proof.
  split; [|split].
  - intros Ht. unfold like. by rewrite dispatch_anonymous.
  - intros u Ht Hu. unfold like, dispatch, authenticate. rewrite Ht.
    rewrite bool_decide_eq_false_2; [done|]. rewrite Hu. apply is_Some_None.
  - intros u e Ht Hu Hg. unfold like. rewrite (dispatch_user _ _ _ _ u) by done.
    simpl. by rewrite Hg.
Qed.

(** ** Properties of the category filter *)

Lemma in_category_true db s x :
  in_category db s x = true <->
  exists c cat, news_category x = Some c /\ categories db !! c = Some cat /\ cat_slug cat = s.
Proof.
  unfold in_category. destruct (news_category x) as [c|]; [|naive_solver].
  destruct (categories db !! c) as [cat|] eqn:Hc; [|naive_solver].
  rewrite bool_decide_eq_true. naive_solver.
Qed.

(** With a non-empty [?category=s], the list holds exactly the
    articles whose category exists and has slug [s]. *)
Theorem get_queryset_filter db r s nid x :
  req_category r = Some s -> py_truthy s = true ->
  get_queryset db r !! nid = Some x <->
  news db !! nid = Some x /\
  exists c cat, news_category x = Some c /\ categories db !! c = Some cat /\ cat_slug cat = s.
Proof.
  intros Hr Hs. unfold get_queryset. rewrite Hr, Hs, map_lookup_filter_Some.
  simpl. by rewrite in_category_true.
Qed.

(** The filter's edge cases: a non-empty slug that no category has
    gives the empty list (not an error), and an empty [?category=] does
    not filter at all. *)
Theorem get_queryset_edges db r s :
  (req_category r = Some s -> py_truthy s = true ->
   (forall c cat, categories db !! c = Some cat -> cat_slug cat <> s) ->
   get_queryset db r = ∅) /\
  (req_category r = Some EmptyString -> get_queryset db r = news db).
Proof.
  split.
  - intros Hr Hs Hnone. unfold get_queryset. rewrite Hr, Hs.
    apply map_empty. intros nid. apply map_lookup_filter_None_2. right.
    intros x _ Hin. apply in_category_true in Hin as (c & cat & _ & Hc & Hslug).
    by destruct (Hnone c cat Hc).
  - intros Hr. unfold get_queryset. by rewrite Hr.
Qed.

(** The [?category=] parameter also narrows the lookup of the like
    action: an authenticated POST on an existing article, sent with a
    non-empty category slug that is not the article's, is a 404. *)
Theorem like_category_param_hides db r slug u nid x s :
  db_wf db -> req_token r = Some u -> is_Some (users db !! u) ->
  news db !! nid = Some x -> news_slug x = slug ->
  req_category r = Some s -> py_truthy s = true -> in_category db s x = false ->
  like db r slug = Err NotFound.
Proof.
  intros Hwf Ht Hu Hn Hs Hr Htr Hin. unfold like. rewrite (dispatch_user _ _ _ _ u) by done.
  simpl. rewrite get_object_missing; [done|]. intros nid' x' Hq Hs'.
  pose proof (get_queryset_sub _ _ _ _ Hq) as Hn'.
  pose proof (wf_news_slug_unique _ Hwf _ _ _ _ Hn Hn' ltac:(congruence)) as <-.
  rewrite Hn in Hn'. injection Hn' as <-.
  unfold get_queryset in Hq. rewrite Hr, Htr, map_lookup_filter_Some in Hq.
  simpl in Hq. destruct Hq as [_ Hq]. congruence.
Qed.

(** ** Scenario of the specification and witnesses *)

Definition bob_like_request : Request := mkRequest POST (Some 2) None 200.
Definition anonymous_like_request : Request := mkRequest POST None None 200.
Definition alice_like_request : Request := mkRequest POST (Some 1) None 200.
Definition bob_politics_request : Request := mkRequest POST (Some 2) (Some "politics") 200.

(** The scenario of the specification: bob likes alice's article and
    gets [{liked: true, likes_count: 1}], then likes it again and gets
    [{liked: false, likes_count: 0}]. *)
Example like_twice_scenario :
  exists db1 db2,
    like sample_db bob_like_request "cup-final" = Ok (mkLikeResponse true 1, db1) /\
    like db1 bob_like_request "cup-final" = Ok (mkLikeResponse false 0, db2).
Proof. eexists _, _. split; vm_compute; reflexivity. Qed.

Lemma like_toggle_spec_witness :
  exists resp db', like sample_db bob_like_request "cup-final" = Ok (resp, db') /\
    liked resp = true /\ likes_count resp = 1.
Proof.
  destruct (like_toggle_spec sample_db bob_like_request "cup-final" 2 7%N sample_news)
    as (resp & db' & Hl & Hliked & _ & _ & Hcount).
  - apply sample_db_wf.
  - reflexivity.
  - eexists. reflexivity.
  - vm_compute. reflexivity.
  - assert (Hno : bool_decide (count_where (like_matches 2 7%N) (likes sample_db) = 0) = true)
      by (vm_compute; reflexivity).
    assert (H0 : like_set_count sample_db 7%N = 0) by (vm_compute; reflexivity).
    rewrite Hno in Hliked. rewrite Hliked, H0 in Hcount.
    exists resp, db'. split; [exact Hl|]. split; [exact Hliked|exact Hcount].
Defined.

Lemma like_n_parity_witness :
  exists db', like_n 3 sample_db bob_like_request "cup-final" = Ok db' /\
    count_where (like_matches 2 7%N) (likes db') = 1.
Proof.
  apply (like_n_parity 3 sample_db bob_like_request "cup-final" 2 7%N sample_news).
  - apply sample_db_wf.
  - reflexivity.
  - eexists. reflexivity.
  - vm_compute. reflexivity.
  - vm_compute. reflexivity.
Defined.

Lemma like_errors_witness :
  like sample_db anonymous_like_request "no-such-article" = Err NotAuthenticated /\
  like sample_db bob_like_request "no-such-article" = Err NotFound.
Proof.
  destruct (like_errors sample_db anonymous_like_request "no-such-article") as [Hanon _].
  destruct (like_errors sample_db bob_like_request "no-such-article") as (_ & _ & Hlookup).
  split; [apply Hanon; reflexivity|].
  apply (Hlookup 2); [reflexivity| eexists; reflexivity | vm_compute; reflexivity].
Defined.

Lemma get_queryset_filter_witness :
  get_queryset sample_db (mkRequest GET None (Some "sports") 200) !! 7%N = Some sample_news.
Proof.
  apply (get_queryset_filter sample_db _ "sports"); [reflexivity|reflexivity|].
  split; [reflexivity|]. exists 1, (mkCategory "Sports" "sports"). done.
Defined.

Lemma get_queryset_edges_witness :
  get_queryset sample_db (mkRequest GET None (Some "politics") 200) = ∅ /\
  get_queryset sample_db (mkRequest GET None (Some "") 200) = news sample_db.
Proof.
  destruct (get_queryset_edges sample_db (mkRequest GET None (Some "politics") 200) "politics")
    as [Hunknown _].
  destruct (get_queryset_edges sample_db (mkRequest GET None (Some "") 200) "") as [_ Hempty].
  split; [apply Hunknown; [reflexivity|reflexivity|]|apply Hempty; reflexivity].
  intros c cat Hc. unfold sample_db in Hc. simpl in Hc.
  apply lookup_singleton_Some in Hc as [_ <-]. done.
Defined.

Lemma like_category_param_hides_witness :
  like sample_db bob_politics_request "cup-final" = Err NotFound.
Proof.
  apply (like_category_param_hides sample_db bob_politics_request "cup-final" 2 7%N sample_news
           "politics"); try reflexivity.
  - apply sample_db_wf.
  - eexists. reflexivity.
Defined.

(** ** The two [likes_count]s *)

(** The [likes_count] the action answers is the article's row count
    after the call. *)
Lemma like_response_count db r slug nid x resp db' :
  db_wf db -> get_object db r slug = Ok (nid, x) -> like db r slug = Ok (resp, db') ->
  likes_count resp = like_set_count db' nid.
Proof.
  intros Hwf Hg Hl.
  destruct (like_cases _ _ _ _ _ Hwf Hl) as (u & nid' & x' & _ & _ & Hg' & Hc).
  rewrite Hg in Hg'. simplify_eq.
  destruct Hc as [(_ & -> & ->)|(k & l & _ & _ & -> & -> & _)]; [|done].
  unfold like_set_count. simpl. rewrite count_likes_insert_next by done.
  simpl. by rewrite bool_decide_eq_true_2.
Qed.

(** Every Like row is flagged liked. *)
Definition all_liked (db : DB) : Prop :=
  forall k l, likes db !! k = Some l -> is_liked l = true.

Lemma get_likes_count_all_liked db n :
  all_liked db -> get_likes_count db n = like_set_count db n.
Proof.
  intros Hall. apply count_where_ext. intros k l Hk. by rewrite ?(Hall k l Hk), ?andb_true_r.
Qed.

(** The action never flags a row unliked, so on a database whose
    rows are all flagged liked it keeps them so, and the [likes_count] it
    answers equals [NewsSerializer.get_likes_count] of the article. *)
Theorem like_count_matches_serializer db r slug nid x resp db' :
  db_wf db -> all_liked db -> get_object db r slug = Ok (nid, x) ->
  like db r slug = Ok (resp, db') ->
  all_liked db' /\ likes_count resp = get_likes_count db' nid.
Proof.
  intros Hwf Hall Hg Hl.
  destruct (like_cases _ _ _ _ _ Hwf Hl) as (u & nid' & x' & _ & _ & Hg' & Hc).
  rewrite Hg in Hg'. simplify_eq.
  assert (Hall' : all_liked db').
  { destruct Hc as [(_ & _ & ->)|(k & l & _ & _ & _ & -> & _)]; intros k' l' Hk'; simpl in Hk'.
    - apply lookup_insert_Some in Hk' as [[_ <-]|[_ Hk']]; eauto.
    - apply lookup_delete_Some in Hk' as [_ Hk']. eauto. }
  split; [done|]. rewrite get_likes_count_all_liked by done.
  by eapply like_response_count.
Qed.


(** The sample database with one Like row of bob's flagged unliked, as
    the generic [/likes/] resource lets a client write it. *)
Definition sample_db_unliked : DB :=
  set_likes {[1 := mkLike 2 7%N false 150]} 2 sample_db.

Lemma sample_db_unliked_wf : db_wf sample_db_unliked.
Proof. apply db_wf_check_sound. apply (bool_decide_eq_true_1 _). vm_compute. reflexivity. Qed.

Lemma like_count_matches_serializer_witness :
  exists resp db', like sample_db bob_like_request "cup-final" = Ok (resp, db') /\
    likes_count resp = get_likes_count db' 7%N.
Proof.
  eexists _, _. split; [vm_compute; reflexivity|].
  refine (proj2 (like_count_matches_serializer sample_db bob_like_request "cup-final" 7%N
                   sample_news _ _ _ _ _ _)).
  - apply sample_db_wf.
  - intros k l Hk. vm_compute in Hk. discriminate.
  - vm_compute. reflexivity.
  - vm_compute. reflexivity.
Defined.

