(* ===== verification/CommentsView.v ===== *)
(** * CommentsView: the function view [comments] of [views.py]

    [@api_view(['GET', 'POST'])] with [AllowAny]: the article is looked
    up by slug in the whole News table ([get_object_or_404]); GET lists
    its comments newest first; POST validates the body with
    [CommentSerializer] and saves it with the article, overriding the
    author's identity with the caller's account when the caller is
    authenticated.  Methods other than GET, POST and OPTIONS are refused
    by the framework before the function body runs; HEAD is one of them,
    since [api_view] lists only the methods it is given (and OPTIONS). *)

From stdpp Require Import base gmap strings list sorting.
From S2P Require Import Prelude Models Auth Serializers.

(** ** The view *)

(** [get_object_or_404(News, slug=slug)]. *)
Definition get_news_or_404 (db : DB) (slug : string) : result (N * News) :=
  found ← qs_get (fun x => bool_decide (news_slug x = slug)) (news db);
  match found with
  | Some kv => Ok kv
  | None => Err NotFound
  end.

Lemma get_news_or_404_ok db slug nid x :
  get_news_or_404 db slug = Ok (nid, x) -> news db !! nid = Some x /\ news_slug x = slug.
Proof.
  unfold get_news_or_404. destruct (qs_get _ _) as [[[k v]|]|] eqn:Hq; simpl; intros; res_inv.
  apply qs_get_some in Hq as [Hq Hs]. split; [done|by case_bool_decide].
Qed.

(** [order_by('-timestamp')]: newest first. *)
Definition newest_first (a b : nat * Comment) : Prop :=
  (comment_timestamp b.2 <= comment_timestamp a.2)%Z.

#[export] Instance newest_first_dec : RelDecision newest_first.
Proof. intros a b. unfold newest_first. apply _. Defined.

(** [news.comments.all().order_by('-timestamp')]. *)
Definition comments_of_news (db : DB) (nid : N) : list (nat * Comment) :=
  merge_sort newest_first
    (map_to_list (filter (fun kv : nat * Comment => comment_of nid kv.2 = true) (comments db))).

(** [CommentSerializer(comments, many=True).data]. *)
Fixpoint serialize_many (db : DB) (l : list (nat * Comment)) : result (list CommentData) :=
  match l with
  | [] => Ok []
  | (k, c) :: l' =>
      d ← comment_data db k c;
      ds ← serialize_many db l';
      Ok (d :: ds)
  end.

Inductive CommentsResponse :=
| CommentList (ds : list CommentData)     (* 200 *)
| CommentCreated (d : CommentData)        (* 201 *)
| OptionsMetadata.                        (* 200, APIView.options *)

Section comments_view.
Variable email_ok : string -> bool.

(** The function [comments(request, slug)] behind the pipeline. *)
Definition comments (db : DB) (r : Request) (slug : string) (data : CommentInput)
    : result (CommentsResponse * DB) :=
  dispatch db comments_permission r (fun user =>
    match req_method r with
    | HEAD | PUT | PATCH | DELETE => Err MethodNotAllowed
    | OPTIONS => Ok (OptionsMetadata, db)
    | GET | POST =>
        '(nid, _) ← get_news_or_404 db slug;
        if bool_decide (req_method r = POST) then
          match validate_comment email_ok db data with
          | inr v =>
              c ← match user with
                  | Some u =>
                      match users db !! u with
                      | Some usr => Ok (mkComment nid (Some u) (username usr) (user_email usr)
                                                  (v_comment v) (req_now r))
                      | None => Err DoesNotExist
                      end
                  | None => Ok (mkComment nid None (v_name v) (v_email v) (v_comment v) (req_now r))
                  end;
              '(k, db') ← comment_insert db c;
              d ← comment_data db' k c;
              Ok (CommentCreated d, db')
          | inl errs => Err (ValidationError errs)
          end
        else
          ds ← serialize_many db (comments_of_news db nid);
          Ok (CommentList ds, db)
    end).
End comments_view.

(** ** The listing *)

#[export] Instance newest_first_total : Total newest_first.
Proof. intros a b. unfold newest_first. lia. Qed.

Lemma elem_of_comments_of_news db nid k c :
  (k, c) ∈ comments_of_news db nid <-> Models.comments db !! k = Some c /\ comment_news c = nid.
Proof.
  unfold comments_of_news. rewrite merge_sort_Permutation, elem_of_map_to_list,
    map_lookup_filter_Some. simpl. unfold comment_of. by rewrite bool_decide_eq_true.
Qed.

Lemma comments_of_news_NoDup db nid : NoDup (comments_of_news db nid).*1.
Proof. unfold comments_of_news. rewrite merge_sort_Permutation. apply NoDup_fst_map_to_list. Qed.

Lemma comments_of_news_length db nid :
  length (comments_of_news db nid) = get_comments_count db nid.
Proof.
  unfold comments_of_news, get_comments_count, count_where.
  by rewrite merge_sort_Permutation, length_map_to_list.
Qed.

Lemma serialize_many_stored db l :
  db_wf db -> Forall (fun kc : nat * Comment => Models.comments db !! kc.1 = Some kc.2) l ->
  serialize_many db l = Ok (comment_repr db <$> l).
Proof.
  intros Hwf. induction 1 as [|[k c] l Hk Hl IH]; [done|]. simpl in *.
  rewrite comment_data_stored by done. simpl. by rewrite IH.
Qed.

(** Under the invariant the GET branch serialises the ordered rows. *)
Lemma comments_get_ok email_ok db r slug data user nid x :
  db_wf db -> req_method r = GET -> authenticate db r = Ok user ->
  get_news_or_404 db slug = Ok (nid, x) ->
  comments email_ok db r slug data =
    Ok (CommentList (comment_repr db <$> comments_of_news db nid), db).
Proof.
  intros Hwf Hm Ha Hg. unfold comments. rewrite (dispatch_allow_any _ _ _ user) by done.
  rewrite Hm; simpl; rewrite Hg; simpl;
    rewrite serialize_many_stored; try done;
    apply Forall_forall; intros [k c] Hin;
    by apply elem_of_comments_of_news in Hin as [? _].
Qed.

(** ** Properties of the view *)

(** An authenticated POST with a valid body on an existing article
    inserts the comment [perform_create] builds at the next key and
    answers it. *)
Lemma comments_post_stores email_ok db r slug data u usr nid x v :
  db_wf db -> req_method r = POST -> req_token r = Some u -> users db !! u = Some usr ->
  get_news_or_404 db slug = Ok (nid, x) -> validate_comment email_ok db data = inr v ->
  forall c, c = mkComment nid (Some u) (username usr) (user_email usr) (v_comment v) (req_now r) ->
  comments email_ok db r slug data =
    Ok (CommentCreated (comment_repr (set_comments (<[next_comment db := c]> (Models.comments db))
                                                   (S (next_comment db)) db) (next_comment db, c)),
        set_comments (<[next_comment db := c]> (Models.comments db)) (S (next_comment db)) db) /\
  db_wf (set_comments (<[next_comment db := c]> (Models.comments db)) (S (next_comment db)) db).
Proof.
  intros Hwf Hm Ht Hu Hg Hv c ->.
  assert (Ha : authenticate db r = Ok (Some u)).
  { unfold authenticate. rewrite Ht. rewrite bool_decide_eq_true_2; [done|]. by rewrite Hu. }
  assert (Hn : is_Some (news db !! nid)) by (eexists; by eapply get_news_or_404_ok).
  assert (Hins : comment_insert db (mkComment nid (Some u) (username usr) (user_email usr) (v_comment v) (req_now r)) =
    Ok (next_comment db, set_comments (<[next_comment db := mkComment nid (Some u) (username usr) (user_email usr)
          (v_comment v) (req_now r)]> (Models.comments db)) (S (next_comment db)) db)).
  { apply (comment_insert_ok _ _ u); [done| |done]. by rewrite Hu. }
  assert (Hwf' : db_wf (set_comments (<[next_comment db := mkComment nid (Some u) (username usr) (user_email usr)
          (v_comment v) (req_now r)]> (Models.comments db)) (S (next_comment db)) db))
    by (eapply comment_insert_wf; eauto).
  split; [|done].
  unfold comments. rewrite (dispatch_allow_any _ _ _ (Some u)) by done. rewrite Hm. simpl.
  rewrite Hg. simpl. rewrite Hv, Hu. simpl. rewrite Hins. simpl.
  rewrite comment_data_stored; [done|done|apply lookup_insert_eq].
Qed.

(** C10: GET on an existing article, by anyone the pipeline accepts
    (anonymous included), succeeds and writes nothing; it lists every
    comment of the article once, and only those, newest first, and the
    list is as long as the article's [comments_count]. *)
Theorem comments_list_newest_first email_ok db r slug data user nid x :
  db_wf db -> req_method r = GET -> authenticate db r = Ok user ->
  get_news_or_404 db slug = Ok (nid, x) ->
  exists ds, comments email_ok db r slug data = Ok (CommentList ds, db) /\
    Sorted (fun a b => (cd_timestamp b <= cd_timestamp a)%Z) ds /\
    NoDup (cd_id <$> ds) /\
    (forall k, k ∈ cd_id <$> ds <->
       exists c, Models.comments db !! k = Some c /\ comment_news c = nid) /\
    length ds = get_comments_count db nid.
Proof.
  intros Hwf Hm Ha Hg. exists (comment_repr db <$> comments_of_news db nid).
  split; [eapply comments_get_ok; eauto|].
  assert (Hids : cd_id <$> (comment_repr db <$> comments_of_news db nid) =
                 (comments_of_news db nid).*1).
  { rewrite <-list_fmap_compose. by apply list_fmap_ext. }
  split; [|split; [|split]].
  - apply (Sorted_fmap _ newest_first); [by intros|]. apply Sorted_merge_sort, _.
  - rewrite Hids. apply comments_of_news_NoDup.
  - intros k. rewrite Hids, list_elem_of_fmap. split.
    + intros ([k' c] & -> & Hin). apply elem_of_comments_of_news in Hin. eauto.
    + intros (c & Hin). exists (k, c). by rewrite elem_of_comments_of_news.
  - by rewrite length_fmap, comments_of_news_length.
Qed.

(** C3: an authenticated POST with a valid body stores a comment whose
    name and email are the caller's username and email (whatever the body
    said), whose user is the caller and whose article is the one of the
    URL; the response is that row, its [user_name] is the caller's
    username, and the invariant is preserved. *)
Theorem comments_post_overrides_identity email_ok db r slug data u usr nid x v :
  db_wf db -> req_method r = POST -> req_token r = Some u -> users db !! u = Some usr ->
  get_news_or_404 db slug = Ok (nid, x) -> validate_comment email_ok db data = inr v ->
  exists k db',
    comments email_ok db r slug data =
      Ok (CommentCreated (comment_repr db'
            (k, mkComment nid (Some u) (username usr) (user_email usr) (v_comment v) (req_now r))), db') /\
    Models.comments db' =
      <[k := mkComment nid (Some u) (username usr) (user_email usr) (v_comment v) (req_now r)]>
        (Models.comments db) /\
    Models.comments db !! k = None /\ db_wf db' /\
    cd_user_name (comment_repr db'
      (k, mkComment nid (Some u) (username usr) (user_email usr) (v_comment v) (req_now r))) =
      username usr.
Proof.
  intros Hwf Hm Ht Hu Hg Hv.
  destruct (comments_post_stores email_ok db r slug data u usr nid x v Hwf Hm Ht Hu Hg Hv _ eq_refl)
    as [Hres Hwf'].
  eexists _, _. split; [exact Hres|]. split; [done|]. split; [eauto with blog|]. split; [done|].
  unfold comment_repr. simpl. by rewrite Hu.
Qed.

(** C4: an anonymous POST never creates a comment.  With a valid body
    on an existing article it fails at the NOT NULL constraint of
    [Comment.user] ([IntegrityError], a 500), although the view saves the
    client's name and email precisely to allow anonymous comments. *)
Theorem comments_anonymous_post_fails email_ok db r slug data :
  req_method r = POST -> req_token r = None ->
  (forall res, comments email_ok db r slug data <> Ok res) /\
  (forall nid x v, get_news_or_404 db slug = Ok (nid, x) ->
     validate_comment email_ok db data = inr v ->
     comments email_ok db r slug data = Err IntegrityError).
Proof.
  intros Hm Ht. unfold comments. rewrite dispatch_anonymous by done. rewrite Hm.
  cbn -[comment_insert get_news_or_404 validate_comment]. split.
  - intros res. destruct (get_news_or_404 db slug) as [[nid x]|e];
      cbn -[comment_insert validate_comment]; [|done].
    destruct (validate_comment email_ok db data); cbn -[comment_insert]; [done|].
    rewrite comment_insert_null_user; done.
  - intros nid x v Hg Hv. rewrite Hg. cbn -[comment_insert validate_comment]. rewrite Hv.
    cbn -[comment_insert]. rewrite comment_insert_null_user; done.
Qed.

(** C18: the body must carry [news], [name] and [email] even when the
    caller is authenticated and the view will overwrite the identity and
    take the article from the URL: a POST without one of them is a 400
    naming the missing field. *)
Theorem comments_post_requires_identity_fields email_ok db r slug data user nid x field :
  req_method r = POST -> authenticate db r = Ok user -> get_news_or_404 db slug = Ok (nid, x) ->
  (field = "news" /\ in_news data = None) \/ (field = "name" /\ in_name data = None) \/
  (field = "email" /\ in_email data = None) ->
  exists errs, comments email_ok db r slug data = Err (ValidationError errs) /\
               (field, msg_required) ∈ errs.
Proof.
  intros Hm Ha Hg Hf.
  destruct (validate_comment_required email_ok db data field) as (errs & Hv & Hin); [tauto|].
  exists errs. split; [|done].
  unfold comments. rewrite (dispatch_allow_any _ _ _ user) by done. rewrite Hm. simpl.
  rewrite Hg. simpl. by rewrite Hv.
Qed.

(** ** Witnesses *)

Definition anonymous_get : Request := mkRequest GET None None 300.
Definition alice_post : Request := mkRequest POST (Some 1) None 300.
Definition anonymous_post : Request := mkRequest POST None None 300.

(** A body that claims to come from someone else. *)
Definition spoofed_body : CommentInput :=
  mkCommentInput (Some 7%N) (Some "mallory") (Some "mallory@example.com") (Some "Great match!").

Definition no_identity_body : CommentInput :=
  mkCommentInput None None (Some "alice@example.com") (Some "Great match!").

Lemma comments_list_newest_first_witness :
  exists ds, comments (fun _ => true) sample_db anonymous_get "cup-final" spoofed_body =
               Ok (CommentList ds, sample_db) /\ length ds = 0.
Proof.
  destruct (comments_list_newest_first (fun _ => true) sample_db anonymous_get "cup-final"
              spoofed_body None 7%N sample_news) as (ds & Hl & _ & _ & _ & Hlen).
  - apply sample_db_wf.
  - reflexivity.
  - reflexivity.
  - vm_compute. reflexivity.
  - exists ds. split; [exact Hl|]. rewrite Hlen. vm_compute. reflexivity.
Defined.

(** The scenario of the specification: alice posts with a spoofed name;
    the stored comment carries their username. *)
Lemma comments_post_overrides_identity_witness :
  exists k db', comments (fun _ => true) sample_db alice_post "cup-final" spoofed_body =
    Ok (CommentCreated (comment_repr db' (k, mkComment 7%N (Some 1) "alice" "alice@example.com"
                                                     "Great match!" 300)), db').
Proof.
  destruct (comments_post_overrides_identity (fun _ => true) sample_db alice_post "cup-final"
              spoofed_body 1 (mkUser "alice" "alice@example.com" "pbkdf2$a") 7%N sample_news
              (mkCommentValid 7%N "mallory" "mallory@example.com" "Great match!"))
    as (k & db' & Hc & _).
  - apply sample_db_wf.
  - reflexivity.
  - reflexivity.
  - vm_compute. reflexivity.
  - vm_compute. reflexivity.
  - vm_compute. reflexivity.
  - exists k, db'. exact Hc.
Defined.

Lemma comments_anonymous_post_fails_witness :
  comments (fun _ => true) sample_db anonymous_post "cup-final" spoofed_body = Err IntegrityError.
Proof.
  destruct (comments_anonymous_post_fails (fun _ => true) sample_db anonymous_post "cup-final"
              spoofed_body) as [_ Hfail]; [reflexivity|reflexivity|].
  apply (Hfail 7%N sample_news (mkCommentValid 7%N "mallory" "mallory@example.com" "Great match!"));
    vm_compute; reflexivity.
Defined.

Lemma comments_post_requires_identity_fields_witness :
  exists errs, comments (fun _ => true) sample_db alice_post "cup-final" no_identity_body =
                 Err (ValidationError errs) /\ ("name", msg_required) ∈ errs.
Proof.
  apply (comments_post_requires_identity_fields (fun _ => true) sample_db alice_post "cup-final"
           no_identity_body (Some 1) 7%N sample_news "name").
  - reflexivity.
  - vm_compute. reflexivity.
  - vm_compute. reflexivity.
  - right. left. split; reflexivity.
Defined.
