(* ===== verification/GenericViews.v ===== *)
(** * GenericViews: the write routes of the four [ModelViewSet]s

    rest_framework's [CreateModelMixin.create] (validate, then
    [perform_create], then answer the saved row), [DestroyModelMixin]
    ([get_object], then [instance.delete()] with the [on_delete] rules)
    and [UpdateModelMixin.partial_update], for the view sets of
    [views.py] with their hooks: [NewsViewSet.perform_create] forces the
    author, [CommentViewSet.perform_create] and
    [LikeViewSet.perform_create] force the user; no view set overrides
    [perform_update] or [perform_destroy] or checks ownership. *)

From stdpp Require Import base gmap strings list.
From S2P Require Import Prelude Models Auth Serializers NewsViews.

(** ** NewsViewSet *)

Section news_create.
Variable image_ok : string -> bool.

(** POST /news/: [create] with [perform_create] saving
    [author=self.request.user]; the key is the environment's [uuid4()]
    and both dates are the clock. *)
Definition news_create (db : DB) (r : Request) (uuid : N) (d : NewsInput) : result (NewsData * DB) :=
  dispatch db NewsViewSet_permission r (fun user =>
    match validate_news image_ok db d with
    | inl errs => Err (ValidationError errs)
    | inr v =>
        match user with
        | None => Err ServerError
        | Some u =>
            let x := mkNews (Some (nv_category v)) u (nv_title v) (nv_slug v) (nv_image v)
                            (nv_body v) (req_now r) (req_now r) (nv_is_breaking v) in
            db' ← news_insert db uuid x;
            nd ← news_data db' uuid x;
            Ok (nd, db')
        end
    end).
End news_create.

(** DELETE /news/{slug}/: [destroy] through [get_object]. *)
Definition news_destroy (db : DB) (r : Request) (slug : string) : result DB :=
  dispatch db NewsViewSet_permission r (fun _ =>
    '(nid, _) ← get_object db r slug;
    Ok (news_delete db nid)).

(** ** CategoryViewSet *)

(** POST /categories/. *)
Definition category_create (db : DB) (r : Request) (d : CategoryInput) : result (CategoryData * DB) :=
  dispatch db CategoryViewSet_permission r (fun _ =>
    match validate_category db d with
    | inl errs => Err (ValidationError errs)
    | inr x =>
        '(k, db') ← category_insert db x;
        Ok (mkCategoryData k (cat_name x) (cat_slug x), db')
    end).

(** DELETE /categories/{pk}/. *)
Definition category_destroy (db : DB) (r : Request) (pk : string) : result DB :=
  dispatch db CategoryViewSet_permission r (fun _ =>
    '(k, _) ← pk_lookup (categories db) pk;
    Ok (category_delete db k)).

(** ** CommentViewSet *)

Section comment_create.
Variable email_ok : string -> bool.

(** POST /comments/: [perform_create] saves [user=self.request.user];
    name and email are the body's. *)
Definition comment_viewset_create (db : DB) (r : Request) (d : CommentInput)
    : result (CommentData * DB) :=
  dispatch db CommentViewSet_permission r (fun user =>
    match validate_comment email_ok db d with
    | inl errs => Err (ValidationError errs)
    | inr v =>
        let c := mkComment (v_news v) user (v_name v) (v_email v) (v_comment v) (req_now r) in
        '(k, db') ← comment_insert db c;
        cd ← comment_data db' k c;
        Ok (cd, db')
    end).
End comment_create.

(** ** LikeViewSet *)

(** POST /likes/: the body's [user] is validated (and checked unique
    with [news]) but [perform_create] saves [user=self.request.user]. *)
Definition like_viewset_create (db : DB) (r : Request) (d : LikeInput) : result (LikeData * DB) :=
  dispatch db LikeViewSet_permission r (fun user =>
    match validate_like db None d with
    | inl errs => Err (ValidationError errs)
    | inr (_, n, liked) =>
        match user with
        | None => Err ServerError
        | Some u =>
            let row := mkLike u n liked (req_now r) in
            '(k, db') ← like_insert db row;
            Ok (like_data k row, db')
        end
    end).

(** PATCH /likes/{pk}/: the default [perform_update], [serializer.save()]. *)
Definition like_viewset_partial_update (db : DB) (r : Request) (pk : string) (d : LikeInput)
    : result (LikeData * DB) :=
  dispatch db LikeViewSet_permission r (fun _ =>
    '(k, l) ← pk_lookup (likes db) pk;
    match validate_like db (Some (k, l)) d with
    | inl errs => Err (ValidationError errs)
    | inr (u, n, liked) =>
        let row := mkLike u n liked (like_timestamp l) in
        db' ← like_update db k row;
        Ok (like_data k row, db')
    end).

(** ** NewsViewSet: create and destroy *)

Lemma news_insert_ok db nid x :
  news db !! nid = None -> map_Forall (fun _ y => news_slug y <> news_slug x) (news db) ->
  is_Some (users db !! news_author x) ->
  (forall c, news_category x = Some c -> is_Some (categories db !! c)) ->
  news_insert db nid x = Ok (set_news (<[nid := x]> (news db)) db).
Proof.
  intros Hf Hs Hu Hc. unfold news_insert. rewrite !bool_decide_eq_true_2 by done. simpl.
  destruct (news_category x) as [c|]; [|done]. by rewrite bool_decide_eq_true_2 by auto.
Qed.

(** C13: POST /news/ by an authenticated caller with a valid body and a
    fresh UUID stores the article with the caller as author, whatever
    else the body holds; the answer names the caller's username as
    author, and the invariant is preserved. *)
Theorem news_create_forces_author image_ok db r uuid d u usr v :
  db_wf db -> req_method r = POST -> req_token r = Some u -> users db !! u = Some usr ->
  validate_news image_ok db d = inr v -> news db !! uuid = None ->
  exists nd db', news_create image_ok db r uuid d = Ok (nd, db') /\
    news db' !! uuid = Some (mkNews (Some (nv_category v)) u (nv_title v) (nv_slug v) (nv_image v)
                                   (nv_body v) (req_now r) (req_now r) (nv_is_breaking v)) /\
    nd_author nd = username usr /\ db_wf db'.
Proof.
  intros Hwf Hm Ht Hu Hv Hf. destruct (validate_news_sound _ _ _ _ Hv) as [Hs [cat Hc]].
  assert (Hus : is_Some (users db !! u)) by (rewrite Hu; eauto).
  set (x := mkNews (Some (nv_category v)) u (nv_title v) (nv_slug v) (nv_image v)
                   (nv_body v) (req_now r) (req_now r) (nv_is_breaking v)).
  assert (Hi : news_insert db uuid x = Ok (set_news (<[uuid := x]> (news db)) db)).
  { apply news_insert_ok; [done|done|done|]. intros c' [= <-]. eauto. }
  unfold news_create. rewrite (dispatch_user _ _ _ _ u) by done. rewrite Hm.
  simpl. rewrite Hv. fold x. rewrite Hi. simpl. unfold news_data. simpl. rewrite Hu. simpl.
  rewrite Hc. simpl. eexists _, _. split; [reflexivity|].
  split; [apply lookup_insert_eq|]. split; [done|]. by eapply news_insert_wf.
Qed.

(** An anonymous POST /news/ fails with 401 whatever its body. *)
Theorem news_create_anonymous image_ok db r uuid d :
  req_method r = POST -> req_token r = None ->
  news_create image_ok db r uuid d = Err NotAuthenticated.
Proof. intros Hm Ht. unfold news_create. rewrite dispatch_anonymous by done. by rewrite Hm. Qed.

(** C14: DELETE /news/{slug}/ by any authenticated caller (the author or
    not) removes the article, every comment and like of it and nothing
    else, and keeps the invariant. *)
Theorem news_destroy_cascades db r slug u nid x :
  db_wf db -> req_method r = DELETE -> req_token r = Some u -> is_Some (users db !! u) ->
  get_object db r slug = Ok (nid, x) ->
  exists db', news_destroy db r slug = Ok db' /\ news db' !! nid = None /\
    (forall n', n' <> nid -> news db' !! n' = news db !! n') /\
    (forall k c, comments db' !! k = Some c <-> comments db !! k = Some c /\ comment_news c <> nid) /\
    (forall k l, likes db' !! k = Some l <-> likes db !! k = Some l /\ like_news l <> nid) /\
    users db' = users db /\ categories db' = categories db /\ db_wf db'.
Proof.
  intros Hwf Hm Ht Hu Hg. exists (news_delete db nid).
  split; [unfold news_destroy; rewrite (dispatch_user _ _ _ _ u), Hm by done; simpl; by rewrite Hg|].
  split; [apply lookup_delete_eq|]. split; [intros; by apply lookup_delete_ne|].
  split; [intros; apply map_lookup_filter_Some|].
  split; [intros; apply map_lookup_filter_Some|].
  do 2 (split; [done|]). by apply news_delete_wf.
Qed.

(** ** CategoryViewSet: destroy *)

(** DELETE /categories/{id}/ by anyone, anonymous callers included,
    removes the category and keeps every article, with its category set
    to none where it was this one; comments and likes are untouched and
    the invariant is kept. *)
Theorem category_destroy_sets_null db r pk c cat user :
  db_wf db -> authenticate db r = Ok user -> pk_lookup (categories db) pk = Ok (c, cat) ->
  exists db', category_destroy db r pk = Ok db' /\ categories db' !! c = None /\
    (forall nid x, news db !! nid = Some x ->
       exists x', news db' !! nid = Some x' /\ news_slug x' = news_slug x /\
         news_author x' = news_author x /\
         news_category x' = if bool_decide (news_category x = Some c) then None else news_category x) /\
    (forall nid, news db !! nid = None -> news db' !! nid = None) /\
    comments db' = comments db /\ likes db' = likes db /\ db_wf db'.
Proof.
  intros Hwf Ha Hc. exists (category_delete db c).
  split; [unfold category_destroy; rewrite (dispatch_allow_any _ _ _ user) by done; by rewrite Hc|].
  split; [apply lookup_delete_eq|]. split.
  - intros nid x Hx. exists (unset_category c x). simpl. rewrite lookup_fmap, Hx.
    split; [done|]. destruct (unset_category_keeps c x) as (? & ? & ?). done.
  - split; [intros nid Hn; simpl; by rewrite lookup_fmap, Hn|].
    do 2 (split; [done|]). by apply category_delete_wf.
Qed.

(** ** CommentViewSet and LikeViewSet *)

(** C19: POST /comments/ by an authenticated caller with a valid body
    stores the caller as [user] but the body's [name] and [email], so a
    caller can sign a comment with someone else's name: the generic
    route does not override identity fields the way the per-article
    route does. *)
Theorem comment_viewset_keeps_body_identity email_ok db r d u v :
  db_wf db -> req_method r = POST -> req_token r = Some u -> is_Some (users db !! u) ->
  validate_comment email_ok db d = inr v ->
  exists k cd db', comment_viewset_create email_ok db r d = Ok (cd, db') /\
    comments db' !! k = Some (mkComment (v_news v) (Some u) (v_name v) (v_email v) (v_comment v)
                                        (req_now r)) /\
    cd_name cd = v_name v /\ cd_email cd = v_email v /\ db_wf db'.
Proof.
  intros Hwf Hm Ht Hu Hv.
  set (c := mkComment (v_news v) (Some u) (v_name v) (v_email v) (v_comment v) (req_now r)).
  assert (Hi : comment_insert db c =
    Ok (next_comment db, set_comments (<[next_comment db := c]> (comments db)) (S (next_comment db)) db)).
  { apply (comment_insert_ok _ _ u); [done|done|]. by eapply validate_comment_news. }
  set (db' := set_comments (<[next_comment db := c]> (comments db)) (S (next_comment db)) db).
  assert (Hwf' : db_wf db') by (eapply comment_insert_wf; eauto).
  exists (next_comment db), (comment_repr db' (next_comment db, c)), db'.
  split; [|split; [apply lookup_insert_eq|done]].
  unfold comment_viewset_create. rewrite (dispatch_user _ _ _ _ u) by done. rewrite Hm.
  simpl. rewrite Hv. fold c. rewrite Hi. simpl. rewrite comment_data_stored; [done|done|].
  apply lookup_insert_eq.
Qed.

(** C20: PATCH /likes/{id}/ with [{"user": v}] by any authenticated
    caller reassigns that Like row, whoever owns it, to the user [v], as
    long as [v] has no row for the same article: the update path does not
    force the identity field. *)
Theorem like_viewset_reassigns_user db r pk k0 l u v :
  db_wf db -> req_token r = Some u -> is_Some (users db !! u) -> req_method r = PATCH ->
  pk_lookup (likes db) pk = Ok (k0, l) -> is_Some (users db !! v) ->
  (forall k l', likes db !! k = Some l' -> k = k0 \/ like_user l' <> v \/ like_news l' <> like_news l) ->
  exists db',
    like_viewset_partial_update db r pk (mkLikeInput (Some v) None None) =
      Ok (like_data k0 (mkLike v (like_news l) (is_liked l) (like_timestamp l)), db') /\
    likes db' !! k0 = Some (mkLike v (like_news l) (is_liked l) (like_timestamp l)) /\ db_wf db'.
Proof.
  intros Hwf Ht Hu Hm Hpk Hv Hfree. pose proof (pk_lookup_ok _ _ _ _ Hpk) as Hl.
  set (row := mkLike v (like_news l) (is_liked l) (like_timestamp l)).
  assert (Hupd : like_update db k0 row = Ok (set_likes (<[k0 := row]> (likes db)) (next_like db) db)).
  { unfold like_update. simpl. rewrite !bool_decide_eq_true_2; [done| |eauto using wf_like_news|done].
    intros k l' Hk. destruct (Hfree k l' Hk) as [->|Hne]; [by left|right].
    unfold like_matches. apply andb_false_iff. rewrite !bool_decide_eq_false. naive_solver. }
  exists (set_likes (<[k0 := row]> (likes db)) (next_like db) db).
  split; [|split; [apply lookup_insert_eq|eapply like_update_wf; eauto]].
  unfold like_viewset_partial_update. rewrite (dispatch_user _ _ _ _ u) by done. rewrite Hm.
  simpl. rewrite Hpk. unfold validate_like. simpl. rewrite bool_decide_eq_true_2 by done.
  rewrite bool_decide_eq_true_2.
  - simpl. fold row. by rewrite Hupd.
  - intros k l' Hk. destruct (Hfree k l' Hk) as [->|?]; [by left|by right].
Qed.

(** C21: POST /likes/ by an authenticated caller who already likes the
    article, with a body naming another user who does not, passes
    validation (the unique check looks at the body's user) and then fails
    at the unique index with an [IntegrityError] (a 500) instead of the
    400 the validator gives for the caller's own id. *)
Theorem like_viewset_spoofed_user_500 db r u v n b :
  db_wf db -> req_method r = POST -> req_token r = Some u -> is_Some (users db !! u) ->
  is_Some (users db !! v) -> is_Some (news db !! n) ->
  count_where (like_matches u n) (likes db) = 1 -> count_where (like_matches v n) (likes db) = 0 ->
  like_viewset_create db r (mkLikeInput (Some v) (Some n) b) = Err IntegrityError.
Proof.
  intros Hwf Hm Ht Hu Hv Hn Hcu Hcv.
  unfold like_viewset_create. rewrite (dispatch_user _ _ _ _ u) by done. rewrite Hm. simpl.
  unfold validate_like. simpl. rewrite !bool_decide_eq_true_2 by done. simpl.
  rewrite bool_decide_eq_true_2.
  - simpl. unfold like_insert. simpl. rewrite Hcu. by rewrite !andb_false_r.
  - intros k l Hk. right. apply count_where_zero with (k := k) (v := l) in Hcv; [|done].
    unfold like_matches in Hcv. apply andb_false_iff in Hcv. rewrite !bool_decide_eq_false in Hcv.
    naive_solver.
Qed.

(** A POST /likes/ request of bob's flagging their like of alice's article
    unliked. *)
(** ** Witnesses *)

Definition alice_news_post : Request := mkRequest POST (Some 1) None 400.
Definition anonymous_news_post : Request := mkRequest POST None None 400.
Definition bob_delete : Request := mkRequest DELETE (Some 2) None 400.
Definition anonymous_delete : Request := mkRequest DELETE None None 400.
Definition alice_patch : Request := mkRequest PATCH (Some 1) None 400.
Definition bob_post : Request := mkRequest POST (Some 2) None 400.

(** A comment body signed with a name that is not the caller's. *)
Definition mallory_body : CommentInput :=
  mkCommentInput (Some 7%N) (Some "mallory") (Some "mallory@example.com") (Some "Great match!").

Definition derby_body : NewsInput :=
  mkNewsInput (Some "Derby day") (Some "derby-day") (Some 1) (Some "news_images/derby.jpg")
              (Some "A report.") None.

Lemma news_create_forces_author_witness :
  exists nd db', news_create (fun _ => true) sample_db alice_news_post 8%N derby_body = Ok (nd, db') /\
                 nd_author nd = "alice".
Proof.
  destruct (news_create_forces_author (fun _ => true) sample_db alice_news_post 8%N derby_body 1
              (mkUser "alice" "alice@example.com" "pbkdf2$a")
              (mkNewsValid "Derby day" "derby-day" 1 "news_images/derby.jpg" "A report." false))
    as (nd & db' & Hc & _ & Ha & _).
  - apply sample_db_wf.
  - reflexivity.
  - reflexivity.
  - reflexivity.
  - vm_compute. reflexivity.
  - reflexivity.
  - exists nd, db'. split; [exact Hc|exact Ha].
Defined.

Lemma news_create_anonymous_witness :
  news_create (fun _ => true) sample_db anonymous_news_post 8%N derby_body = Err NotAuthenticated.
Proof. apply news_create_anonymous; reflexivity. Defined.

Lemma news_destroy_cascades_witness :
  exists db', news_destroy sample_db bob_delete "cup-final" = Ok db' /\ news db' !! 7%N = None.
Proof.
  destruct (news_destroy_cascades sample_db bob_delete "cup-final" 2 7%N sample_news)
    as (db' & Hd & Hn & _).
  - apply sample_db_wf.
  - reflexivity.
  - reflexivity.
  - eexists. reflexivity.
  - vm_compute. reflexivity.
  - exists db'. split; [exact Hd|exact Hn].
Defined.

Lemma category_destroy_sets_null_witness :
  exists db', category_destroy sample_db anonymous_delete "1" = Ok db' /\
    exists x', news db' !! 7%N = Some x' /\ news_category x' = None.
Proof.
  destruct (category_destroy_sets_null sample_db anonymous_delete "1" 1 (mkCategory "Sports" "sports") None)
    as (db' & Hd & _ & Hnews & _).
  - apply sample_db_wf.
  - reflexivity.
  - vm_compute. reflexivity.
  - exists db'. split; [exact Hd|].
    destruct (Hnews 7%N sample_news) as (x' & Hx' & _ & _ & Hcat); [reflexivity|].
    exists x'. split; [exact Hx'|]. rewrite Hcat. reflexivity.
Defined.

Lemma comment_viewset_keeps_body_identity_witness :
  exists k cd db', comment_viewset_create (fun _ => true) sample_db bob_post mallory_body = Ok (cd, db') /\
    comments db' !! k = Some (mkComment 7%N (Some 2) "mallory" "mallory@example.com"
                                               "Great match!" 400).
Proof.
  destruct (comment_viewset_keeps_body_identity (fun _ => true) sample_db bob_post mallory_body 2
              (mkCommentValid 7%N "mallory" "mallory@example.com" "Great match!"))
    as (k & cd & db' & Hc & Hk & _).
  - apply sample_db_wf.
  - reflexivity.
  - reflexivity.
  - eexists. reflexivity.
  - vm_compute. reflexivity.
  - exists k, cd, db'. split; [exact Hc|exact Hk].
Defined.

Lemma like_viewset_reassigns_user_witness :
  exists db', like_viewset_partial_update sample_db_unliked alice_patch "1" (mkLikeInput (Some 1) None None) =
                Ok (like_data 1 (mkLike 1 7%N false 150), db').
Proof.
  destruct (like_viewset_reassigns_user sample_db_unliked alice_patch "1" 1 (mkLike 2 7%N false 150) 1 1)
    as (db' & Hp & _).
  - apply sample_db_unliked_wf.
  - reflexivity.
  - eexists. reflexivity.
  - reflexivity.
  - reflexivity.
  - eexists. reflexivity.
  - intros k l' Hk. left. unfold sample_db_unliked in Hk. simpl in Hk.
    by apply lookup_singleton_Some in Hk as [<- _].
  - exists db'. exact Hp.
Defined.

Lemma like_viewset_spoofed_user_500_witness :
  like_viewset_create sample_db_unliked bob_post (mkLikeInput (Some 1) (Some 7%N) None) = Err IntegrityError.
Proof.
  apply (like_viewset_spoofed_user_500 sample_db_unliked bob_post 2 1 7%N None).
  - apply sample_db_unliked_wf.
  - reflexivity.
  - reflexivity.
  - eexists. reflexivity.
  - eexists. reflexivity.
  - eexists. reflexivity.
  - vm_compute. reflexivity.
  - vm_compute. reflexivity.
Defined.
