(* ===== verification/Registration.v ===== *)
(** * Registration: [RegisterSerializer] and [RegisterView] of [views.py]

    POST /auth/register/ is a [CreateAPIView] open to everyone
    ([AllowAny]).  Its serializer is a [ModelSerializer] of Django's
    [User] with the fields [username], [email] and [password] (write
    only), so rest_framework builds the fields from the model: [username]
    a [CharField(max_length=150)] with Django's [UnicodeUsernameValidator]
    and a [UniqueValidator]; [email] an [EmailField] that may be blank or
    absent; [password] a [CharField(max_length=128)].  Every [CharField]
    strips surrounding whitespace, the password's included.
    [RegisterSerializer.create] hashes the password with [make_password]
    and inserts the row.  The hash and Django's [check_password] are
    parameters; the login check of the token endpoint (simplejwt's
    [TokenObtainPairSerializer] over Django's [ModelBackend]) is written
    from the framework, as the round trip needs it: its username field
    and its [PasswordField] are [CharField]s and strip their values
    before [ModelBackend] checks them. *)

From stdpp Require Import base gmap strings list.
From S2P Require Import Prelude Models Auth Serializers.

(** ** Validation *)

(** The request body; an absent key is [None]. *)
Record RegisterInput := mkRegisterInput {
  in_username : option string;
  in_reg_email : option string;
  in_password : option string;
}.

Definition msg_username : string :=
  "Enter a valid username. This value may contain only letters, numbers, and @/./+/-/_ characters.".
Definition msg_username_taken : string := "A user with that username already exists.".

(** [\w] of a [str] pattern on the code points below U+0100: letters,
    digits and other numeric characters, and the underscore. *)
Definition is_word_char (c : Ascii.ascii) : bool :=
  let k := Ascii.nat_of_ascii c in
  ((48 <=? k) && (k <=? 57)) || ((65 <=? k) && (k <=? 90)) || ((97 <=? k) && (k <=? 122)) ||
  (k =? 95) || (k =? 170) || (k =? 178) || (k =? 179) || (k =? 181) || (k =? 185) ||
  (k =? 186) || ((188 <=? k) && (k <=? 190)) || ((192 <=? k) && (k <=? 214)) ||
  ((216 <=? k) && (k <=? 246)) || (248 <=? k).

(** Django's [UnicodeUsernameValidator]: [^[\w.@+-]+\Z] (the codes of
    ['.'], ['@'], ['+'] and ['-'] are 46, 64, 43 and 45). *)
Definition username_validator : validator :=
  (fun value => py_truthy value &&
     forallb (fun c => is_word_char c || bool_decide (Ascii.nat_of_ascii c ∈ [46; 64; 43; 45]))
             (String.list_ascii_of_string value),
   msg_username).

Section register_validation.
Variable email_ok : string -> bool.

(** [EmailField(allow_blank=True, required=False)] of [User.email]: an
    absent key leaves the model's default [''], a blank value is [''],
    anything else is stripped and validated. *)
Definition blank_email_field (v : option string) : list string + string :=
  match v with
  | None => inr ""
  | Some raw =>
      let value := py_strip raw in
      if negb (py_truthy value) then inr ""
      else run_validators [max_length_validator 254; no_null_validator; (email_ok, msg_email)] value
  end.

(** [RegisterSerializer(data=request.data).is_valid()]. *)
Definition validate_register (db : DB) (d : RegisterInput) : list (string * string) + User :=
  let username_r := char_field [username_validator;
                                unique_validator username (users db) None msg_username_taken;
                                max_length_validator 150; no_null_validator] (in_username d) in
  let email_r := blank_email_field (in_reg_email d) in
  let password_r := char_field [max_length_validator 128; no_null_validator] (in_password d) in
  match username_r, email_r, password_r with
  | inr u, inr e, inr p => inr (mkUser u e p)
  | _, _, _ =>
      inl (field_errors "username" username_r ++ field_errors "email" email_r ++
           field_errors "password" password_r)
  end.
End register_validation.

(** ** The view *)

(** [RegisterSerializer(user).data]: the password is write-only. *)
Record RegisterData := mkRegisterData {
  reg_username : string;
  reg_email : string;
}.

Section register_view.
Variable email_ok : string -> bool.
Variable make_password : string -> string.

(** [RegisterSerializer.create]: [make_password] on the validated
    password, then [User.objects.create] with the validated data. *)
Definition register_create (db : DB) (v : User) : result (nat * User * DB) :=
  let x := mkUser (username v) (user_email v) (make_password (password v)) in
  '(k, db') ← user_insert db x;
  Ok (k, x, db').

(** POST /auth/register/: [CreateAPIView.create] behind [AllowAny]. *)
Definition register (db : DB) (r : Request) (d : RegisterInput) : result (RegisterData * DB) :=
  dispatch db RegisterView_permission r (fun _ =>
    match validate_register email_ok db d with
    | inl errs => Err (ValidationError errs)
    | inr v =>
        '(_, x, db') ← register_create db v;
        Ok (mkRegisterData (username x) (user_email x), db')
    end).
End register_view.

(** ** The login check of the token endpoint *)

Section login.
Variable check_password : string -> string -> bool.

(** [authenticate(username=..., password=...)] as simplejwt's
    [TokenObtainSerializer.validate] calls it, on the values its fields
    returned: [ModelBackend] gets the user by username and checks the
    password against the stored hash. *)
Definition login (db : DB) (uname pw : string) : option nat :=
  match qs_get (fun x => bool_decide (username x = uname)) (users db) with
  | Ok (Some (k, x)) => if check_password pw (password x) then Some k else None
  | _ => None
  end.
End login.

(** ** Lemmas *)

Section lemmas.
Variable email_ok : string -> bool.
Variable make_password : string -> string.

(** What a valid body guarantees: the stripped username, non-blank and
    held by no user, and the stripped password. *)
Lemma validate_register_ok db d v :
  validate_register email_ok db d = inr v ->
  (exists un, in_username d = Some un /\ username v = py_strip un /\ py_truthy (username v) = true) /\
  (exists pw, in_password d = Some pw /\ password v = py_strip pw) /\
  map_Forall (fun _ y => username y <> username v) (users db).
Proof.
  unfold validate_register.
  destruct (char_field _ (in_username d)) as [|un] eqn:Hu; [done|].
  destruct (blank_email_field _ _) as [|e]; [done|].
  destruct (char_field _ (in_password d)) as [|pw] eqn:Hp; [done|]. intros [= <-]. simpl.
  destruct (char_field_value _ _ _ Hu) as (raw & Hraw & Hun & Ht).
  destruct (char_field_value _ _ _ Hp) as (rawp & Hrawp & Hpw & _).
  apply char_field_ok in Hu. inversion Hu as [|? ? _ Hu']; subst.
  inversion Hu' as [|? ? Huniq _]; subst.
  split; [eauto|]. split; [eauto|]. by apply unique_validator_ok in Huniq.
Qed.

(** The view on a valid body: the row it inserts and its answer. *)
Lemma register_valid db r d user v :
  authenticate db r = Ok user -> validate_register email_ok db d = inr v ->
  register email_ok make_password db r d =
    Ok (mkRegisterData (username v) (user_email v),
        set_users (<[next_user db := mkUser (username v) (user_email v) (make_password (password v))]>
                     (users db)) (S (next_user db)) db).
Proof.
  intros Ha Hv. unfold register, RegisterView_permission. rewrite (dispatch_allow_any _ _ _ user) by done.
  rewrite Hv. unfold register_create. simpl.
  destruct (validate_register_ok db d v Hv) as (_ & _ & Huniq). by rewrite user_insert_ok.
Qed.
End lemmas.

(** ** Properties *)

Section properties.
Variable email_ok : string -> bool.
Variable make_password : string -> string.
Variable check_password : string -> string -> bool.

(** [check_password] accepts exactly the password a hash was made of. *)
Hypothesis check_make_password :
  forall raw raw', check_password raw (make_password raw') = bool_decide (raw = raw').

(** C23: a successful registration inserts one user, at the next key of
    the sequence, whose username is the body's stripped username and
    whose password column is the hash of the body's stripped password;
    the answer carries the username and email, no password; no other
    table changes and the invariant is kept. *)
Theorem register_creates_user db r d resp db' :
  db_wf db -> register email_ok make_password db r d = Ok (resp, db') ->
  exists un pw, in_username d = Some un /\ in_password d = Some pw /\
    reg_username resp = py_strip un /\
    users db' = <[next_user db := mkUser (py_strip un) (reg_email resp) (make_password (py_strip pw))]>
                  (users db) /\
    categories db' = categories db /\ news db' = news db /\ comments db' = comments db /\
    likes db' = likes db /\ db_wf db'.
Proof.
  intros Hwf Hr. pose proof Hr as Hr0.
  apply dispatch_runs in Hr as (user & Ha & _ & _).
  destruct (validate_register email_ok db d) as [errs|v] eqn:Hv.
  { unfold register in Hr0. rewrite (dispatch_allow_any _ _ _ user), Hv in Hr0 by done. done. }
  rewrite (register_valid _ _ db r d user v) in Hr0 by done. injection Hr0 as <- <-.
  destruct (validate_register_ok _ db d v Hv) as ((un & Hun & Hu & _) & (pw & Hpw & Hp) & Huniq).
  exists un, pw. rewrite <-Hu, <-Hp. do 8 (split; [done|]).
  eapply user_insert_wf; [done|]. by apply user_insert_ok.
Qed.

(** Registration fails only with a 401 (a bearer token naming no
    user, checked before [AllowAny]) or with the serializer's 400; the
    unique index on the username never raises, since the validator has
    already refused a taken name. *)
Theorem register_errors db r d e :
  register email_ok make_password db r d = Err e ->
  (e = AuthenticationFailed /\ exists u, req_token r = Some u /\ users db !! u = None) \/
  (exists errs, e = ValidationError errs /\ validate_register email_ok db d = inl errs).
Proof.
  unfold register, RegisterView_permission, dispatch, authenticate.
  destruct (req_token r) as [u|]; simpl.
  - case_bool_decide as Hu; simpl.
    + destruct (validate_register email_ok db d) as [errs|v] eqn:Hv; intros He; [right; res_inv; eauto|].
      unfold register_create in He. destruct (validate_register_ok _ db d v Hv) as (_ & _ & Huniq).
      by rewrite user_insert_ok in He.
    + intros He. res_inv. left. split; [done|]. exists u. split; [done|]. by apply eq_None_not_Some.
  - destruct (validate_register email_ok db d) as [errs|v] eqn:Hv; intros He; [right; res_inv; eauto|].
    unfold register_create in He. destruct (validate_register_ok _ db d v Hv) as (_ & _ & Huniq).
    by rewrite user_insert_ok in He.
Qed.

(** C25: register, then log in.  After a successful registration, the
    token endpoint, whose [CharField] and [PasswordField] strip the
    username and the password before [ModelBackend]'s check, finds the
    new user under the username the body sent and accepts a password [q]
    exactly when [q] stripped is the body's password stripped (the one
    whose hash was stored). *)
Theorem register_login_roundtrip db r d resp db' un pw :
  db_wf db -> register email_ok make_password db r d = Ok (resp, db') ->
  in_username d = Some un -> in_password d = Some pw ->
  forall q, login check_password db' (py_strip un) (py_strip q) =
    if bool_decide (py_strip q = py_strip pw) then Some (next_user db) else None.
Proof.
  intros Hwf Hr Hun Hpw q.
  destruct (register_creates_user db r d resp db' Hwf Hr)
    as (un' & pw' & Hun' & Hpw' & _ & Husers & _ & _ & _ & _ & Hwf').
  rewrite Hun in Hun'. rewrite Hpw in Hpw'. simplify_eq.
  unfold login. rewrite Husers.
  rewrite (qs_get_unique _ _ (next_user db) (mkUser (py_strip un') (reg_email resp) (make_password (py_strip pw')))).
  - simpl. by rewrite check_make_password.
  - intros k1 k2 x1 x2 H1 H2 E1 E2. rewrite <-Husers in H1, H2.
    apply bool_decide_eq_true in E1, E2. eapply (wf_username_unique _ Hwf'); eauto. congruence.
  - apply lookup_insert_eq.
  - simpl. by apply bool_decide_eq_true_2.
Qed.

(** A taken username is a 400.  When a user already has the
    stripped username of the body (a non-blank one), registration fails
    with a validation error that names the username field with Django's
    message, and nothing is written. *)
Theorem register_duplicate_username db r d user un k x :
  authenticate db r = Ok user -> in_username d = Some un ->
  users db !! k = Some x -> username x = py_strip un -> py_truthy (username x) = true ->
  exists errs, register email_ok make_password db r d = Err (ValidationError errs) /\
    ("username", msg_username_taken) ∈ errs.
Proof.
  intros Ha Hun Hk Hx Ht. unfold register, RegisterView_permission.
  rewrite (dispatch_allow_any _ _ _ user) by done.
  unfold validate_register. rewrite Hun.
  destruct (run_validators_fail [username_validator;
      unique_validator username (users db) None msg_username_taken;
      max_length_validator 150; no_null_validator] (py_strip un)
      (unique_validator username (users db) None msg_username_taken)) as (msgs & Hrun & Hin).
  { apply list_elem_of_further, list_elem_of_here. }
  { apply bool_decide_eq_false_2. intros Hall. by destruct (Hall k x Hk). }
  unfold char_field. rewrite <-Hx, Ht. simpl. rewrite <-Hx in Hrun. rewrite Hrun.
  eexists. split; [reflexivity|].
  apply elem_of_app. left. unfold field_errors. apply list_elem_of_fmap. eauto.
Qed.
End properties.

(** ** A registration on the sample database *)

(** An email check and a hash for the scenarios: the hash keeps the
    password after a fixed prefix, which is all the round trip uses. *)
Definition demo_email_ok (s : string) : bool :=
  bool_decide (Ascii.ascii_of_nat 64 ∈ String.list_ascii_of_string s).
Definition demo_make_password (raw : string) : string := String.append "pbkdf2$" raw.
Definition demo_check_password (raw encoded : string) : bool :=
  bool_decide (encoded = demo_make_password raw).

Lemma demo_check_make raw raw' :
  demo_check_password raw (demo_make_password raw') = bool_decide (raw = raw').
Proof.
  unfold demo_check_password. apply bool_decide_ext.
  split; [intros ?%(inj (String.append "pbkdf2$")); done|by intros ->].
Qed.

Definition anonymous_register_request : Request := mkRequest POST None None 300.

(** Carol registers with spaces around their username and password. *)
Definition carol_body : RegisterInput :=
  mkRegisterInput (Some " carol ") (Some "carol@example.com") (Some " s3cret ").

(** ** Witnesses *)

Lemma register_creates_user_witness :
  exists resp db',
    register demo_email_ok demo_make_password sample_db anonymous_register_request carol_body =
      Ok (resp, db') /\
    exists un pw, in_username carol_body = Some un /\ in_password carol_body = Some pw /\
      reg_username resp = py_strip un /\
      users db' = <[next_user sample_db := mkUser (py_strip un) (reg_email resp)
                                             (demo_make_password (py_strip pw))]> (users sample_db) /\
      categories db' = categories sample_db /\ news db' = news sample_db /\
      comments db' = comments sample_db /\ likes db' = likes sample_db /\ db_wf db'.
Proof.
  destruct (register demo_email_ok demo_make_password sample_db anonymous_register_request carol_body)
    as [[resp db']|e] eqn:E; [|vm_compute in E; discriminate].
  exists resp, db'. split; [reflexivity|].
  apply (register_creates_user demo_email_ok demo_make_password sample_db anonymous_register_request
           carol_body resp db').
  - apply sample_db_wf.
  - exact E.
Defined.

Lemma register_errors_witness :
  let bad := mkRegisterInput (Some "alice") None None in
  register demo_email_ok demo_make_password sample_db anonymous_register_request bad =
    Err (ValidationError [("username", msg_username_taken); ("password", msg_required)]) /\
  ((ValidationError [("username", msg_username_taken); ("password", msg_required)] = AuthenticationFailed /\
    exists u, req_token anonymous_register_request = Some u /\ users sample_db !! u = None) \/
   (exists errs, ValidationError [("username", msg_username_taken); ("password", msg_required)] =
                 ValidationError errs /\
                 validate_register demo_email_ok sample_db bad = inl errs)).
Proof.
  intros bad. split; [vm_compute; reflexivity|].
  apply (register_errors demo_email_ok demo_make_password sample_db anonymous_register_request bad).
  vm_compute. reflexivity.
Defined.

Lemma register_login_roundtrip_witness :
  exists resp db',
    register demo_email_ok demo_make_password sample_db anonymous_register_request carol_body =
      Ok (resp, db') /\
    forall q, login demo_check_password db' (py_strip " carol ") (py_strip q) =
      if bool_decide (py_strip q = py_strip " s3cret ") then Some (next_user sample_db) else None.
Proof.
  destruct (register demo_email_ok demo_make_password sample_db anonymous_register_request carol_body)
    as [[resp db']|e] eqn:E; [|vm_compute in E; discriminate].
  exists resp, db'. split; [reflexivity|].
  apply (register_login_roundtrip demo_email_ok demo_make_password demo_check_password demo_check_make
           sample_db anonymous_register_request carol_body resp db' " carol " " s3cret ").
  - apply sample_db_wf.
  - exact E.
  - reflexivity.
  - reflexivity.
Defined.

Lemma register_duplicate_username_witness :
  exists errs,
    register demo_email_ok demo_make_password sample_db anonymous_register_request
      (mkRegisterInput (Some " alice ") None (Some "pw")) = Err (ValidationError errs) /\
    ("username", msg_username_taken) ∈ errs.
Proof.
  apply (register_duplicate_username demo_email_ok demo_make_password sample_db
           anonymous_register_request _ None " alice " 1 (mkUser "alice" "alice@example.com" "pbkdf2$a")).
  - reflexivity.
  - reflexivity.
  - reflexivity.
  - vm_compute. reflexivity.
  - reflexivity.
Defined.
