(* ===== verification/ReadViews.v ===== *)
(** * ReadViews: the list and retrieve routes of the four view sets

    rest_framework's [ListModelMixin.list] (the view's queryset, then the
    serializer with [many=True]) and [RetrieveModelMixin.retrieve]
    ([get_object], then the serializer) for [CategoryViewSet],
    [NewsViewSet], [CommentViewSet] and [LikeViewSet].  [get_object]
    filters the queryset by the URL's lookup value: the slug for News
    (through [get_queryset], see [NewsViews]), the primary key for the
    others ([pk_lookup] of [Prelude]).
    News has [Meta.ordering = ['-date_posted']]; the other querysets are
    unordered, and are listed here in primary-key order, the order of a
    table scan. *)

From stdpp Require Import base gmap strings list sorting.
From S2P Require Import Prelude Models Auth Serializers NewsViews CommentsView.

(** ** Lookups and orders *)

(** Primary-key order. *)
Definition key_le {V} (a b : nat * V) : Prop := a.1 <= b.1.

#[export] Instance key_le_dec {V} : RelDecision (@key_le V).
Proof. intros a b. unfold key_le. apply _. Defined.

Definition rows_by_key {V} (tbl : gmap nat V) : list (nat * V) :=
  merge_sort key_le (map_to_list tbl).

(** [Meta.ordering = ['-date_posted']] of News. *)
Definition newer_news (a b : N * News) : Prop := (news_date_posted b.2 <= news_date_posted a.2)%Z.

#[export] Instance newer_news_dec : RelDecision newer_news.
Proof. intros a b. unfold newer_news. apply _. Defined.

(** ** CategoryViewSet *)

Definition category_data (k : nat) (c : Category) : CategoryData :=
  mkCategoryData k (cat_name c) (cat_slug c).

(** GET /categories/. *)
Definition category_list (db : DB) (r : Request) : result (list CategoryData) :=
  dispatch db CategoryViewSet_permission r (fun _ =>
    Ok ((fun kv : nat * Category => category_data kv.1 kv.2) <$> rows_by_key (categories db))).

(** GET /categories/{pk}/. *)
Definition category_retrieve (db : DB) (r : Request) (pk : string) : result CategoryData :=
  dispatch db CategoryViewSet_permission r (fun _ =>
    '(k, c) ← pk_lookup (categories db) pk;
    Ok (category_data k c)).

(** ** NewsViewSet *)

(** GET /news/: the queryset of [get_queryset] in the model's order. *)
Definition news_list (db : DB) (r : Request) : result (list NewsData) :=
  dispatch db NewsViewSet_permission r (fun _ =>
    mapR (fun kv : N * News => news_data db kv.1 kv.2)
         (merge_sort newer_news (map_to_list (get_queryset db r)))).

(** GET /news/{slug}/. *)
Definition news_retrieve (db : DB) (r : Request) (slug : string) : result NewsData :=
  dispatch db NewsViewSet_permission r (fun _ =>
    '(nid, x) ← get_object db r slug;
    news_data db nid x).

(** ** CommentViewSet *)

(** GET /comments/. *)
Definition comment_list (db : DB) (r : Request) : result (list CommentData) :=
  dispatch db CommentViewSet_permission r (fun _ =>
    serialize_many db (rows_by_key (Models.comments db))).

(** GET /comments/{pk}/. *)
Definition comment_retrieve (db : DB) (r : Request) (pk : string) : result CommentData :=
  dispatch db CommentViewSet_permission r (fun _ =>
    '(k, c) ← pk_lookup (Models.comments db) pk;
    comment_data db k c).

(** ** LikeViewSet *)

(** GET /likes/. *)
Definition like_list (db : DB) (r : Request) : result (list LikeData) :=
  dispatch db LikeViewSet_permission r (fun _ =>
    Ok ((fun kv : nat * Like => like_data kv.1 kv.2) <$> rows_by_key (likes db))).

(** GET /likes/{pk}/. *)
Definition like_retrieve (db : DB) (r : Request) (pk : string) : result LikeData :=
  dispatch db LikeViewSet_permission r (fun _ =>
    '(k, l) ← pk_lookup (likes db) pk;
    Ok (like_data k l)).

(** ** Lemmas *)

#[export] Instance newer_news_total : Total newer_news.
Proof. intros a b. unfold newer_news. lia. Qed.

Lemma news_data_fields db nid x nd :
  news_data db nid x = Ok nd -> nd_id nd = nid /\ nd_date_posted nd = news_date_posted x.
Proof. unfold news_data. repeat case_match; intros; simplify_eq/=; done. Qed.

(** Under the invariant every article serializes: its author and its
    category exist. *)
Lemma news_data_ok db nid x :
  db_wf db -> news db !! nid = Some x -> exists nd, news_data db nid x = Ok nd.
Proof.
  intros Hwf Hx. unfold news_data.
  destruct (wf_news_author _ Hwf _ _ Hx) as [usr ->]. simpl.
  destruct (news_category x) as [c|] eqn:Hc; simpl; [|eauto].
  destruct (wf_news_category _ Hwf _ _ _ Hx Hc) as [y ->]. simpl. eauto.
Qed.

(** ** Properties *)

(** C26: the article list (spec, section 8: an anonymous GET /news/
    always succeeds).  For every caller the permission admits, anonymous
    readers included, GET /news/ succeeds on a database satisfying the
    invariant, lists each article of the (filtered) queryset exactly
    once, and lists them newest first. *)
Theorem news_list_spec db r user :
  db_wf db -> authenticate db r = Ok user ->
  has_permission NewsViewSet_permission (req_method r) user = true ->
  exists l, news_list db r = Ok l /\
    Sorted (fun a b => (nd_date_posted b <= nd_date_posted a)%Z) l /\
    nd_id <$> l ≡ₚ (map_to_list (get_queryset db r)).*1.
Proof.
  intros Hwf Ha Hp. unfold news_list, dispatch. rewrite Ha, bind_ret, Hp.
  destruct (mapR_Forall2 (fun kv : N * News => news_data db kv.1 kv.2)
              (merge_sort newer_news (map_to_list (get_queryset db r)))) as (l & Hl & H2).
  { intros [nid x] Hin. rewrite merge_sort_Permutation, elem_of_map_to_list in Hin.
    apply news_data_ok; [done|]. by apply (get_queryset_sub db r). }
  exists l. split; [done|]. split.
  - eapply (Sorted_Forall2 newer_news); [|exact H2|apply Sorted_merge_sort].
    intros [n1 x1] [n2 x2] d1 d2 (_ & E1)%news_data_fields (_ & E2)%news_data_fields.
    unfold newer_news. simpl in *. lia.
    apply _.
  - rewrite <-(Forall2_fmap_eq fst nd_id _ _ _ (fun x y H => eq_sym (proj1 (news_data_fields _ _ _ _ H))) H2).
    by rewrite merge_sort_Permutation.
Qed.

(** ** Witnesses *)

(** An anonymous reader lists the sample articles. *)
Lemma news_list_spec_witness :
  exists l, news_list sample_db anonymous_get = Ok l /\
    Sorted (fun a b => (nd_date_posted b <= nd_date_posted a)%Z) l /\
    nd_id <$> l ≡ₚ (map_to_list (get_queryset sample_db anonymous_get)).*1.
Proof. apply (news_list_spec sample_db anonymous_get None); [apply sample_db_wf|reflexivity..]. Defined.
