(* ===== verification/UpdateViews.v ===== *)
(** * UpdateViews: the update and remaining destroy routes of the view sets

    rest_framework's [UpdateModelMixin.update]: [get_object] (a 404 comes
    before any validation), the serializer bound to the instance with the
    body ([partial=True] for PATCH), [perform_update] (no view set of
    [views.py] overrides it, so [serializer.save()]), and the
    representation of the saved row.  With [partial=True] an absent key
    is skipped and the row keeps its value; with PUT a required key must
    be present.  Unique validators exclude the instance.  A field with a
    model default ([is_breaking]) is not required and, when absent, keeps
    the row's value.  The PUT of Like requires [user] and [news] again.
    [DestroyModelMixin] for Comment and Like.  No view set checks who
    owns the row. *)

From stdpp Require Import base gmap strings list.
From S2P Require Import Prelude Models Auth Serializers NewsViews GenericViews ReadViews.

(** ** Fields of an update *)

(** A field bound to an instance: an absent key of a partial update
    keeps the instance's value; otherwise the field validates the key as
    on a create. *)
Definition upd_field {A} (partial : bool) (field : option A -> list string + A) (v : option A)
    (current : A) : list string + A :=
  match v with
  | None => if partial then inr current else field None
  | Some _ => field v
  end.

(** ** CategoryViewSet *)

(** [CategorySerializer(category, data, partial).is_valid()]. *)
Definition validate_category_update (db : DB) (k : nat) (partial : bool) (c : Category)
    (d : CategoryInput) : list (string * string) + Category :=
  let name_r := upd_field partial
                  (char_field [unique_validator cat_name (categories db) (Some k)
                                 "category with this name already exists.";
                               max_length_validator 100; no_null_validator])
                  (in_cat_name d) (cat_name c) in
  let slug_r := upd_field partial
                  (char_field [unique_validator cat_slug (categories db) (Some k)
                                 "category with this slug already exists.";
                               max_length_validator 100; no_null_validator; slug_validator])
                  (in_cat_slug d) (cat_slug c) in
  match name_r, slug_r with
  | inr nm, inr sl => inr (mkCategory nm sl)
  | _, _ => inl (field_errors "name" name_r ++ field_errors "slug" slug_r)
  end.

(** PUT and PATCH /categories/{pk}/. *)
Definition category_viewset_update (db : DB) (r : Request) (pk : string) (partial : bool)
    (d : CategoryInput) : result (CategoryData * DB) :=
  dispatch db CategoryViewSet_permission r (fun _ =>
    '(k, c) ← pk_lookup (categories db) pk;
    match validate_category_update db k partial c d with
    | inl errs => Err (ValidationError errs)
    | inr c' =>
        db' ← category_update db k c';
        Ok (category_data k c', db')
    end).

(** ** NewsViewSet *)

Section news_update_view.
Variable image_ok : string -> bool.

(** The [ImageField] of [NewsSerializer]: the upload must be an image. *)
Definition image_field (v : option string) : list string + string :=
  match v with
  | None => inl [msg_required]
  | Some f => if image_ok f then inr f else inl [msg_image]
  end.

(** [NewsSerializer(news, data, partial).is_valid()], with the row the
    save writes: [author] and [date_posted] are read-only and kept. *)
Definition validate_news_update (db : DB) (nid : N) (partial : bool) (x : News) (d : NewsInput)
    : list (string * string) + News :=
  let title_r := upd_field partial (char_field [max_length_validator 255; no_null_validator])
                   (in_title d) (news_title x) in
  let slug_r := upd_field partial
                  (char_field [unique_validator news_slug (news db) (Some nid)
                                 "news with this slug already exists.";
                               max_length_validator 255; no_null_validator; slug_validator])
                  (in_slug d) (news_slug x) in
  let cat_r : list string + option nat :=
    match in_category_id d with
    | None => if partial then inr (news_category x) else inl [msg_required]
    | Some c =>
        match category_pk_field db (Some c) with
        | inl msgs => inl msgs
        | inr c' => inr (Some c')
        end
    end in
  let image_r := upd_field partial image_field (in_image d) (news_image x) in
  let body_r := upd_field partial (char_field [no_null_validator]) (in_body d) (news_body x) in
  match title_r, slug_r, cat_r, image_r, body_r with
  | inr t, inr sl, inr c, inr im, inr b =>
      inr (mkNews c (news_author x) t sl im b (news_date_posted x) (news_updated_at x)
                  (default (news_is_breaking x) (in_is_breaking d)))
  | _, _, _, _, _ =>
      inl (field_errors "title" title_r ++ field_errors "slug" slug_r ++
           field_errors "category_id" cat_r ++ field_errors "image" image_r ++
           field_errors "body" body_r)
  end.

(** The row as [save()] writes it: [updated_at] is [auto_now]. *)
Definition touch (now : Z) (x : News) : News :=
  mkNews (news_category x) (news_author x) (news_title x) (news_slug x) (news_image x)
         (news_body x) (news_date_posted x) now (news_is_breaking x).

(** PUT and PATCH /news/{slug}/. *)
Definition news_viewset_update (db : DB) (r : Request) (slug : string) (partial : bool)
    (d : NewsInput) : result (NewsData * DB) :=
  dispatch db NewsViewSet_permission r (fun _ =>
    '(nid, x) ← get_object db r slug;
    match validate_news_update db nid partial x d with
    | inl errs => Err (ValidationError errs)
    | inr x' =>
        let x'' := touch (req_now r) x' in
        db' ← news_update db nid x'';
        nd ← news_data db' nid x'';
        Ok (nd, db')
    end).
End news_update_view.

(** ** CommentViewSet *)

Section comment_update_view.
Variable email_ok : string -> bool.

(** [CommentSerializer(comment, data, partial).is_valid()]. *)
Definition validate_comment_update (db : DB) (partial : bool) (c : Comment) (d : CommentInput)
    : list (string * string) + CommentValid :=
  let news_r := upd_field partial (news_pk_field db) (in_news d) (comment_news c) in
  let name_r := upd_field partial (char_field [max_length_validator 100; no_null_validator])
                  (in_name d) (comment_name c) in
  let email_r := upd_field partial
                   (char_field [max_length_validator 254; no_null_validator; (email_ok, msg_email)])
                   (in_email d) (comment_email c) in
  let comment_r := upd_field partial (char_field [no_null_validator]) (in_comment d) (comment_body c) in
  match news_r, name_r, email_r, comment_r with
  | inr n, inr nm, inr em, inr b => inr (mkCommentValid n nm em b)
  | _, _, _, _ =>
      inl (field_errors "news" news_r ++ field_errors "name" name_r ++
           field_errors "email" email_r ++ field_errors "comment" comment_r)
  end.

(** PUT and PATCH /comments/{pk}/: [user] and [timestamp] are read-only
    and kept. *)
Definition comment_viewset_update (db : DB) (r : Request) (pk : string) (partial : bool)
    (d : CommentInput) : result (CommentData * DB) :=
  dispatch db CommentViewSet_permission r (fun _ =>
    '(k, c) ← pk_lookup (Models.comments db) pk;
    match validate_comment_update db partial c d with
    | inl errs => Err (ValidationError errs)
    | inr v =>
        let c' := mkComment (v_news v) (comment_user c) (v_name v) (v_email v) (v_comment v)
                            (comment_timestamp c) in
        db' ← comment_update db k c';
        cd ← comment_data db' k c';
        Ok (cd, db')
    end).
End comment_update_view.

(** DELETE /comments/{pk}/. *)
Definition comment_viewset_destroy (db : DB) (r : Request) (pk : string) : result DB :=
  dispatch db CommentViewSet_permission r (fun _ =>
    '(k, _) ← pk_lookup (Models.comments db) pk;
    Ok (comment_delete db k)).

(** ** LikeViewSet *)

(** DELETE /likes/{pk}/. *)
Definition like_viewset_destroy (db : DB) (r : Request) (pk : string) : result DB :=
  dispatch db LikeViewSet_permission r (fun _ =>
    '(k, _) ← pk_lookup (likes db) pk;
    Ok (like_delete db k)).

(** PUT /likes/{pk}/: [user] and [news] are required again (a missing
    one is a field error, reported with the other field's); with both
    given the serializer runs as on PATCH ([validate_like] with the
    instance), [is_liked] keeping the stored value when absent. *)
Definition like_viewset_update (db : DB) (r : Request) (pk : string) (d : LikeInput)
    : result (LikeData * DB) :=
  match in_like_user d, in_like_news d with
  | Some _, Some _ => like_viewset_partial_update db r pk d
  | _, _ =>
      dispatch db LikeViewSet_permission r (fun _ =>
        '(_, _) ← pk_lookup (likes db) pk;
        Err (ValidationError (field_errors "user" (user_pk_field db (in_like_user d)) ++
                              field_errors "news" (news_pk_field db (in_like_news d)))))
  end.

(** ** Sample data *)

(** The sample database with a comment by alice on the sample article. *)
Definition commented_db : DB :=
  set_comments {[1 := mkComment 7%N (Some 1) "alice" "alice@example.com" "First!" 250]} 2 sample_db.

(** Bob's requests: a PATCH and a DELETE. *)
Definition bob_patch : Request := mkRequest PATCH (Some 2) None 500.
Definition bob_destroy : Request := mkRequest DELETE (Some 2) None 500.

(** ** Lemmas *)

(** The UPDATE of a comment that keeps the stored user and article. *)
Lemma comment_update_ok db k c c' :
  db_wf db -> Models.comments db !! k = Some c ->
  comment_user c' = comment_user c -> comment_news c' = comment_news c ->
  comment_update db k c' = Ok (set_comments (<[k := c']> (Models.comments db)) (next_comment db) db).
Proof.
  intros Hwf Hk Hu Hn. destruct (wf_comment_user _ Hwf _ _ Hk) as (u & Hcu & Husr).
  unfold comment_update. rewrite Hu, Hcu, Hn.
  by rewrite !bool_decide_eq_true_2 by eauto using wf_comment_news.
Qed.

(** ** Properties *)

Section comment_claims.
Variable email_ok : string -> bool.

(** C27: any authenticated caller can re-sign any comment.  A PATCH
    /comments/{pk}/ with only a valid [name], by a caller who need not be
    the comment's author, succeeds and stores the new name under the
    original author: the identity that the per-article view imposes
    (C3) is not protected on the generic route. *)
Theorem comment_patch_rewrites_name db r pk k c u nm nm' :
  db_wf db -> req_token r = Some u -> is_Some (users db !! u) ->
  pk_lookup (Models.comments db) pk = Ok (k, c) ->
  char_field [max_length_validator 100; no_null_validator] (Some nm) = inr nm' ->
  exists cd db',
    comment_viewset_update email_ok db r pk true (mkCommentInput None (Some nm) None None) = Ok (cd, db') /\
    Models.comments db' !! k =
      Some (mkComment (comment_news c) (comment_user c) nm' (comment_email c) (comment_body c)
                      (comment_timestamp c)) /\
    cd_name cd = nm' /\ cd_user cd = comment_user c.
Proof.
  intros Hwf Ht Hu Hpk Hnm. pose proof (pk_lookup_ok _ _ _ _ Hpk) as Hk.
  unfold comment_viewset_update. rewrite (dispatch_user _ _ _ _ u) by done.
  rewrite has_permission_some, Hpk. unfold validate_comment_update.
  cbn -[char_field comment_update comment_data]. rewrite Hnm. cbn -[comment_update comment_data].
  set (c' := mkComment (comment_news c) (comment_user c) nm' (comment_email c) (comment_body c)
                       (comment_timestamp c)).
  rewrite (comment_update_ok db k c c') by done. cbn -[comment_data].
  assert (Hwf' : db_wf (set_comments (<[k := c']> (Models.comments db)) (next_comment db) db)).
  { eapply (comment_update_wf db k c'); [done|by eexists|]. by apply (comment_update_ok db k c c'). }
  rewrite (comment_data_stored _ k c') by (done || apply lookup_insert_eq). simpl.
  do 2 eexists. split; [reflexivity|]. split; [apply lookup_insert_eq|done].
Qed.
End comment_claims.

(** The UPDATE of an article that keeps its slug, author and category. *)
Lemma news_update_ok db nid x x' :
  db_wf db -> news db !! nid = Some x ->
  news_slug x' = news_slug x -> news_author x' = news_author x -> news_category x' = news_category x ->
  news_update db nid x' = Ok (set_news (<[nid := x']> (news db)) db).
Proof.
  intros Hwf Hx Hs Ha Hc. unfold news_update. rewrite Ha, Hc, Hs.
  rewrite !bool_decide_eq_true_2; [|eauto using wf_news_author|].
  - destruct (news_category x) as [cat|] eqn:Hcat; [|done].
    by rewrite bool_decide_eq_true_2 by eauto using wf_news_category.
  - intros n y Hy. destruct (decide (n = nid)) as [|Hne]; [by left|right].
    intros Heq. apply Hne. eapply (wf_news_slug_unique _ Hwf); eauto.
Qed.

Section news_claims.
Variable image_ok : string -> bool.

(** Any authenticated caller can edit any article.  A PATCH
    /news/{slug}/ with only a valid [title], by a caller who need not be
    the author, succeeds; the stored article has the new title, the same
    author, category, slug and [date_posted], and [updated_at] set to the
    request's time. *)
Theorem news_patch_keeps_author db r slug nid x u t t' :
  db_wf db -> req_token r = Some u -> is_Some (users db !! u) -> get_object db r slug = Ok (nid, x) ->
  char_field [max_length_validator 255; no_null_validator] (Some t) = inr t' ->
  exists nd db',
    news_viewset_update image_ok db r slug true (mkNewsInput (Some t) None None None None None) =
      Ok (nd, db') /\
    news db' !! nid = Some (mkNews (news_category x) (news_author x) t' (news_slug x) (news_image x)
                                   (news_body x) (news_date_posted x) (req_now r) (news_is_breaking x)) /\
    nd_title nd = t'.
Proof.
  intros Hwf Ht Hu Hg Ht'. destruct (get_object_ok _ _ _ _ _ Hg) as [Hx _].
  unfold news_viewset_update. rewrite (dispatch_user _ _ _ _ u), has_permission_some, Hg by done.
  unfold validate_news_update. cbn -[char_field news_update news_data]. rewrite Ht'.
  unfold touch. cbn -[news_update news_data].
  set (x' := mkNews (news_category x) (news_author x) t' (news_slug x) (news_image x) (news_body x)
                    (news_date_posted x) (req_now r) (news_is_breaking x)).
  rewrite (news_update_ok db nid x x') by done. cbn -[news_data].
  assert (Hwf' : db_wf (set_news (<[nid := x']> (news db)) db)).
  { eapply (news_update_wf db nid x'); [done|by eexists|]. by apply (news_update_ok db nid x x'). }
  destruct (ReadViews.news_data_ok _ nid x' Hwf') as [nd Hnd]; [apply lookup_insert_eq|].
  rewrite Hnd. simpl. eexists _, _. split; [reflexivity|]. split; [apply lookup_insert_eq|].
  unfold news_data in Hnd. by repeat case_match; simplify_eq/=.
Qed.
End news_claims.

(** The destroy routes check no ownership.  Any authenticated caller
    deletes any comment and any like row by its key: the row is gone and
    the invariant holds. *)
Theorem destroy_any_owner db r pk u :
  db_wf db -> req_token r = Some u -> is_Some (users db !! u) ->
  (forall k c, pk_lookup (Models.comments db) pk = Ok (k, c) ->
     exists db', comment_viewset_destroy db r pk = Ok db' /\ Models.comments db' !! k = None /\ db_wf db') /\
  (forall k l, pk_lookup (likes db) pk = Ok (k, l) ->
     exists db', like_viewset_destroy db r pk = Ok db' /\ likes db' !! k = None /\ db_wf db').
Proof.
  intros Hwf Ht Hu. split; intros k v Hpk.
  - exists (comment_delete db k). unfold comment_viewset_destroy.
    rewrite (dispatch_user _ _ _ _ u), has_permission_some, Hpk by done.
    split; [done|]. split; [apply lookup_delete_eq|by apply comment_delete_wf].
  - exists (like_delete db k). unfold like_viewset_destroy.
    rewrite (dispatch_user _ _ _ _ u), has_permission_some, Hpk by done.
    split; [done|]. split; [apply lookup_delete_eq|by apply like_delete_wf].
Qed.

(** ** Witnesses *)

Lemma commented_db_wf : db_wf commented_db.
Proof. apply db_wf_check_sound. apply (bool_decide_eq_true_1 _). vm_compute. reflexivity. Qed.

(** Bob re-signs alice's comment as mallory. *)
Lemma comment_patch_rewrites_name_witness :
  exists cd db',
    comment_viewset_update (fun _ => true) commented_db bob_patch "1" true
      (mkCommentInput None (Some "mallory") None None) = Ok (cd, db') /\
    Models.comments db' !! 1 =
      Some (mkComment 7%N (Some 1) "mallory" "alice@example.com" "First!" 250) /\
    cd_name cd = "mallory" /\ cd_user cd = Some 1.
Proof.
  apply (comment_patch_rewrites_name (fun _ => true) commented_db bob_patch "1" 1
           (mkComment 7%N (Some 1) "alice" "alice@example.com" "First!" 250) 2).
  - apply commented_db_wf.
  - reflexivity.
  - eexists. reflexivity.
  - vm_compute. reflexivity.
  - vm_compute. reflexivity.
Defined.

(** Bob retitles alice's article. *)
Lemma news_patch_keeps_author_witness :
  exists nd db',
    news_viewset_update (fun _ => true) sample_db bob_patch "cup-final" true
      (mkNewsInput (Some " Final! ") None None None None None) = Ok (nd, db') /\
    news db' !! 7%N = Some (mkNews (Some 1) 1 "Final!" "cup-final" "news_images/cup.jpg"
                                   "The final was played." 100 500 false) /\
    nd_title nd = "Final!".
Proof.
  apply (news_patch_keeps_author (fun _ => true) sample_db bob_patch "cup-final" 7%N sample_news 2).
  - apply sample_db_wf.
  - reflexivity.
  - eexists. reflexivity.
  - vm_compute. reflexivity.
  - vm_compute. reflexivity.
Defined.

(** Bob deletes alice's comment. *)
Lemma destroy_any_owner_witness :
  exists db', comment_viewset_destroy commented_db bob_destroy "1" = Ok db' /\
    Models.comments db' !! 1 = None /\ db_wf db'.
Proof.
  apply (proj1 (destroy_any_owner commented_db bob_destroy "1" 2 commented_db_wf eq_refl
                  (ltac:(eexists; reflexivity))) 1 (mkComment 7%N (Some 1) "alice" "alice@example.com" "First!" 250)).
  vm_compute. reflexivity.
Defined.
