(* ===== verification/Routing.v ===== *)
(** * Routing: [urls.py] and the API as one function

    [urls.py] includes the URLs of a [DefaultRouter] with the four view
    sets registered, then the three [auth/] paths and the per-article
    comments path.  Django tries the patterns in order and runs the first
    that matches.  A path is the list of its segments ([/news/cup-final/
    like/] is [["news"; "cup-final"; "like"]]); paths without the final
    slash (which Django redirects) and the router's format-suffix
    patterns ([.json]) are not modelled.

    [serve] is the whole API: it resolves the path, picks the handler of
    the route for the method ([ViewSetMixin]'s action map: GET and HEAD
    to [list] or [retrieve], POST to [create], PUT and PATCH to [update],
    DELETE to [destroy], OPTIONS to the metadata), and answers 405 for a
    method the route does not map, after the pipeline's authentication
    and permission checks, as rest_framework does.  A request body is
    given as what each serializer reads of it ([Body]).  The token
    endpoints run the login check of [Registration] (simplejwt issues a
    token naming the user, which is what [req_token] carries). *)

From stdpp Require Import base gmap strings list.
From S2P Require Import Prelude Models Auth Serializers NewsViews CommentsView GenericViews.
From S2P Require Import Registration ReadViews UpdateViews.

(** ** The URL table *)

Inductive Route :=
| RApiRoot
| RCategoryList | RCategoryDetail (pk : string)
| RNewsList | RNewsDetail (slug : string) | RNewsLike (slug : string)
| RCommentList | RCommentDetail (pk : string)
| RLikeList | RLikeDetail (pk : string)
| RRegister | RTokenObtain | RTokenRefresh
| RNewsComments (slug : string).

#[export] Instance Route_eq_dec : EqDecision Route.
Proof. solve_decision. Defined.

(** The router's lookup value [[^/.]+] within a segment: not empty and
    no ['.'] (code 46). *)
Definition lookup_value_ok (s : string) : bool :=
  py_truthy s && forallb (fun c => negb (Ascii.nat_of_ascii c =? 46)) (String.list_ascii_of_string s).

(** Django's [slug] path converter, [[-a-zA-Z0-9_]+]. *)
Definition slug_converter_ok (s : string) : bool :=
  py_truthy s && forallb is_slug_char (String.list_ascii_of_string s).

Definition seg (a lit : string) : bool := bool_decide (a = lit).

(** A prefix registered on the router: its list and detail routes. *)
Definition router_list (prefix : string) (route : Route) (p : list string) : option Route :=
  match p with [a] => if seg a prefix then Some route else None | _ => None end.

Definition router_detail (prefix : string) (route : string -> Route) (p : list string) : option Route :=
  match p with
  | [a; v] => if seg a prefix && lookup_value_ok v then Some (route v) else None
  | _ => None
  end.

(** The patterns of [urls.py] in the order Django tries them: the
    router's API root, then for each registered prefix its list route,
    its detail route and its detail actions ([NewsViewSet.like]), then
    [auth/register/], [auth/token/], [auth/token/refresh/] and
    [news/<slug:slug>/comments/]. *)
Definition url_patterns : list (list string -> option Route) := [
  (fun p => match p with [] => Some RApiRoot | _ => None end);
  router_list "categories" RCategoryList; router_detail "categories" RCategoryDetail;
  router_list "news" RNewsList; router_detail "news" RNewsDetail;
  (fun p => match p with
            | [a; v; b] => if seg a "news" && lookup_value_ok v && seg b "like" then Some (RNewsLike v)
                           else None
            | _ => None
            end);
  router_list "comments" RCommentList; router_detail "comments" RCommentDetail;
  router_list "likes" RLikeList; router_detail "likes" RLikeDetail;
  (fun p => match p with [a; b] => if seg a "auth" && seg b "register" then Some RRegister else None
                       | _ => None end);
  (fun p => match p with [a; b] => if seg a "auth" && seg b "token" then Some RTokenObtain else None
                       | _ => None end);
  (fun p => match p with
            | [a; b; c] => if seg a "auth" && seg b "token" && seg c "refresh" then Some RTokenRefresh
                           else None
            | _ => None
            end);
  (fun p => match p with
            | [a; v; b] => if seg a "news" && slug_converter_ok v && seg b "comments"
                           then Some (RNewsComments v) else None
            | _ => None
            end)].

(** Django's resolver: the first pattern that matches. *)
Definition resolve (p : list string) : option Route :=
  head (omap (fun pat => pat p) url_patterns).

(** The route of a path for [reverse()]: the segments of its URL. *)
Definition route_path (rt : Route) : list string :=
  match rt with
  | RApiRoot => []
  | RCategoryList => ["categories"] | RCategoryDetail pk => ["categories"; pk]
  | RNewsList => ["news"] | RNewsDetail s => ["news"; s] | RNewsLike s => ["news"; s; "like"]
  | RCommentList => ["comments"] | RCommentDetail pk => ["comments"; pk]
  | RLikeList => ["likes"] | RLikeDetail pk => ["likes"; pk]
  | RRegister => ["auth"; "register"] | RTokenObtain => ["auth"; "token"]
  | RTokenRefresh => ["auth"; "token"; "refresh"]
  | RNewsComments s => ["news"; s; "comments"]
  end.

(** The arguments a route's pattern accepts. *)
Definition route_ok (rt : Route) : bool :=
  match rt with
  | RCategoryDetail v | RNewsDetail v | RNewsLike v | RCommentDetail v | RLikeDetail v =>
      lookup_value_ok v
  | RNewsComments s => slug_converter_ok s
  | _ => true
  end.

(** ** Bodies and responses *)

(** A request body, as what each serializer reads of it. *)
Record Body := mkBody {
  body_category : CategoryInput;
  body_news : NewsInput;
  body_comment : CommentInput;
  body_like : LikeInput;
  body_register : RegisterInput;
  body_username : option string;          (* auth/token/: username *)
  body_password : option string;          (* auth/token/: password *)
  body_refresh : option (option nat);     (* auth/token/refresh/: absent, invalid, or for a user *)
}.

(** The payload of a successful response. *)
Inductive Payload :=
| ApiRoot                                  (* APIRootView *)
| Metadata                                 (* OPTIONS: SimpleMetadata *)
| NoContent                                (* 204 of destroy *)
| CategoryOut (d : CategoryData) | CategoriesOut (ds : list CategoryData)
| NewsOut (d : NewsData) | NewsListOut (ds : list NewsData)
| LikeToggled (d : LikeResponse)
| CommentOut (d : CommentData) | CommentsOut (ds : list CommentData)
| CommentsViewOut (d : CommentsResponse)
| LikeOut (d : LikeData) | LikesOut (ds : list LikeData)
| Registered (d : RegisterData)
| TokenPair (u : nat)                      (* access and refresh tokens for user u *)
| AccessToken (u : nat).

(** ** Method dispatch *)

Definition read {A} (db : DB) (f : A -> Payload) (m : result A) : result (Payload * DB) :=
  x ← m; Ok (f x, db).

Definition write {A} (f : A -> Payload) (m : result (A * DB)) : result (Payload * DB) :=
  '(x, db') ← m; Ok (f x, db').

Definition no_content (m : result DB) : result (Payload * DB) :=
  db' ← m; Ok (NoContent, db').

(** A method the route's action map lacks: [APIView.options] for
    OPTIONS, [http_method_not_allowed] otherwise, both after
    [initial]. *)
Definition not_mapped (db : DB) (perm : PermissionClass) (r : Request) : result (Payload * DB) :=
  dispatch db perm r (fun _ =>
    match req_method r with OPTIONS => Ok (Metadata, db) | _ => Err MethodNotAllowed end).

(** simplejwt's [PasswordField]: a [CharField] that only sets
    [write_only] and the input style, so it keeps [trim_whitespace=True]
    and [allow_blank=False]. *)
Definition password_field (v : option string) : list string + string :=
  char_field [no_null_validator] v.

(** [TokenRefreshSerializer]: an invalid or expired token is
    [InvalidToken] (401). *)
Definition token_refresh (v : option (option nat)) : result Payload :=
  match v with
  | None => Err (ValidationError [("refresh", msg_required)])
  | Some None => Err AuthenticationFailed
  | Some (Some u) => Ok (AccessToken u)
  end.

(** The token views: no authentication classes and no permission
    classes, POST only. *)
Definition token_view (db : DB) (r : Request) (k : result Payload) : result (Payload * DB) :=
  match req_method r with
  | POST => p ← k; Ok (p, db)
  | OPTIONS => Ok (Metadata, db)
  | _ => Err MethodNotAllowed
  end.

Section serve.
Variable email_ok : string -> bool.
Variable image_ok : string -> bool.
Variable make_password : string -> string.
Variable check_password : string -> string -> bool.

(** [TokenObtainPairView]: the serializer's fields, then [authenticate]. *)
Definition token_obtain (db : DB) (d : Body) : result Payload :=
  let u_r := char_field [no_null_validator] (body_username d) in
  let p_r := password_field (body_password d) in
  match u_r, p_r with
  | inr u, inr p =>
      match login check_password db u p with
      | Some k => Ok (TokenPair k)
      | None => Err AuthenticationFailed
      end
  | _, _ => Err (ValidationError (field_errors "username" u_r ++ field_errors "password" p_r))
  end.

(** The handler of a route for a method: the action maps of the router
    ([list]/[create] on a list route, [retrieve]/[update]/
    [partial_update]/[destroy] on a detail route, HEAD as GET), the
    [like] action (POST), the [comments] function and the auth views. *)
Definition handle (db : DB) (r : Request) (uuid : N) (d : Body) (rt : Route) : result (Payload * DB) :=
  match rt, req_method r with
  | RApiRoot, (GET | HEAD) => dispatch db AllowAny r (fun _ => Ok (ApiRoot, db))
  | RApiRoot, _ => not_mapped db AllowAny r
  | RCategoryList, (GET | HEAD) => read db CategoriesOut (category_list db r)
  | RCategoryList, POST => write CategoryOut (category_create db r (body_category d))
  | RCategoryList, _ => not_mapped db CategoryViewSet_permission r
  | RCategoryDetail pk, (GET | HEAD) => read db CategoryOut (category_retrieve db r pk)
  | RCategoryDetail pk, PUT => write CategoryOut (category_viewset_update db r pk false (body_category d))
  | RCategoryDetail pk, PATCH => write CategoryOut (category_viewset_update db r pk true (body_category d))
  | RCategoryDetail pk, DELETE => no_content (category_destroy db r pk)
  | RCategoryDetail _, _ => not_mapped db CategoryViewSet_permission r
  | RNewsList, (GET | HEAD) => read db NewsListOut (news_list db r)
  | RNewsList, POST => write NewsOut (news_create image_ok db r uuid (body_news d))
  | RNewsList, _ => not_mapped db NewsViewSet_permission r
  | RNewsDetail s, (GET | HEAD) => read db NewsOut (news_retrieve db r s)
  | RNewsDetail s, PUT => write NewsOut (news_viewset_update image_ok db r s false (body_news d))
  | RNewsDetail s, PATCH => write NewsOut (news_viewset_update image_ok db r s true (body_news d))
  | RNewsDetail s, DELETE => no_content (news_destroy db r s)
  | RNewsDetail _, _ => not_mapped db NewsViewSet_permission r
  | RNewsLike s, POST => write LikeToggled (like db r s)
  | RNewsLike _, _ => not_mapped db like_permission r
  | RCommentList, (GET | HEAD) => read db CommentsOut (comment_list db r)
  | RCommentList, POST => write CommentOut (comment_viewset_create email_ok db r (body_comment d))
  | RCommentList, _ => not_mapped db CommentViewSet_permission r
  | RCommentDetail pk, (GET | HEAD) => read db CommentOut (comment_retrieve db r pk)
  | RCommentDetail pk, PUT =>
      write CommentOut (comment_viewset_update email_ok db r pk false (body_comment d))
  | RCommentDetail pk, PATCH =>
      write CommentOut (comment_viewset_update email_ok db r pk true (body_comment d))
  | RCommentDetail pk, DELETE => no_content (comment_viewset_destroy db r pk)
  | RCommentDetail _, _ => not_mapped db CommentViewSet_permission r
  | RLikeList, (GET | HEAD) => read db LikesOut (like_list db r)
  | RLikeList, POST => write LikeOut (like_viewset_create db r (body_like d))
  | RLikeList, _ => not_mapped db LikeViewSet_permission r
  | RLikeDetail pk, (GET | HEAD) => read db LikeOut (like_retrieve db r pk)
  | RLikeDetail pk, PUT => write LikeOut (like_viewset_update db r pk (body_like d))
  | RLikeDetail pk, PATCH => write LikeOut (like_viewset_partial_update db r pk (body_like d))
  | RLikeDetail pk, DELETE => no_content (like_viewset_destroy db r pk)
  | RLikeDetail _, _ => not_mapped db LikeViewSet_permission r
  | RRegister, POST => write Registered (register email_ok make_password db r (body_register d))
  | RRegister, _ => not_mapped db RegisterView_permission r
  | RTokenObtain, _ => token_view db r (token_obtain db d)
  | RTokenRefresh, _ => token_view db r (token_refresh (body_refresh d))
  | RNewsComments s, _ => write CommentsViewOut (comments email_ok db r s (body_comment d))
  end.

(** The API: Django's resolver, then the route's handler; a path no
    pattern matches is Django's 404. *)
Definition serve (db : DB) (r : Request) (uuid : N) (path : list string) (d : Body)
    : result (Payload * DB) :=
  match resolve path with
  | Some rt => handle db r uuid d rt
  | None => Err NotFound
  end.

(** Requests served one after the other, each on the database the
    previous one left.  A request that fails has written nothing: every
    handler raises before its first write, the invariant guaranteeing the
    serializations that follow a write. *)
Fixpoint serve_all (db : DB) (reqs : list (Request * N * list string * Body))
    : list (result Payload) * DB :=
  match reqs with
  | [] => ([], db)
  | (r, uuid, path, d) :: rest =>
      match serve db r uuid path d with
      | Ok (p, db') => let '(out, dbf) := serve_all db' rest in (Ok p :: out, dbf)
      | Err e => let '(out, dbf) := serve_all db rest in (Err e :: out, dbf)
      end
  end.
End serve.

(** The empty JSON body [{}]. *)
Definition empty_body : Body :=
  mkBody (mkCategoryInput None None) (mkNewsInput None None None None None None)
         (mkCommentInput None None None None) (mkLikeInput None None None)
         (mkRegisterInput None None None) None None None.

(** The scenario of the specification (section 8): carol registers,
    obtains a token with the stripped password, and posts on the
    comments of "cup-final" with mallory's name and email in the body. *)
Definition carol_scenario : list (Request * N * list string * Body) := [
  (mkRequest POST None None 300, 0%N, ["auth"; "register"],
     mkBody (mkCategoryInput None None) (mkNewsInput None None None None None None)
            (mkCommentInput None None None None) (mkLikeInput None None None)
            carol_body None None None);
  (mkRequest POST None None 301, 0%N, ["auth"; "token"],
     mkBody (mkCategoryInput None None) (mkNewsInput None None None None None None)
            (mkCommentInput None None None None) (mkLikeInput None None None)
            (mkRegisterInput None None None) (Some "carol") (Some "s3cret") None);
  (mkRequest POST (Some 3) None 302, 0%N, ["news"; "cup-final"; "comments"],
     mkBody (mkCategoryInput None None) (mkNewsInput None None None None None None)
            spoofed_body (mkLikeInput None None None)
            (mkRegisterInput None None None) None None None)].

(** ** The URL table is a bijection *)

Lemma seg_true a lit : seg a lit = true <-> a = lit.
Proof. unfold seg. by rewrite bool_decide_eq_true. Qed.

(** Each pattern matches only the path of the route it returns. *)
Lemma url_patterns_sound :
  Forall (fun pat => forall p rt, pat p = Some rt -> route_ok rt = true /\ route_path rt = p)
         url_patterns.
Proof.
  apply Forall_forall. intros pat Hin%list_elem_of_In p rt Hp. simpl in Hin.
  repeat destruct Hin as [<-|Hin]; try contradiction;
    repeat (destruct p as [|? p]; cbn in Hp; try discriminate);
    repeat match goal with H : (if ?b then _ else _) = Some _ |- _ => destruct b eqn:?; [|discriminate] end;
    simplify_eq;
    repeat match goal with
           | H : (_ && _) = true |- _ => apply andb_prop in H as [? ?]
           | H : seg _ _ = true |- _ => apply seg_true in H; subst
           end; auto.
Qed.

(** No earlier pattern shadows a route's own. *)
Lemma resolve_route_path rt : route_ok rt = true -> resolve (route_path rt) = Some rt.
Proof.
  destruct rt; simpl; intros H; try reflexivity; unfold resolve; cbn; rewrite ?H;
    repeat (destruct (lookup_value_ok _) || destruct (slug_converter_ok _)); vm_compute; congruence.
Qed.

(** ** Handlers and the invariant *)

#[export] Hint Resolve like_insert_wf like_delete_wf comment_insert_wf news_delete_wf
  category_delete_wf news_insert_wf category_insert_wf user_insert_wf like_update_wf
  news_update_wf category_update_wf comment_update_wf comment_delete_wf : wf.
#[export] Hint Resolve get_object_is_Some like_preserves_wf : wf.

Section handlers_wf.
Variable email_ok : string -> bool.
Variable image_ok : string -> bool.
Variable make_password : string -> string.
Implicit Types (db : DB) (r : Request).

Ltac handler_wf := intros Hwf H; ok_inv; eauto 3 with wf.

Lemma category_create_wf db r d p db' :
  db_wf db -> category_create db r d = Ok (p, db') -> db_wf db'.
Proof. unfold category_create, dispatch. handler_wf. Qed.

Lemma category_viewset_update_wf db r pk b d p db' :
  db_wf db -> category_viewset_update db r pk b d = Ok (p, db') -> db_wf db'.
Proof. unfold category_viewset_update, dispatch. handler_wf. Qed.

Lemma category_destroy_wf db r pk db' : db_wf db -> category_destroy db r pk = Ok db' -> db_wf db'.
Proof. unfold category_destroy, dispatch. handler_wf. Qed.

Lemma news_create_wf db r uuid d p db' :
  db_wf db -> news_create image_ok db r uuid d = Ok (p, db') -> db_wf db'.
Proof. unfold news_create, dispatch. handler_wf. Qed.

Lemma news_viewset_update_wf db r slug b d p db' :
  db_wf db -> news_viewset_update image_ok db r slug b d = Ok (p, db') -> db_wf db'.
Proof. unfold news_viewset_update, dispatch. handler_wf. Qed.

Lemma news_destroy_wf db r slug db' : db_wf db -> news_destroy db r slug = Ok db' -> db_wf db'.
Proof. unfold news_destroy, dispatch. handler_wf. Qed.

Lemma comment_viewset_create_wf db r d p db' :
  db_wf db -> comment_viewset_create email_ok db r d = Ok (p, db') -> db_wf db'.
Proof. unfold comment_viewset_create, dispatch. handler_wf. Qed.

Lemma comment_viewset_update_wf db r pk b d p db' :
  db_wf db -> comment_viewset_update email_ok db r pk b d = Ok (p, db') -> db_wf db'.
Proof. unfold comment_viewset_update, dispatch. handler_wf. Qed.

Lemma comment_viewset_destroy_wf db r pk db' :
  db_wf db -> comment_viewset_destroy db r pk = Ok db' -> db_wf db'.
Proof. unfold comment_viewset_destroy, dispatch. handler_wf. Qed.

Lemma like_viewset_create_wf db r d p db' :
  db_wf db -> like_viewset_create db r d = Ok (p, db') -> db_wf db'.
Proof. unfold like_viewset_create, dispatch. handler_wf. Qed.

Lemma like_viewset_partial_update_wf db r pk d p db' :
  db_wf db -> like_viewset_partial_update db r pk d = Ok (p, db') -> db_wf db'.
Proof. unfold like_viewset_partial_update, dispatch. handler_wf. Qed.

Lemma like_viewset_update_wf db r pk d p db' :
  db_wf db -> like_viewset_update db r pk d = Ok (p, db') -> db_wf db'.
Proof.
  unfold like_viewset_update. intros Hwf H. case_match; [case_match|];
    [by eapply like_viewset_partial_update_wf|..]; unfold dispatch in H; ok_inv.
Qed.

Lemma like_viewset_destroy_wf db r pk db' : db_wf db -> like_viewset_destroy db r pk = Ok db' -> db_wf db'.
Proof. unfold like_viewset_destroy, dispatch. handler_wf. Qed.

Lemma register_wf db r d p db' :
  db_wf db -> register email_ok make_password db r d = Ok (p, db') -> db_wf db'.
Proof. unfold register, register_create, dispatch. handler_wf. Qed.

Lemma comments_wf db r slug d p db' :
  db_wf db -> comments email_ok db r slug d = Ok (p, db') -> db_wf db'.
Proof. unfold comments, dispatch. handler_wf. Qed.
End handlers_wf.

#[export] Hint Resolve category_create_wf category_viewset_update_wf category_destroy_wf
  news_create_wf news_viewset_update_wf news_destroy_wf comment_viewset_create_wf
  comment_viewset_update_wf comment_viewset_destroy_wf like_viewset_create_wf
  like_viewset_partial_update_wf like_viewset_update_wf like_viewset_destroy_wf register_wf
  comments_wf : wf.

Section serve_wf.
Variable email_ok : string -> bool.
Variable image_ok : string -> bool.
Variable make_password : string -> string.
Variable check_password : string -> string -> bool.

Lemma handle_wf db r uuid d rt p db' :
  db_wf db -> handle email_ok image_ok make_password check_password db r uuid d rt = Ok (p, db') ->
  db_wf db'.
Proof.
  intros Hwf. destruct rt, (req_method r) eqn:Hm; cbn [handle]; rewrite ?Hm;
    unfold read, write, no_content, not_mapped, token_view, dispatch; intros H; ok_inv; eauto 3 with wf.
Qed.
End serve_wf.

(** ** Properties *)

(** C11: the URL table of [urls.py] and [reverse()] are inverse: a path
    resolves to a route exactly when it is that route's URL and the
    route's arguments match its converters.  In particular no pattern
    shadows another, and [news/<slug>/comments/] is reachable for every
    slug although the router's [news/] patterns come first. *)
Theorem resolve_spec p rt : resolve p = Some rt <-> route_ok rt = true /\ route_path rt = p.
Proof.
  split.
  - intros (pat & Hin & Hp)%head_omap_Some. by eapply (proj1 (Forall_forall _ _) url_patterns_sound).
  - intros [Hok <-]. by apply resolve_route_path.
Qed.

Section serve_props.
Variable email_ok : string -> bool.
Variable image_ok : string -> bool.
Variable make_password : string -> string.
Variable check_password : string -> string -> bool.

(** C5: every sequence of requests to the API, on every route and with
    every method, keeps the database invariant [db_wf]: the foreign keys
    resolve; category slugs and names, article slugs, usernames and
    (user, news) pairs stay unique; and the key sequences stay ahead of
    the keys. *)
Theorem serve_all_preserves_wf db reqs :
  db_wf db -> db_wf (serve_all email_ok image_ok make_password check_password db reqs).2.
Proof.
  revert db. induction reqs as [|[[[r uuid] path] d] reqs IH]; intros db Hwf; [done|]. cbn [serve_all].
  destruct (serve _ _ _ _ db r uuid path d) as [[p db']|e] eqn:Hs.
  - destruct (serve_all _ _ _ _ db' reqs) as [out dbf] eqn:Hr. simpl.
    replace dbf with (serve_all email_ok image_ok make_password check_password db' reqs).2 by by rewrite Hr.
    apply IH. unfold serve in Hs. destruct (resolve path); [|done]. by eapply handle_wf.
  - destruct (serve_all _ _ _ _ db reqs) as [out dbf] eqn:Hr. simpl.
    replace dbf with (serve_all email_ok image_ok make_password check_password db reqs).2 by by rewrite Hr.
    by apply IH.
Qed.
End serve_props.

(** ** Witnesses *)

Lemma serve_all_preserves_wf_witness :
  db_wf (serve_all demo_email_ok (fun _ => true) demo_make_password demo_check_password
           sample_db carol_scenario).2.
Proof. apply serve_all_preserves_wf. apply sample_db_wf. Defined.
