(* ===== verification/Schema.v ===== *)
(** * Schema: what each method may do

    The methods the router and the views declare, and what the safe ones
    do: [DefaultRouter]'s action maps for the four view sets, the
    [@action(methods=['post'])] of [like], the [@api_view(['GET',
    'POST'])] of [comments], [CreateAPIView] for registration and the
    POST-only token views, as [Routing.handle] dispatches them.  The
    theorems: the safe methods (GET, HEAD, OPTIONS) never write, on any
    route and for any caller; and the view sets serve HEAD exactly as
    GET, while the [comments] function view refuses it. *)

From stdpp Require Import base gmap strings list.
From S2P Require Import Prelude Models Auth Serializers NewsViews CommentsView GenericViews.
From S2P Require Import Registration ReadViews UpdateViews Routing.

(** ** Requests *)

(** The request [r] with the method [m]. *)
Definition with_method (r : Request) (m : Method) : Request :=
  mkRequest m (req_token r) (req_category r) (req_now r).

(** Anonymous reads of the sample database: the article list, the
    comments of "cup-final" and the API's OPTIONS metadata. *)
Definition anonymous_reads : list (Request * N * list string * Body) := [
  (mkRequest GET None None 400, 0%N, ["news"], empty_body);
  (mkRequest GET None None 401, 0%N, ["news"; "cup-final"; "comments"], empty_body);
  (mkRequest OPTIONS None None 402, 0%N, ["categories"], empty_body);
  (mkRequest HEAD (Some 2) None 403, 0%N, ["likes"], empty_body)].

(** ** Lemmas *)

(** Splits a successful [handle] by route and method. *)
Ltac handle_cases r rt :=
  let Hm := fresh "Hm" in
  destruct rt, (req_method r) eqn:Hm; cbn [handle]; rewrite ?Hm;
  unfold read, write, no_content, not_mapped, token_view, dispatch; rewrite ?Hm;
  let H := fresh "H" in intros H; ok_inv.

Section comments_lemmas.
Variable email_ok : string -> bool.

(** Each answer of the [comments] view, by method. *)
Lemma comments_shape db r slug data x db' :
  comments email_ok db r slug data = Ok (x, db') ->
  match x with
  | CommentList _ => req_method r = GET /\ db' = db
  | CommentCreated _ => req_method r = POST
  | OptionsMetadata => req_method r = OPTIONS /\ db' = db
  end.
Proof.
  unfold comments, dispatch. destruct (req_method r) eqn:Hm; intros H; ok_inv; done.
Qed.
End comments_lemmas.

Section handle_lemmas.
Variable email_ok : string -> bool.
Variable image_ok : string -> bool.
Variable make_password : string -> string.
Variable check_password : string -> string -> bool.

Lemma handle_safe db r uuid d rt p db' :
  is_safe_method (req_method r) = true ->
  handle email_ok image_ok make_password check_password db r uuid d rt = Ok (p, db') -> db' = db.
Proof.
  intros Hs. handle_cases r rt; try done;
    match goal with
    | H : comments _ _ _ _ _ = Ok (?c, _) |- _ =>
        apply comments_shape in H; destruct c; simpl in *; destruct_and?; congruence
    end.
Qed.

End handle_lemmas.

(** ** Properties *)

Section serve_props.
Variable email_ok : string -> bool.
Variable image_ok : string -> bool.
Variable make_password : string -> string.
Variable check_password : string -> string -> bool.

(** C6: the safe methods are read-only.  A sequence of GET, HEAD and
    OPTIONS requests, on any routes, by any users, successful or not,
    leaves the database as it was. *)
Theorem safe_methods_read_only db reqs :
  Forall (fun q : Request * N * list string * Body => is_safe_method (req_method q.1.1.1) = true) reqs ->
  (serve_all email_ok image_ok make_password check_password db reqs).2 = db.
Proof.
  induction 1 as [|[[[r uuid] path] d] reqs Hs _ IH]; [done|]. cbn [serve_all].
  destruct (serve _ _ _ _ db r uuid path d) as [[p db']|e] eqn:Hserve.
  - unfold serve in Hserve. destruct (resolve path); [|done].
    apply handle_safe in Hserve as ->; [|done].
    destruct (serve_all _ _ _ _ db reqs) eqn:Hr. by simpl in *.
  - destruct (serve_all _ _ _ _ db reqs) eqn:Hr. by simpl in *.
Qed.

(** C12: HEAD is GET without a body.  On every path, the router's view
    sets, the API root, the registration and the token views answer HEAD
    exactly as they answer GET (Django's [View.setup] binds [head] to
    [get]); the [comments] function view, whose [@api_view(['GET',
    'POST'])] leaves HEAD out of [http_method_names], answers 405 after
    the authentication, where GET lists the comments. *)
Theorem head_as_get db r uuid path d :
  serve email_ok image_ok make_password check_password db (with_method r HEAD) uuid path d =
  match resolve path with
  | Some (RNewsComments _) =>
      Err (match authenticate db r with Err e => e | Ok _ => MethodNotAllowed end)
  | _ => serve email_ok image_ok make_password check_password db (with_method r GET) uuid path d
  end.
Proof.
  unfold serve. destruct (resolve path) as [[]|]; try reflexivity.
  cbn [handle req_method with_method]. unfold write, comments, dispatch.
  change (authenticate db (with_method r HEAD)) with (authenticate db r).
  by destruct (authenticate db r).
Qed.

End serve_props.

(** ** Witnesses *)

Lemma safe_methods_read_only_witness :
  Forall (fun q : Request * N * list string * Body => is_safe_method (req_method q.1.1.1) = true)
    anonymous_reads /\
  (serve_all demo_email_ok (fun _ => true) demo_make_password demo_check_password
     sample_db anonymous_reads).2 = sample_db.
Proof.
  assert (Forall (fun q : Request * N * list string * Body => is_safe_method (req_method q.1.1.1) = true)
            anonymous_reads) as H by repeat constructor.
  split; [exact H|]. apply (safe_methods_read_only demo_email_ok (fun _ => true) demo_make_password
                              demo_check_password sample_db anonymous_reads). exact H.
Defined.

