(* ===== verification/Concurrency.v ===== *)
(** * Concurrency: like toggles running at the same time

    The project sets no [ATOMIC_REQUESTS] and the [like] action takes no
    lock, so each query of a request is its own transaction and the
    queries of concurrent requests interleave.  After authentication and
    the article lookup (reads of tables the action never writes), a
    request of the [like] action is a worker that runs, one query at a
    time: the [get] of [get_or_create]; on [DoesNotExist] the INSERT of
    [create]; on its [IntegrityError] the second [get], which re-raises
    when it finds nothing; the DELETE of [like_obj.delete()] when
    [created] is false; and the COUNT of [news.like_set.count()].  A pool
    of workers steps by running one query of one worker ([pool_step]),
    in any order.

    The theorems: every interleaving keeps the database invariant (so the
    unique index arbitrates every race), and a worker running alone
    computes exactly what the sequential [like] handler computes
    ([lone_worker_run], the check that the split into queries is the
    handler).  The file also holds a generic explorer of finite-depth
    transition systems ([explore]), which [Race] runs on its abstraction
    of a pool to prove, on every database, what two and three toggles
    that race do. *)

From stdpp Require Import base gmap strings list relations.
From S2P Require Import Prelude Models Auth Serializers NewsViews.

(** ** Workers *)

(** Where a request of the [like] action stands; [AtDelete] and
    [AtCount] carry the Python locals [like_obj] and [liked]. *)
Inductive Phase :=
| AtGet
| AtCreate
| AtReget
| AtDelete (k : nat)
| AtCount (liked : bool)
| Finished (resp : LikeResponse)
| Crashed (e : api_error).

Record Worker := mkWorker {
  w_user : nat;
  w_news : N;
  w_now : Z;
  w_phase : Phase;
}.

Definition set_phase (w : Worker) (p : Phase) : Worker :=
  mkWorker (w_user w) (w_news w) (w_now w) p.

(** One query of one worker, atomic; [None] once it has answered. *)
Definition worker_step (db : DB) (w : Worker) : option (Worker * DB) :=
  let u := w_user w in
  let n := w_news w in
  match w_phase w with
  | AtGet =>
      match like_get db u n with
      | Ok None => Some (set_phase w AtCreate, db)
      | Ok (Some (k, _)) => Some (set_phase w (AtDelete k), db)
      | Err e => Some (set_phase w (Crashed e), db)
      end
  | AtCreate =>
      match like_insert db (mkLike u n true (w_now w)) with
      | Ok (_, db') => Some (set_phase w (AtCount true), db')
      | Err _ => Some (set_phase w AtReget, db)
      end
  | AtReget =>
      match like_get db u n with
      | Ok (Some (k, _)) => Some (set_phase w (AtDelete k), db)
      | Ok None => Some (set_phase w (Crashed IntegrityError), db)
      | Err e => Some (set_phase w (Crashed e), db)
      end
  | AtDelete k => Some (set_phase w (AtCount false), like_delete db k)
  | AtCount liked => Some (set_phase w (Finished (mkLikeResponse liked (like_set_count db n))), db)
  | Finished _ | Crashed _ => None
  end.

(** ** The pool *)

Definition Pool := (DB * list Worker)%type.

Inductive pool_step : Pool -> Pool -> Prop :=
| pool_step_run db ws i w w' db' :
    ws !! i = Some w -> worker_step db w = Some (w', db') ->
    pool_step (db, ws) (db', <[i := w']> ws).

(** Queries a worker has left to run, at most. *)
Definition phase_measure (p : Phase) : nat :=
  match p with
  | AtGet => 5
  | AtCreate => 4
  | AtReget => 3
  | AtDelete _ => 2
  | AtCount _ => 1
  | Finished _ | Crashed _ => 0
  end.

Definition pool_measure (s : Pool) : nat :=
  sum_list_with (fun w => phase_measure (w_phase w)) s.2.

Definition pool_done (s : Pool) : Prop :=
  Forall (fun w => match w_phase w with Finished _ | Crashed _ => True | _ => False end) s.2.

#[export] Instance pool_done_dec s : Decision (pool_done s).
Proof.
  apply Forall_dec. intros w. destruct (w_phase w); apply _.
Defined.

Lemma worker_step_decreases db w w' db' :
  worker_step db w = Some (w', db') -> phase_measure (w_phase w') < phase_measure (w_phase w).
Proof. unfold worker_step. destruct (w_phase w); repeat case_match; intros; simplify_eq/=; lia. Qed.

Lemma pool_step_decreases s s' : pool_step s s' -> pool_measure s' < pool_measure s.
Proof.
  intros [db ws i w w' db' Hi Hw]. unfold pool_measure. simpl.
  pose proof (sum_list_with_insert (fun w => phase_measure (w_phase w)) ws i w' w Hi).
  pose proof (worker_step_decreases _ _ _ _ Hw). lia.
Qed.

(** ** An explorer of finite-depth transition systems *)

Section Explorer.
Context {A : Type} (succs : A -> list A) (measure : A -> nat).
Hypothesis succs_decrease : forall x y, y ∈ succs x -> measure y < measure x.

(** The states reachable in at most [fuel] steps, with repetitions. *)
Fixpoint explore (fuel : nat) (x : A) : list A :=
  x :: match fuel with
       | 0 => []
       | S f => succs x ≫= explore f
       end.

(** With fuel at least the measure, [explore] lists every reachable state. *)
Lemma explore_complete x y fuel :
  rtc (fun a b => b ∈ succs a) x y -> measure x <= fuel -> y ∈ explore fuel x.
Proof.
  intros Hr. revert fuel. induction Hr as [x|x x1 y Hstep Hr IH]; intros fuel Hle.
  - destruct fuel; apply list_elem_of_here.
  - pose proof (succs_decrease _ _ Hstep). destruct fuel as [|f]; [lia|].
    apply list_elem_of_further, list_elem_of_bind. exists x1. split; [apply IH; lia|done].
Qed.

(** A property of every reachable state follows from checking it on the
    list [explore] computes. *)
Lemma explore_check (P : A -> Prop) x fuel :
  measure x <= fuel -> Forall P (explore fuel x) ->
  forall y, rtc (fun a b => b ∈ succs a) x y -> P y.
Proof.
  intros Hle Hall y Hr. rewrite Forall_forall in Hall. by apply Hall, explore_complete.
Qed.

End Explorer.

(** ** Schedules *)

(** One query of worker [i], when it has one left. *)
Definition step_worker (i : nat) (s : Pool) : Pool :=
  match s.2 !! i with
  | Some w =>
      match worker_step s.1 w with
      | Some (w', db') => (db', <[i := w']> s.2)
      | None => s
      end
  | None => s
  end.

(** The pool after the queries a schedule names, in order. *)
Definition run_schedule (sched : list nat) (s : Pool) : Pool :=
  foldl (fun s i => step_worker i s) s sched.

(** The answer of a lone worker once it has one, with the database for a
    success, as the sequential handler returns it. *)
Definition outcome (s : Pool) : option (result (LikeResponse * DB)) :=
  match s.2 with
  | [w] =>
      match w_phase w with
      | Finished resp => Some (Ok (resp, s.1))
      | Crashed e => Some (Err e)
      | _ => None
      end
  | _ => None
  end.

(** The worker of a [like] request by [u] on the article [nid]. *)
Definition like_worker (r : Request) (u : nat) (nid : N) : Worker :=
  mkWorker u nid (req_now r) AtGet.

(** ** Lemmas on pools *)

Lemma step_worker_rtc i s : rtc pool_step s (step_worker i s).
Proof.
  destruct s as [db ws]. unfold step_worker. cbn -[worker_step].
  destruct (ws !! i) as [w|] eqn:Hi; [|done].
  destruct (worker_step db w) as [[w' db']|] eqn:Hs; [|done].
  apply rtc_once. by econstructor.
Qed.

Lemma run_schedule_rtc sched s : rtc pool_step s (run_schedule sched s).
Proof.
  revert s. induction sched as [|i sched IH]; intros s; [done|].
  simpl. etrans; [apply step_worker_rtc|apply IH].
Qed.

Lemma worker_step_wf db w w' db' :
  db_wf db -> worker_step db w = Some (w', db') -> db_wf db'.
Proof.
  intros Hwf. unfold worker_step.
  destruct (w_phase w); repeat case_match; intros; simplify_eq/=;
    eauto using like_insert_wf, like_delete_wf.
Qed.

(** [like_insert] fails with nothing but an [IntegrityError]. *)
Lemma like_insert_err db row e : like_insert db row = Err e -> e = IntegrityError.
Proof. unfold like_insert. by case_match; intros; simplify_eq. Qed.

(** A lone worker runs the handler to its end in five queries. *)
Lemma lone_worker_run db r slug u nid x :
  req_token r = Some u -> is_Some (users db !! u) -> get_object db r slug = Ok (nid, x) ->
  let s' := run_schedule [0; 0; 0; 0; 0] (db, [like_worker r u nid]) in
  pool_done s' /\ outcome s' = Some (like db r slug).
Proof.
  intros Ht Hu Hg. unfold like. rewrite (dispatch_user _ _ _ _ u) by done. simpl. rewrite Hg.
  unfold get_or_create, like_create. cbn -[like_get like_insert like_delete like_set_count].
  destruct (like_get db u nid) as [[[k l]|]|e] eqn:Hget;
    cbn -[like_get like_insert like_delete like_set_count].
  2: destruct (like_insert _ _) as [[k' db']|e'] eqn:Hi; [|apply like_insert_err in Hi as ->];
     cbn -[like_get like_insert like_delete like_set_count]; rewrite ?Hget;
     cbn -[like_get like_insert like_delete like_set_count].
  all: split; [repeat constructor|done].
Qed.

(** The like answer of each worker: [Some liked] once it has answered,
    [None] while it runs or after it crashed. *)
Definition toggle_answers (s : Pool) : list (option bool) :=
  map (fun w => match w_phase w with Finished resp => Some (liked resp) | _ => None end) s.2.

(** The response of each worker: [Some] of its answer or its error once
    it has one. *)
Definition responses (s : Pool) : list (option (result LikeResponse)) :=
  map (fun w => match w_phase w with
                | Finished resp => Some (Ok resp)
                | Crashed e => Some (Err e)
                | _ => None
                end) s.2.

(** The schedule that runs the workers one after the other, in [order],
    each to its end: a serial execution. *)
Definition serial (order : list nat) : list nat := order ≫= replicate 5.

(** The rows of (user, news) in the pool's database. *)
Definition pool_rows (u : nat) (n : N) (s : Pool) : nat :=
  count_where (like_matches u n) (likes s.1).

(** ** Scenarios on the sample database

    Bob (user 2) toggles the like of the article 7 ("cup-final"), which
    has no Like row of Bob in [sample_db]. *)
Definition bob_toggle (now : Z) : Worker := mkWorker 2 7%N now AtGet.

(** Two toggles sent at once (a double click). *)
Definition double_click : Pool := (sample_db, [bob_toggle 200; bob_toggle 201]).

(** ** Requests that have answered *)

Lemma worker_step_None db w : worker_step db w = None -> phase_measure (w_phase w) = 0.
Proof. unfold worker_step. destruct (w_phase w); repeat case_match; done. Qed.

Lemma phase_measure_done w :
  phase_measure (w_phase w) = 0 -> match w_phase w with Finished _ | Crashed _ => True | _ => False end.
Proof. by destruct (w_phase w). Qed.

(** ** Properties *)

(** C7: the database invariant holds in every interleaving.  Whatever
    order the queries of any number of concurrent [like] requests run in,
    a database satisfying [db_wf] stays so; in particular a (user, news)
    pair never has two Like rows, the unique index arbitrating every
    race. *)
Theorem interleavings_preserve_wf s s' :
  rtc pool_step s s' -> db_wf s.1 ->
  db_wf s'.1 /\ forall u n, pool_rows u n s' <= 1.
Proof.
  induction 1 as [s|s s1 s' Hstep _ IH]; intros Hwf.
  - split; [done|]. intros u n. unfold pool_rows.
    destruct (like_get_spec s.1 u n Hwf) as [[_ ->]|(_ & _ & _ & _ & _ & ->)]; lia.
  - apply IH. destruct Hstep as [db ws i w w' db' _ Hs]. by eapply worker_step_wf.
Qed.

(** The counts of a race match no serial order.  Serially, the
    request of Bob's double click that answers [liked = true] reports one
    like; when the other request deletes the row between its INSERT and
    its COUNT, it answers [liked = true] with [likes_count = 0]. *)
Example double_click_counts :
  responses (run_schedule (serial [0; 1]) double_click) =
    [Some (Ok (mkLikeResponse true 1)); Some (Ok (mkLikeResponse false 0))] /\
  responses (run_schedule (serial [1; 0]) double_click) =
    [Some (Ok (mkLikeResponse false 0)); Some (Ok (mkLikeResponse true 1))] /\
  exists s', rtc pool_step double_click s' /\ pool_done s' /\
    responses s' = [Some (Ok (mkLikeResponse true 0)); Some (Ok (mkLikeResponse false 0))].
Proof.
  split; [vm_compute; reflexivity|]. split; [vm_compute; reflexivity|].
  exists (run_schedule [0; 0; 1; 1; 1; 1; 0; 0] double_click).
  split; [apply run_schedule_rtc|].
  split; [apply (bool_decide_eq_true_1 (pool_done _)); vm_compute; reflexivity|].
  vm_compute; reflexivity.
Qed.

(** ** Witnesses *)

Lemma interleavings_preserve_wf_witness :
  db_wf (run_schedule [0; 0; 1; 1; 1; 1; 0; 0] double_click).1 /\
  forall u n, pool_rows u n (run_schedule [0; 0; 1; 1; 1; 1; 0; 0] double_click) <= 1.
Proof.
  apply (interleavings_preserve_wf double_click).
  - apply run_schedule_rtc.
  - apply sample_db_wf.
Defined.

