(* ===== verification/Race.v ===== *)
(** * Race: two toggles of one like, on every database

    [Concurrency] runs concurrent [like] requests query by query.  This
    file proves what the spec's section 4.2 asks of two toggles that race
    from no row, on every database rather than on a sample one.  The
    requests' queries only see the rows of their own (user, news) pair, so
    a pool of such requests is abstracted to whether that pair has a row
    ([APool]: the row flag and, per request, its phase with, for a
    pending delete, whether the key it read is still that row).  The
    abstraction is a simulation ([race_sim]): every step of the pool is a
    step of the finite abstract system, which [explore] enumerates
    completely.  It also computes every schedule exactly
    ([abs_run_schedule]), so a schedule of three toggles is run on the
    abstract system by [vm_compute] and its outcome holds on every
    database: an interleaving that loses a toggle, and one that ends in
    the re-raised [IntegrityError] of [get_or_create] (an HTTP 500),
    where no serial order does either. *)

From stdpp Require Import base gmap strings list relations.
From S2P Require Import Prelude Models Auth Serializers NewsViews Concurrency.

(** ** The abstract system *)

(** A request's phase as its own (user, news) pair sees it. *)
Inductive APhase :=
| AGet
| ACreate
| AReget
| ADelete (live : bool)
| ACount (liked : bool)
| ADone (liked : bool)
| ACrashed.

#[export] Instance APhase_eq_dec : EqDecision APhase.
Proof. solve_decision. Defined.

(** Whether the pair has a row, and the phases of the requests. *)
Definition APool := (bool * list APhase)%type.

(** One query of one request, on the row flag: its next phase and the
    new flag. *)
Definition aphase_step (row : bool) (p : APhase) : option (APhase * bool) :=
  match p with
  | AGet => Some (if row then ADelete true else ACreate, row)
  | ACreate => Some (if row then AReget else ACount true, true)
  | AReget => Some (if row then ADelete true else ACrashed, row)
  | ADelete live => Some (ACount false, if live then false else row)
  | ACount b => Some (ADone b, row)
  | ADone _ | ACrashed => None
  end.

(** Deleting the row makes every pending delete of it stale. *)
Definition kill (p : APhase) : APhase :=
  match p with ADelete _ => ADelete false | _ => p end.

Definition apool_succs (s : APool) : list APool :=
  omap (fun i =>
          p ← s.2 !! i;
          '(p', row') ← aphase_step s.1 p;
          Some (row', <[i := p']> (if s.1 && negb row' then kill <$> s.2 else s.2)))
       (seq 0 (length s.2)).

(** One query of request [i], when it has one left: the abstract
    [step_worker]. *)
Definition astep_worker (i : nat) (s : APool) : APool :=
  match s.2 !! i with
  | Some p =>
      match aphase_step s.1 p with
      | Some (p', row') => (row', <[i := p']> (if s.1 && negb row' then kill <$> s.2 else s.2))
      | None => s
      end
  | None => s
  end.

Definition arun_schedule (sched : list nat) (s : APool) : APool :=
  foldl (fun s i => astep_worker i s) s sched.

Definition aphase_measure (p : APhase) : nat :=
  match p with
  | AGet => 5
  | ACreate => 4
  | AReget => 3
  | ADelete _ => 2
  | ACount _ => 1
  | ADone _ | ACrashed => 0
  end.

Definition apool_measure (s : APool) : nat := sum_list_with aphase_measure s.2.

(** The answers of the requests, as [toggle_answers] reads them. *)
Definition aanswers (s : APool) : list (option bool) :=
  (fun p => match p with ADone b => Some b | _ => None end) <$> s.2.

Definition apool_done (s : APool) : Prop :=
  Forall (fun p => match p with ADone _ | ACrashed => True | _ => False end) s.2.

#[export] Instance apool_done_dec s : Decision (apool_done s).
Proof. apply Forall_dec. intros p. destruct p; apply _. Defined.

(** [ts] requests of the like action by [u] on [n] sent at once (one
    per timestamp), none of which has run a query yet. *)
Definition concurrent_toggles (db : DB) (u : nat) (n : N) (ts : list Z) : Pool :=
  (db, (fun t => mkWorker u n t AtGet) <$> ts).

(** ** The abstraction of a pool *)

Section Abstraction.
Variable (u : nat) (n : N).

(** Whether the key [k] holds the row of (u, n). *)
Definition live (db : DB) (k : nat) : bool :=
  match likes db !! k with Some l => like_matches u n l | None => false end.

Definition abs_phase (db : DB) (p : Phase) : APhase :=
  match p with
  | AtGet => AGet
  | AtCreate => ACreate
  | AtReget => AReget
  | AtDelete k => ADelete (live db k)
  | AtCount b => ACount b
  | Finished resp => ADone (liked resp)
  | Crashed _ => ACrashed
  end.

(** Whether (u, n) has a row. *)
Definition arow (db : DB) : bool := bool_decide (count_where (like_matches u n) (likes db) <> 0).

Definition abs (s : Pool) : APool := (arow s.1, (fun w => abs_phase s.1 (w_phase w)) <$> s.2).

(** A key a pending delete may hold: the sequence has passed it and it
    holds nothing or the row of (u, n). *)
Definition pending_ok (db : DB) (k : nat) : Prop :=
  k < next_like db /\ forall l, likes db !! k = Some l -> like_matches u n l = true.

(** The pools of requests by [u] on [n], on a database satisfying the
    invariant where [u] and [n] exist and every pending delete names a
    key the sequence has passed and that holds nothing or the row of
    (u, n). *)
Record race_inv (s : Pool) : Prop := {
  ri_wf : db_wf s.1;
  ri_user : is_Some (users s.1 !! u);
  ri_news : is_Some (news s.1 !! n);
  ri_workers : forall j w, s.2 !! j = Some w -> w_user w = u /\ w_news w = n;
  ri_delete : forall j w k, s.2 !! j = Some w -> w_phase w = AtDelete k -> pending_ok s.1 k;
  ri_crash : forall j w e, s.2 !! j = Some w -> w_phase w = Crashed e -> e = IntegrityError;
}.

End Abstraction.

(** ** The abstract system is finite *)

Lemma kill_measure l : sum_list_with aphase_measure (kill <$> l) = sum_list_with aphase_measure l.
Proof. induction l as [|p l IH]; [done|]. rewrite fmap_cons. cbn [sum_list_with]. rewrite IH. by destruct p. Qed.

Lemma aphase_step_decreases row p p' row' :
  aphase_step row p = Some (p', row') -> aphase_measure p' < aphase_measure p.
Proof. destruct p; simpl; intros; repeat case_match; simplify_eq/=; lia. Qed.

Lemma apool_succs_decrease s s' : s' ∈ apool_succs s -> apool_measure s' < apool_measure s.
Proof.
  destruct s as [row ps]. unfold apool_succs. rewrite list_elem_of_omap.
  intros (i & _ & Hi). cbn -[aphase_step] in Hi.
  destruct (ps !! i) as [p|] eqn:Hp; cbn -[aphase_step] in Hi; [|done].
  destruct (aphase_step row p) as [[p' row']|] eqn:Hs; cbn -[aphase_step] in Hi; [|done].
  injection Hi as <-. unfold apool_measure. simpl.
  pose proof (aphase_step_decreases _ _ _ _ Hs).
  destruct (row && negb row').
  - assert (Hq : (kill <$> ps) !! i = Some (kill p)) by by rewrite list_lookup_fmap, Hp.
    pose proof (sum_list_with_insert aphase_measure _ i p' _ Hq). rewrite kill_measure in *.
    destruct p; simpl in *; lia.
  - pose proof (sum_list_with_insert aphase_measure _ i p' _ Hp). lia.
Qed.

Lemma apool_succs_intro row ps i p p' row' :
  ps !! i = Some p -> aphase_step row p = Some (p', row') ->
  (row', <[i := p']> (if row && negb row' then kill <$> ps else ps)) ∈ apool_succs (row, ps).
Proof.
  intros Hp Hs. unfold apool_succs. apply list_elem_of_omap. exists i.
  split; [apply elem_of_seq; apply lookup_lt_Some in Hp; simpl; lia|].
  cbn -[aphase_step]. rewrite Hp. cbn -[aphase_step]. by rewrite Hs.
Qed.

(** ** The abstraction is a simulation *)

(** Under the invariant a request crashes only on the re-raised
    [IntegrityError] of [get_or_create]: the gets never fail. *)
Lemma worker_step_crash db w w' db' e :
  db_wf db -> worker_step db w = Some (w', db') -> w_phase w' = Crashed e -> e = IntegrityError.
Proof.
  intros Hwf. unfold worker_step.
  destruct (like_get_spec db (w_user w) (w_news w) Hwf) as [[-> _]|(k & l & -> & _)];
    destruct (w_phase w); repeat case_match; intros; simplify_eq/=; done.
Qed.

Section Simulation.
Variable (u : nat) (n : N).

(** What a query may do to the keys of pending deletes: when it deletes
    the row of (u, n), that row is gone for all of them; otherwise
    nothing changes for them. *)
Definition live_after (db db' : DB) : Prop :=
  forall k, pending_ok u n db k ->
    live u n db' k = if arow u n db && negb (arow u n db') then false else live u n db k.

(** A query adds no row below the sequence. *)
Definition rows_below (db db' : DB) : Prop :=
  forall k l, k < next_like db -> likes db' !! k = Some l -> likes db !! k = Some l.

(** What one query of a request by [u] on [n] does, seen through the
    abstraction. *)
Definition query_sim (db : DB) (w : Worker) (db' : DB) (w' : Worker) : Prop :=
  aphase_step (arow u n db) (abs_phase u n db (w_phase w)) =
    Some (abs_phase u n db' (w_phase w'), arow u n db') /\
  w_user w' = u /\ w_news w' = n /\
  (forall k, w_phase w' = AtDelete k -> pending_ok u n db' k) /\
  users db' = users db /\ news db' = news db /\ next_like db <= next_like db' /\
  live_after db db' /\ rows_below db db'.

Lemma arow_spec db : arow u n db = bool_decide (count_where (like_matches u n) (likes db) <> 0).
Proof. done. Qed.

Lemma query_sim_read db w w' :
  aphase_step (arow u n db) (abs_phase u n db (w_phase w)) =
    Some (abs_phase u n db (w_phase w'), arow u n db) ->
  w_user w' = u -> w_news w' = n -> (forall k, w_phase w' = AtDelete k -> pending_ok u n db k) ->
  query_sim db w db w'.
Proof.
  intros Hs Hu Hn Hdel. do 6 (split; [done|]). split; [lia|]. split.
  - intros k _. by destruct (arow u n db).
  - by intros k l _ ->.
Qed.

Lemma like_insert_dup db row :
  count_where (like_matches (like_user row) (like_news row)) (likes db) <> 0 ->
  like_insert db row = Err IntegrityError.
Proof. intros Hc. unfold like_insert. rewrite (bool_decide_eq_false_2 (_ = 0)) by done. by rewrite andb_false_r. Qed.

(** The get of [get_or_create] and the re-get after a failed INSERT. *)
Lemma query_sim_get db w p_none :
  db_wf db -> w_user w = u -> w_news w = n ->
  (w_phase w = AtGet /\ p_none = AtCreate \/ w_phase w = AtReget /\ p_none = Crashed IntegrityError) ->
  forall w' db',
  match like_get db u n with
  | Ok None => Some (set_phase w p_none, db)
  | Ok (Some (k, _)) => Some (set_phase w (AtDelete k), db)
  | Err e => Some (set_phase w (Crashed e), db)
  end = Some (w', db') -> query_sim db w db' w'.
Proof.
  intros Hwf Hu Hn Hph w' db'.
  destruct (like_get_spec db u n Hwf) as [[-> Hc]|(k & l & -> & Hk & Hm & Hc)]; intros; simplify_eq.
  - assert (Hr : arow u n db' = false) by (rewrite arow_spec; apply bool_decide_eq_false_2; lia).
    destruct Hph as [[Hp ->]|[Hp ->]]; apply query_sim_read; rewrite ?Hp; simpl; rewrite ?Hr; done.
  - assert (Hr : arow u n db' = true) by (rewrite arow_spec; apply bool_decide_eq_true_2; lia).
    assert (Hl : live u n db' k = true) by (unfold live; by rewrite Hk).
    destruct Hph as [[Hp _]|[Hp _]]; apply query_sim_read; rewrite ?Hp; simpl; rewrite ?Hr, ?Hl; try done;
      intros k' [= <-]; (split; [by eapply wf_like_seq|by intros; simplify_eq]).
Qed.

(** The INSERT of [create]. *)
Lemma query_sim_create db w w' db' :
  is_Some (users db !! u) -> is_Some (news db !! n) -> db_wf db ->
  w_user w = u -> w_news w = n -> w_phase w = AtCreate ->
  match like_insert db (mkLike u n true (w_now w)) with
  | Ok (_, db1) => Some (set_phase w (AtCount true), db1)
  | Err _ => Some (set_phase w AtReget, db)
  end = Some (w', db') -> query_sim db w db' w'.
Proof.
  intros HU HN Hwf Hu Hn Hp.
  destruct (decide (count_where (like_matches u n) (likes db) = 0)) as [Hc|Hc].
  - rewrite like_insert_ok by done. intros; simplify_eq.
    assert (Hr : arow u n db = false) by (rewrite arow_spec; apply bool_decide_eq_false_2; lia).
    assert (Hr' : arow u n (set_likes (<[next_like db := mkLike u n true (w_now w)]> (likes db))
                                      (S (next_like db)) db) = true).
    { rewrite arow_spec. apply bool_decide_eq_true_2. simpl.
      rewrite like_matches_after_insert by done. lia. }
    unfold query_sim, live_after, rows_below. rewrite Hp, Hr, Hr'.
    simpl. do 3 (split; [done|]). split; [by intros ??|]. do 2 (split; [done|]). split; [lia|].
    split; intros k; [intros [Hk _]|intros l Hk]; unfold live; simpl; by rewrite lookup_insert_ne by lia.
  - rewrite like_insert_dup by done. intros; simplify_eq.
    assert (Hr : arow u n db' = true) by (rewrite arow_spec; by apply bool_decide_eq_true_2).
    apply query_sim_read; rewrite ?Hp; simpl; rewrite ?Hr; done.
Qed.

Lemma like_delete_absent db k : likes db !! k = None -> like_delete db k = db.
Proof. intros Hk. unfold like_delete, set_likes. rewrite delete_id by done. by destruct db. Qed.

(** The DELETE of [like_obj.delete()]: of the row of (u, n), or of a
    key a concurrent request already deleted. *)
Lemma query_sim_delete db w k w' db' :
  db_wf db -> w_user w = u -> w_news w = n -> w_phase w = AtDelete k -> pending_ok u n db k ->
  Some (set_phase w (AtCount false), like_delete db k) = Some (w', db') -> query_sim db w db' w'.
Proof.
  intros Hwf Hu Hn Hp [Hlt Hm] [= <- <-].
  destruct (likes db !! k) as [l|] eqn:Hk.
  - pose proof (Hm l eq_refl) as Hml.
    assert (Hr : arow u n db = true).
    { rewrite arow_spec. apply bool_decide_eq_true_2. intros Hc.
      pose proof (proj1 (count_where_zero _ _) Hc k l Hk). congruence. }
    assert (Hr' : arow u n (like_delete db k) = false).
    { rewrite arow_spec. apply bool_decide_eq_false_2. rewrite (like_matches_after_delete db u n k l) by done. lia. }
    assert (Hl : live u n db k = true) by (unfold live; by rewrite Hk).
    unfold query_sim, live_after, rows_below. rewrite Hp, Hr, Hr'. cbn -[like_delete live].
    rewrite Hl. do 3 (split; [done|]). split; [by intros ??|]. do 3 (split; [done|]).
    split; intros k'; [intros [Hk' Hm']|intros l' _]; unfold live, like_delete, set_likes; cbn [likes].
    + destruct (decide (k' = k)) as [->|Hne]; [by rewrite lookup_delete_eq|].
      rewrite lookup_delete_ne by done. destruct (likes db !! k') as [l'|] eqn:Hk''; [|done].
      destruct Hne. eapply (like_matches_unique db u n); eauto.
    + rewrite lookup_delete_Some. naive_solver.
  - rewrite like_delete_absent by done. apply query_sim_read; rewrite ?Hp; simpl; try done.
    unfold live. rewrite Hk. by destruct (arow u n db).
Qed.

(** Every query of a request by [u] on [n]. *)
Lemma query_sim_step db w w' db' :
  db_wf db -> is_Some (users db !! u) -> is_Some (news db !! n) -> w_user w = u -> w_news w = n ->
  (forall k, w_phase w = AtDelete k -> pending_ok u n db k) ->
  worker_step db w = Some (w', db') -> query_sim db w db' w'.
Proof.
  intros Hwf HU HN Hu Hn Hdel. unfold worker_step. rewrite Hu, Hn.
  destruct (w_phase w) eqn:Hp; try done.
  - apply query_sim_get; auto.
  - apply query_sim_create; auto.
  - apply query_sim_get; auto.
  - apply query_sim_delete; auto.
  - intros [= <- <-]. by apply query_sim_read; rewrite ?Hp.
Qed.

End Simulation.

Section Pools.
Variable (u : nat) (n : N).

(** The other requests' abstract phases after a query. *)
Lemma abs_phases_after db db' (ws : list Worker) :
  (forall j w k, ws !! j = Some w -> w_phase w = AtDelete k -> pending_ok u n db k) ->
  live_after u n db db' ->
  (fun w => abs_phase u n db' (w_phase w)) <$> ws =
    if arow u n db && negb (arow u n db') then kill <$> ((fun w => abs_phase u n db (w_phase w)) <$> ws)
    else (fun w => abs_phase u n db (w_phase w)) <$> ws.
Proof.
  intros Hdel Hlive.
  destruct (arow u n db && negb (arow u n db')) eqn:E; [rewrite <-list_fmap_compose|];
    apply list_fmap_ext; intros j w Hj; unfold compose, abs_phase;
    destruct (w_phase w) eqn:Hp; try done; by rewrite (Hlive k), E by eauto.
Qed.

Lemma pending_ok_mono db db' k :
  pending_ok u n db k -> next_like db <= next_like db' -> rows_below db db' -> pending_ok u n db' k.
Proof. intros [Hk Hm] Hle Hb. split; [lia|]. intros l Hl. by apply Hm, Hb. Qed.

(** One query of worker [i] of a pool of requests by [u] on [n] keeps
    [race_inv], and is the abstract step of its abstract phase. *)
Lemma race_step db ws i w w' db' :
  race_inv u n (db, ws) -> ws !! i = Some w -> worker_step db w = Some (w', db') ->
  race_inv u n (db', <[i := w']> ws) /\
  aphase_step (arow u n db) (abs_phase u n db (w_phase w)) = Some (abs_phase u n db' (w_phase w'), arow u n db') /\
  abs u n (db', <[i := w']> ws) =
    (arow u n db', <[i := abs_phase u n db' (w_phase w')]>
      (if arow u n db && negb (arow u n db') then kill <$> (abs u n (db, ws)).2 else (abs u n (db, ws)).2)).
Proof.
  intros [Hwf HU HN Hws Hdel Hcr] Hi Hs. simpl in *.
  destruct (Hws i w Hi) as [Hu Hn].
  destruct (query_sim_step u n db w w' db') as (Ha & Hu' & Hn' & Hd' & Eu & En & Hle & Hlive & Hb);
    eauto.
  split; [|split; [done|]].
  - split; simpl; [by eapply worker_step_wf|by rewrite Eu|by rewrite En| | |].
    + intros j x. rewrite list_lookup_insert_Some. intros [(<- & <- & _)|(_ & Hj)]; eauto.
    + intros j x k. rewrite list_lookup_insert_Some.
      intros [(<- & <- & _)|(_ & Hj)] Hp; eauto using pending_ok_mono.
    + intros j x e. rewrite list_lookup_insert_Some.
      intros [(<- & <- & _)|(_ & Hj)] Hp; eauto using worker_step_crash.
  - unfold abs. simpl. rewrite list_fmap_insert. simpl. by rewrite (abs_phases_after db db') by done.
Qed.

(** Every step of a pool of requests by [u] on [n] is a step of its
    abstraction, and keeps [race_inv]. *)
Lemma race_sim s s' :
  race_inv u n s -> pool_step s s' -> race_inv u n s' /\ abs u n s' ∈ apool_succs (abs u n s).
Proof.
  intros Hinv Hstep. inversion Hstep as [db ws i w w' db' Hi Hs]; subst.
  destruct (race_step db ws i w w' db' Hinv Hi Hs) as (Hinv' & Ha & ->). split; [done|].
  apply apool_succs_intro with (abs_phase u n db (w_phase w)); [|done].
  unfold abs. cbn [fst snd]. by rewrite list_lookup_fmap, Hi.
Qed.

Lemma race_rtc s s' :
  race_inv u n s -> rtc pool_step s s' ->
  race_inv u n s' /\ rtc (fun a b => b ∈ apool_succs a) (abs u n s) (abs u n s').
Proof.
  intros Hinv Hr. revert Hinv. induction Hr as [s|s s1 s' Hstep _ IH]; intros Hinv; [done|].
  destruct (race_sim s s1) as [Hinv1 Ha]; [done..|].
  destruct (IH Hinv1) as [? ?]. split; [done|]. by eapply rtc_l.
Qed.

(** A turn of a request is the abstract turn. *)
Lemma abs_step_worker i s :
  race_inv u n s -> race_inv u n (step_worker i s) /\ abs u n (step_worker i s) = astep_worker i (abs u n s).
Proof.
  destruct s as [db ws]. intros Hinv. unfold step_worker, astep_worker. simpl.
  rewrite list_lookup_fmap. destruct (ws !! i) as [w|] eqn:Hi; simpl; [|done].
  destruct (worker_step db w) as [[w' db']|] eqn:Hs.
  - destruct (race_step db ws i w w' db' Hinv Hi Hs) as (Hinv' & Ha & Habs).
    split; [done|]. rewrite Habs. simpl. by rewrite Ha.
  - split; [done|]. apply worker_step_None, phase_measure_done in Hs.
    by destruct (w_phase w).
Qed.

(** A schedule of turns is the abstract schedule. *)
Lemma abs_run_schedule sched s :
  race_inv u n s ->
  race_inv u n (run_schedule sched s) /\ abs u n (run_schedule sched s) = arun_schedule sched (abs u n s).
Proof.
  revert s. induction sched as [|i sched IH]; intros s Hinv; [done|].
  unfold run_schedule, arun_schedule. cbn [foldl].
  destruct (abs_step_worker i s Hinv) as [Hinv1 <-]. by apply IH.
Qed.

(** What the abstraction keeps of a pool. *)
Lemma abs_answers s : aanswers (abs u n s) = toggle_answers s.
Proof.
  unfold aanswers, abs, toggle_answers. simpl. rewrite <-list_fmap_compose.
  apply list_fmap_ext. intros j w _. unfold compose, abs_phase. by destruct (w_phase w).
Qed.

Lemma abs_done s : pool_done s -> apool_done (abs u n s).
Proof.
  unfold pool_done, apool_done, abs. simpl. intros H. apply Forall_fmap.
  eapply Forall_impl; [exact H|]. intros w. unfold compose, abs_phase. by destruct (w_phase w).
Qed.

Lemma abs_row s : (abs u n s).1 = false -> pool_rows u n s = 0.
Proof. unfold abs, arow, pool_rows. simpl. intros H%bool_decide_eq_false. lia. Qed.

Lemma abs_rows s : race_inv u n s -> pool_rows u n s = if (abs u n s).1 then 1 else 0.
Proof.
  intros Hinv. unfold abs, arow, pool_rows. simpl.
  destruct (like_get_spec s.1 u n (ri_wf _ _ _ Hinv)) as [[_ ->]|(_ & _ & _ & _ & _ & ->)]; done.
Qed.

Lemma done_abs s : apool_done (abs u n s) -> pool_done s.
Proof.
  unfold pool_done, apool_done, abs. simpl. intros H%Forall_fmap.
  eapply Forall_impl; [exact H|]. intros w. unfold compose, abs_phase. by destruct (w_phase w).
Qed.

(** A request the abstraction sees crashed answered HTTP 500 with the
    [IntegrityError] of [get_or_create]. *)
Lemma abs_crashed s i :
  race_inv u n s -> (abs u n s).2 !! i = Some ACrashed -> responses s !! i = Some (Some (Err IntegrityError)).
Proof.
  intros Hinv. unfold abs, responses. cbn [fst snd]. change (map ?f ?l) with (f <$> l). rewrite !list_lookup_fmap.
  destruct (s.2 !! i) as [w|] eqn:Hi; simpl; [|done]. unfold abs_phase.
  destruct (w_phase w) eqn:Hp; intros; simplify_eq/=.
  by rewrite (ri_crash _ _ _ Hinv i w e Hi Hp).
Qed.

End Pools.

(** Requests by [u] on [n] that have not run yet. *)
Lemma race_inv_start db u n (ts : list Z) :
  db_wf db -> is_Some (users db !! u) -> is_Some (news db !! n) ->
  race_inv u n (concurrent_toggles db u n ts).
Proof.
  intros Hwf HU HN. unfold concurrent_toggles. split; simpl; try done; intros j w; rewrite list_lookup_fmap;
    destruct (ts !! j); intros; simplify_eq/=; done.
Qed.

(** ** Two toggles from no row *)

(** C8: two toggles racing from no row (spec, section 4.2), on every
    database.  When a user who has no Like row for an article sends two
    toggles at once, in every interleaving of their queries neither
    request fails, exactly one answers [liked = true] (its create won)
    and the other [liked = false] (it found that row and deleted it), and
    the user is left with no row, as in either serial order. *)
Theorem double_toggle_one_create db u n t1 t2 s' :
  db_wf db -> is_Some (users db !! u) -> is_Some (news db !! n) ->
  count_where (like_matches u n) (likes db) = 0 ->
  rtc pool_step (concurrent_toggles db u n [t1; t2]) s' -> pool_done s' ->
  toggle_answers s' ∈ [[Some true; Some false]; [Some false; Some true]] /\ pool_rows u n s' = 0.
Proof.
  intros Hwf HU HN Hc Hr Hd.
  destruct (race_rtc u n _ _ (race_inv_start db u n [t1; t2] Hwf HU HN) Hr) as [_ Ha].
  assert (H0 : abs u n (concurrent_toggles db u n [t1; t2]) = (false, [AGet; AGet])).
  { unfold abs, arow, concurrent_toggles. simpl. by rewrite bool_decide_eq_false_2 by lia. }
  rewrite H0 in Ha.
  destruct (explore_check apool_succs apool_measure apool_succs_decrease
    (fun a => apool_done a -> aanswers a ∈ [[Some true; Some false]; [Some false; Some true]] /\ a.1 = false)
    (false, [AGet; AGet]) 10) with (abs u n s') as [Hans Hrow];
    [vm_compute; lia|apply (bool_decide_eq_true_1 (Forall _ _)); vm_compute; reflexivity|done|by apply abs_done|].
  rewrite <-(abs_answers u n). split; [done|]. by apply (abs_row u n).
Qed.

(** ** Three toggles from no row *)

Lemma abs_start db u n (ts : list Z) :
  count_where (like_matches u n) (likes db) = 0 ->
  abs u n (concurrent_toggles db u n ts) = (false, replicate (length ts) AGet).
Proof.
  intros Hc. unfold abs, arow, concurrent_toggles. simpl. rewrite bool_decide_eq_false_2 by lia.
  f_equal. rewrite <-list_fmap_compose. by apply const_fmap.
Qed.

(** A schedule of toggles by a user who has no row runs as the
    abstract schedule from [AGet]s and no row. *)
Lemma toggles_run db u n ts sched :
  db_wf db -> is_Some (users db !! u) -> is_Some (news db !! n) ->
  count_where (like_matches u n) (likes db) = 0 ->
  race_inv u n (run_schedule sched (concurrent_toggles db u n ts)) /\
  abs u n (run_schedule sched (concurrent_toggles db u n ts)) =
    arun_schedule sched (false, replicate (length ts) AGet).
Proof.
  intros Hwf HU HN Hc. rewrite <-(abs_start db u n ts Hc).
  apply abs_run_schedule, race_inv_start; done.
Qed.

(** C9: lost update, on every database.  When a user who has no Like
    row for an article sends three toggles, every serial order leaves
    one row (an odd number of toggles, as C2 has it); but in the
    interleaving where the first request runs to its end and the other
    two then both read the row it created, both delete it and both
    answer [liked = false]: the three requests succeed and leave no row,
    so one toggle is lost. *)
Theorem three_toggles_lost_update db u n t1 t2 t3 :
  db_wf db -> is_Some (users db !! u) -> is_Some (news db !! n) ->
  count_where (like_matches u n) (likes db) = 0 ->
  Forall (fun o => pool_rows u n (run_schedule (serial o) (concurrent_toggles db u n [t1; t2; t3])) = 1)
    (permutations [0; 1; 2]) /\
  exists s', rtc pool_step (concurrent_toggles db u n [t1; t2; t3]) s' /\ pool_done s' /\
    toggle_answers s' = [Some true; Some false; Some false] /\ pool_rows u n s' = 0.
Proof.
  intros Hwf HU HN Hc. split.
  - assert (Ha : Forall (fun o => (arun_schedule (serial o) (false, replicate 3 AGet)).1 = true)
                   (permutations [0; 1; 2]))
      by (apply (bool_decide_eq_true_1 (Forall _ _)); vm_compute; reflexivity).
    eapply Forall_impl; [exact Ha|]. intros o Ho.
    destruct (toggles_run db u n [t1; t2; t3] (serial o) Hwf HU HN Hc) as [Hi Habs].
    cbn [length] in Habs.
    by rewrite (abs_rows u n _ Hi), Habs, Ho.
  - exists (run_schedule [0; 0; 0; 1; 2; 1; 2; 1; 2] (concurrent_toggles db u n [t1; t2; t3])).
    destruct (toggles_run db u n [t1; t2; t3] [0; 0; 0; 1; 2; 1; 2; 1; 2] Hwf HU HN Hc) as [Hi Habs].
    cbn [length] in Habs.
    split; [apply run_schedule_rtc|].
    split; [apply (done_abs u n); rewrite Habs; apply (bool_decide_eq_true_1 (apool_done _)); vm_compute; reflexivity|].
    rewrite <-(abs_answers u n), (abs_rows u n _ Hi), Habs. split; vm_compute; reflexivity.
Qed.

(** C17: a race ends in a server error, on every database.  No serial
    order of three toggles by a user who has no row fails; but when all
    three read "no row", the first inserts, the other two hit the unique
    index, and the third reads the row again and deletes it before the
    second reads again, the second request re-raises the
    [IntegrityError] of [get_or_create]: an HTTP 500. *)
Theorem three_toggles_server_error db u n t1 t2 t3 :
  db_wf db -> is_Some (users db !! u) -> is_Some (news db !! n) ->
  count_where (like_matches u n) (likes db) = 0 ->
  Forall (fun o => None ∉ toggle_answers (run_schedule (serial o) (concurrent_toggles db u n [t1; t2; t3])))
    (permutations [0; 1; 2]) /\
  exists s', rtc pool_step (concurrent_toggles db u n [t1; t2; t3]) s' /\ pool_done s' /\
    responses s' !! 1 = Some (Some (Err IntegrityError)) /\ status_code IntegrityError = 500.
Proof.
  intros Hwf HU HN Hc. split.
  - assert (Ha : Forall (fun o => None ∉ aanswers (arun_schedule (serial o) (false, replicate 3 AGet)))
                   (permutations [0; 1; 2]))
      by (apply (bool_decide_eq_true_1 (Forall _ _)); vm_compute; reflexivity).
    eapply Forall_impl; [exact Ha|]. intros o Ho.
    destruct (toggles_run db u n [t1; t2; t3] (serial o) Hwf HU HN Hc) as [_ Habs].
    cbn [length] in Habs.
    by rewrite <-(abs_answers u n), Habs.
  - exists (run_schedule [0; 1; 2; 0; 1; 2; 2; 2; 1; 0; 2] (concurrent_toggles db u n [t1; t2; t3])).
    destruct (toggles_run db u n [t1; t2; t3] [0; 1; 2; 0; 1; 2; 2; 2; 1; 0; 2] Hwf HU HN Hc) as [Hi Habs].
    cbn [length] in Habs.
    split; [apply run_schedule_rtc|].
    split; [apply (done_abs u n); rewrite Habs; apply (bool_decide_eq_true_1 (apool_done _)); vm_compute; reflexivity|].
    split; [|done]. apply (abs_crashed u n _ 1 Hi). rewrite Habs. vm_compute. reflexivity.
Qed.

(** ** Witnesses *)

Lemma double_toggle_one_create_witness :
  toggle_answers (run_schedule [0; 0; 1; 1; 1; 1; 0; 0] double_click)
    ∈ [[Some true; Some false]; [Some false; Some true]] /\
  pool_rows 2 7 (run_schedule [0; 0; 1; 1; 1; 1; 0; 0] double_click) = 0.
Proof.
  apply (double_toggle_one_create sample_db 2 7%N 200 201).
  - apply sample_db_wf.
  - eexists. reflexivity.
  - eexists. reflexivity.
  - vm_compute. reflexivity.
  - apply run_schedule_rtc.
  - apply (bool_decide_eq_true_1 (pool_done _)). vm_compute. reflexivity.
Defined.


Lemma three_toggles_lost_update_witness :
  Forall (fun o => pool_rows 2 7 (run_schedule (serial o) (concurrent_toggles sample_db 2 7%N [200; 201; 202]%Z)) = 1)
    (permutations [0; 1; 2]) /\
  exists s', rtc pool_step (concurrent_toggles sample_db 2 7%N [200; 201; 202]%Z) s' /\ pool_done s' /\
    toggle_answers s' = [Some true; Some false; Some false] /\ pool_rows 2 7 s' = 0.
Proof.
  apply (three_toggles_lost_update sample_db 2 7%N 200 201 202).
  - apply sample_db_wf.
  - eexists. reflexivity.
  - eexists. reflexivity.
  - vm_compute. reflexivity.
Defined.

Lemma three_toggles_server_error_witness :
  Forall (fun o => None ∉ toggle_answers (run_schedule (serial o) (concurrent_toggles sample_db 2 7%N [200; 201; 202]%Z)))
    (permutations [0; 1; 2]) /\
  exists s', rtc pool_step (concurrent_toggles sample_db 2 7%N [200; 201; 202]%Z) s' /\ pool_done s' /\
    responses s' !! 1 = Some (Some (Err IntegrityError)) /\ status_code IntegrityError = 500.
Proof.
  apply (three_toggles_server_error sample_db 2 7%N 200 201 202).
  - apply sample_db_wf.
  - eexists. reflexivity.
  - eexists. reflexivity.
  - vm_compute. reflexivity.
Defined.
