(* ===== verification/Admin.v ===== *)
(** * Admin: the change lists that [admin.py] configures

    [admin.py] registers the four models with Django's admin.  Only
    [NewsAdmin] configures its change list beyond the defaults:
    [search_fields = ['title', 'body']] and [list_filter = ['category',
    'is_breaking', 'date_posted']]; [list_display] and
    [prepopulated_fields] (filled in the browser) only shape the page.

    The change list of a model is its queryset, filtered by the list
    filters' query parameters and by the search box ([?q=]), ordered by
    the model's [Meta.ordering] (or none) completed with [-pk] so that the
    order is total, and cut into pages of [list_per_page = 100] rows
    ([ChangeList.get_results]).  The search follows
    [ModelAdmin.get_search_results]: [smart_split] cuts the term into bits
    (a bit may hold quoted phrases), a bit that is one quoted literal is
    unquoted ([unescape_string_literal]), and an article matches when
    every bit occurs in its title or its body, as SQL [LIKE '%bit%']
    compares on SQLite (Django's default database): ignoring the case of
    ASCII letters only.  The filters' query parameters are given parsed
    ([NewsFilter]); a malformed one, which the admin answers with a
    redirect to [?e=1], is not modelled, nor are the staff permissions
    the admin checks first. *)

From stdpp Require Import base gmap strings list sorting.
From S2P Require Import Prelude Models.

(** ** [django.utils.text.smart_split] *)

(** [smart_split_re] (Django 4 and later) has two alternatives: a word of
    plain characters (neither white space nor a quote) holding at least
    one quoted literal, each literal followed by plain characters; or a
    run of characters that are not white space ([\S+]).  A quoted literal
    opens with a double or a single quote and ends at the first same
    quote not escaped by a backslash; a backslash escapes any character
    but a newline.  The regular expression is matched again and again
    from left to right, skipping the characters where it does not match
    (the white space). *)

Definition is_quote (c : Ascii.ascii) : bool :=
  (Ascii.nat_of_ascii c =? 34) || (Ascii.nat_of_ascii c =? 39).

Definition is_backslash (c : Ascii.ascii) : bool := Ascii.nat_of_ascii c =? 92.

(** A plain character: neither white space nor a quote. *)
Definition plain_char (c : Ascii.ascii) : bool := negb (py_isspace c) && negb (is_quote c).

(** The plain characters at the front, greedy: the run and the rest. *)
Fixpoint plain_span (l : list Ascii.ascii) : list Ascii.ascii * list Ascii.ascii :=
  match l with
  | c :: l' => if plain_char c then let '(a, b) := plain_span l' in (c :: a, b) else ([], l)
  | [] => ([], [])
  end.

(** The body of a literal after its opening quote [q]: up to the first
    unescaped [q]; a backslash takes the next character unless it is a
    newline. *)
Fixpoint quoted_rest (q : Ascii.ascii) (l : list Ascii.ascii) : option (list Ascii.ascii * list Ascii.ascii) :=
  match l with
  | [] => None
  | c :: l' =>
      if bool_decide (c = q) then Some ([c], l')
      else if is_backslash c then
        match l' with
        | d :: l'' =>
            if Ascii.nat_of_ascii d =? 10 then None
            else (fun ab : list Ascii.ascii * list Ascii.ascii => (c :: d :: ab.1, ab.2)) <$> quoted_rest q l''
        | [] => None
        end
      else (fun ab : list Ascii.ascii * list Ascii.ascii => (c :: ab.1, ab.2)) <$> quoted_rest q l'
  end.

(** A quoted literal, in double or single quotes. *)
Definition quoted (l : list Ascii.ascii) : option (list Ascii.ascii * list Ascii.ascii) :=
  match l with
  | c :: l' =>
      if is_quote c then (fun ab : list Ascii.ascii * list Ascii.ascii => (c :: ab.1, ab.2)) <$> quoted_rest c l'
      else None
  | [] => None
  end.

(** More literals, each followed by plain characters, greedy; each
    round takes at least the two quotes, so [length l] rounds are
    enough. *)
Fixpoint groups (fuel : nat) (l : list Ascii.ascii) : list Ascii.ascii * list Ascii.ascii :=
  match fuel with
  | 0 => ([], l)
  | S fuel' =>
      match quoted l with
      | Some (qs, r) =>
          let '(p, r') := plain_span r in
          let '(g, r'') := groups fuel' r' in (qs ++ p ++ g, r'')
      | None => ([], l)
      end
  end.

(** The first alternative: plain characters, then at least one quoted
    literal, each followed by plain characters. *)
Definition word_with_quotes (l : list Ascii.ascii) : option (list Ascii.ascii * list Ascii.ascii) :=
  let '(a, r) := plain_span l in
  match quoted r with
  | Some (qs, r1) =>
      let '(p, r2) := plain_span r1 in
      let '(g, r3) := groups (length r2) r2 in Some (a ++ qs ++ p ++ g, r3)
  | None => None
  end.

(** The second alternative, [\S+]. *)
Fixpoint nonspace_span (l : list Ascii.ascii) : list Ascii.ascii * list Ascii.ascii :=
  match l with
  | c :: l' => if py_isspace c then ([], l) else let '(a, b) := nonspace_span l' in (c :: a, b)
  | [] => ([], [])
  end.

(** [finditer]: each match takes at least one character, each skipped
    character one, so [length l] rounds are enough. *)
Fixpoint split_bits (fuel : nat) (l : list Ascii.ascii) : list (list Ascii.ascii) :=
  match fuel with
  | 0 => []
  | S fuel' =>
      match l with
      | [] => []
      | c :: l' =>
          if py_isspace c then split_bits fuel' l'
          else
            let '(tok, rest) := match word_with_quotes l with Some tr => tr | None => nonspace_span l end in
            tok :: split_bits fuel' rest
      end
  end.

Definition smart_split (s : string) : list (list Ascii.ascii) :=
  let l := String.list_ascii_of_string s in split_bits (length l) l.

(** A search term typed as words separated by single spaces. *)
Fixpoint words_join (ws : list (list Ascii.ascii)) : list Ascii.ascii :=
  match ws with
  | [] => []
  | [w] => w
  | w :: ws' => w ++ Ascii.ascii_of_nat 32 :: words_join ws'
  end.

Definition plain_word (w : list Ascii.ascii) : Prop := w <> [] /\ Forall (fun c => plain_char c = true) w.

(** ** The search of [NewsAdmin] *)

(** [str.replace(x + y, z)] for two characters: left to right, without
    overlaps. *)
Fixpoint replace2 (x y z : Ascii.ascii) (l : list Ascii.ascii) : list Ascii.ascii :=
  match l with
  | c :: ((d :: l'') as l') =>
      if bool_decide (c = x) && bool_decide (d = y) then z :: replace2 x y z l'' else c :: replace2 x y z l'
  | _ => l
  end.

(** [unescape_string_literal] on a literal: [s[1:-1]], then [\q] to [q],
    then [\\] to [\]. *)
Definition unescape_string_literal (q : Ascii.ascii) (s : list Ascii.ascii) : list Ascii.ascii :=
  let bs := Ascii.ascii_of_nat 92 in
  replace2 bs bs bs (replace2 bs q q (take (length s - 2) (drop 1 s))).

(** A bit that starts with a quote and ends with the same character is
    unescaped ([get_search_results]). *)
Definition search_bit (bit : list Ascii.ascii) : list Ascii.ascii :=
  match bit with
  | c :: _ => if is_quote c && bool_decide (last bit = Some c) then unescape_string_literal c bit else bit
  | [] => bit
  end.

Definition search_bits (term : string) : list (list Ascii.ascii) := search_bit <$> smart_split term.

(** SQLite's [LIKE] folds the case of ASCII letters only. *)
Definition ascii_lower (c : Ascii.ascii) : Ascii.ascii :=
  let n := Ascii.nat_of_ascii c in
  if (65 <=? n) && (n <=? 90) then Ascii.ascii_of_nat (n + 32) else c.

Fixpoint is_prefix (t s : list Ascii.ascii) : bool :=
  match t, s with
  | [], _ => true
  | a :: t', b :: s' => bool_decide (a = b) && is_prefix t' s'
  | _ :: _, [] => false
  end.

Fixpoint contains (s t : list Ascii.ascii) : bool :=
  is_prefix t s || match s with [] => false | _ :: s' => contains s' t end.

(** [field__icontains=bit]: [field LIKE '%bit%' ESCAPE '\'], the
    wildcards of [bit] escaped. *)
Definition icontains (field : string) (bit : list Ascii.ascii) : bool :=
  contains (ascii_lower <$> String.list_ascii_of_string field) (ascii_lower <$> bit).

(** [get_search_results] with [search_fields = ['title', 'body']]: an
    empty term does not filter; otherwise every bit must occur in the
    title or the body. *)
Definition news_search (term : string) (x : News) : bool :=
  if py_truthy term then
    forallb (fun bit => icontains (news_title x) bit || icontains (news_body x) bit) (search_bits term)
  else true.

(** ** The list filters of [NewsAdmin] *)

(** The query parameters of the change list, parsed. *)
Record NewsFilter := mkNewsFilter {
  nf_q : string;                      (* ?q= *)
  nf_category : option (option nat);  (* ?category__id__exact=c, or ?category__isnull=True *)
  nf_is_breaking : option bool;       (* ?is_breaking__exact=1 or 0 *)
  nf_date : option (Z * Z);           (* ?date_posted__gte=...&date_posted__lt=... *)
  nf_page : option string;            (* ?p= *)
  nf_all : bool;                      (* ?all= *)
}.

Definition news_filter_ok (f : NewsFilter) (x : News) : bool :=
  match nf_category f with Some c => bool_decide (news_category x = c) | None => true end &&
  match nf_is_breaking f with Some b => Bool.eqb (news_is_breaking x) b | None => true end &&
  match nf_date f with
  | Some (since, until) => bool_decide (since <= news_date_posted x < until)%Z
  | None => true
  end &&
  news_search (nf_q f) x.

(** [Meta.ordering = ['-date_posted']] completed with [-pk]. *)
Definition admin_news_order (a b : N * News) : Prop :=
  (news_date_posted b.2 < news_date_posted a.2)%Z \/
  (news_date_posted b.2 = news_date_posted a.2 /\ (b.1 <= a.1)%N).

#[export] Instance admin_news_order_dec : RelDecision admin_news_order.
Proof. intros a b. unfold admin_news_order. apply _. Defined.

(** The rows of the change list, before pagination. *)
Definition news_changelist_rows (db : DB) (f : NewsFilter) : list (N * News) :=
  merge_sort admin_news_order (map_to_list (filter (fun kv : N * News => news_filter_ok f kv.2 = true) (news db))).

(** ** Pagination *)

Definition list_per_page : nat := 100.
Definition list_max_show_all : nat := 200.

(** [ChangeList.get_results]: one page of [list_per_page] rows, the whole
    list when it fits one page or when [?all] asks for at most
    [list_max_show_all] rows; [Paginator.page] refuses a number below 1
    or past the last page (the first page always exists), which the
    admin answers with a redirect to [?e=1] ([None]).  [?p=] goes
    through [int()], and a value that is no integer is page 1. *)
Definition changelist_page {A} (rows : list A) (p : option string) (show_all : bool) : option (list A) :=
  let count := length rows in
  let page_num := match p ≫= py_int with Some z => z | None => 1%Z end in
  let num_pages := Nat.max 1 ((count + list_per_page - 1) / list_per_page) in
  if (show_all && (count <=? list_max_show_all)) || (count <=? list_per_page) then Some rows
  else if bool_decide (1 <= page_num <= Z.of_nat num_pages)%Z then
    let bottom := (Z.to_nat page_num - 1) * list_per_page in
    Some (take list_per_page (drop bottom rows))
  else None.

(** The change list of [NewsAdmin]. *)
Definition news_changelist (db : DB) (f : NewsFilter) : option (list (N * News)) :=
  changelist_page (news_changelist_rows db f) (nf_page f) (nf_all f).

(** The change lists of [CategoryAdmin] and of the default [ModelAdmin]
    of Comment and Like: no filter, no search, ordered by [-pk]. *)
Definition key_desc {V} (a b : nat * V) : Prop := b.1 <= a.1.

#[export] Instance key_desc_dec {V} : RelDecision (@key_desc V).
Proof. intros a b. unfold key_desc. apply _. Defined.

Definition pk_changelist {V} (tbl : gmap nat V) (p : option string) (show_all : bool)
    : option (list (nat * V)) :=
  changelist_page (merge_sort key_desc (map_to_list tbl)) p show_all.

(** Where a search bit occurs in a field, as [LIKE] compares. *)
Definition occurs_ci (field : string) (bit : list Ascii.ascii) : Prop :=
  exists pre suf, ascii_lower <$> String.list_ascii_of_string field = pre ++ (ascii_lower <$> bit) ++ suf.

(** ** Substring search *)

Lemma is_prefix_spec t s : is_prefix t s = true <-> exists suf, s = t ++ suf.
Proof.
  revert s. induction t as [|a t IH]; intros [|b s]; simpl.
  - split; eauto.
  - split; eauto.
  - split; [done|]. by intros [? ?].
  - rewrite andb_true_iff, bool_decide_eq_true, IH. split.
    + intros [-> [suf ->]]. eauto.
    + intros [suf [= -> ->]]. eauto.
Qed.

Lemma contains_spec s t : contains s t = true <-> exists pre suf, s = pre ++ t ++ suf.
Proof.
  induction s as [|a s IH]; simpl; rewrite orb_true_iff, is_prefix_spec.
  - split.
    + intros [[suf Hs]|?]; [|done]. exists [], suf. exact Hs.
    + intros ([|? ?] & suf & Hs); [|done]. left. by exists suf.
  - rewrite IH. split.
    + intros [[suf Hs]|(pre & suf & ->)]; [by exists [], suf|]. by exists (a :: pre), suf.
    + intros ([|b pre] & suf & Hs); [left; by exists suf|]. injection Hs as -> ->. right. eauto.
Qed.

(** ** The tokenizer *)

Lemma space_not_quote c : py_isspace c = true -> is_quote c = false.
Proof. destruct c as [[] [] [] [] [] [] [] []]; vm_compute; congruence. Qed.

Lemma plain_span_word w r :
  Forall (fun c => plain_char c = true) w ->
  (r = [] \/ exists c r', r = c :: r' /\ py_isspace c = true) -> plain_span (w ++ r) = (w, r).
Proof.
  intros Hw Hr. induction Hw as [|c w Hc _ IH]; simpl.
  - destruct Hr as [->|(c & r' & -> & Hs)]; [done|]. simpl. unfold plain_char. by rewrite Hs.
  - by rewrite Hc, IH.
Qed.

Lemma nonspace_span_word w r :
  Forall (fun c => plain_char c = true) w ->
  (r = [] \/ exists c r', r = c :: r' /\ py_isspace c = true) -> nonspace_span (w ++ r) = (w, r).
Proof.
  intros Hw Hr. induction Hw as [|c w Hc _ IH]; simpl.
  - destruct Hr as [->|(c & r' & -> & Hs)]; [done|]. simpl. by rewrite Hs.
  - apply andb_true_iff in Hc as [Hc _]. apply negb_true_iff in Hc. by rewrite Hc, IH.
Qed.

(** A plain word followed by white space or the end is one bit, taken
    by the second alternative. *)
Lemma split_bits_word n w r :
  plain_word w -> (r = [] \/ exists c r', r = c :: r' /\ py_isspace c = true) ->
  split_bits (S n) (w ++ r) = w :: split_bits n r.
Proof.
  intros [Hne Hw] Hr. destruct w as [|c w]; [done|]. inversion Hw as [|? ? Hc]; subst.
  cbn [split_bits app]. assert (Hsp : py_isspace c = false).
  { apply andb_true_iff in Hc as [Hc _]. by apply negb_true_iff. }
  rewrite Hsp. replace (c :: w ++ r) with ((c :: w) ++ r) by done.
  unfold word_with_quotes. rewrite plain_span_word by done.
  assert (Hq : quoted r = None).
  { destruct Hr as [->|(c' & r' & -> & Hs)]; [done|]. simpl. by rewrite space_not_quote. }
  rewrite Hq, nonspace_span_word by done. done.
Qed.

Lemma split_bits_space n c l : py_isspace c = true -> split_bits (S n) (c :: l) = split_bits n l.
Proof. intros H. simpl. by rewrite H. Qed.

Lemma words_join_cons w w' ws :
  words_join (w :: w' :: ws) = w ++ Ascii.ascii_of_nat 32 :: words_join (w' :: ws).
Proof. reflexivity. Qed.

Lemma words_join_length ws : length (words_join ws) + 1 >= length ws.
Proof.
  induction ws as [|w [|w' ws] IH]; simpl; [lia|lia|]. rewrite length_app. simpl. simpl in IH. lia.
Qed.

(** The words joined by single spaces split back into the words, with
    any fuel the length of the term allows. *)
Lemma split_bits_words_join n ws :
  Forall plain_word ws -> length (words_join ws) <= n -> split_bits n (words_join ws) = ws.
Proof.
  intros Hws. revert n. induction Hws as [|w ws Hw Hws IH]; intros n Hn.
  - by destruct n.
  - destruct ws as [|w' ws].
    + pose proof Hw as [Hne _]. destruct n as [|n]; [destruct w; simpl in *; [done|lia]|].
      change (words_join [w]) with w. rewrite <-(app_nil_r w) at 1.
      rewrite (split_bits_word n w []); [by destruct n|done|by left].
    + rewrite words_join_cons in Hn |- *. rewrite length_app in Hn. cbn [length] in Hn.
      pose proof Hw as [Hne _]. destruct w as [|c w]; [done|]. cbn [length] in Hn.
      destruct n as [|n]; [lia|].
      rewrite split_bits_word; [|done|right; eexists _, _; split; [reflexivity|vm_compute; reflexivity]].
      destruct n as [|n]; [lia|].
      rewrite split_bits_space by reflexivity. rewrite (IH n) by lia. done.
Qed.

(** ** The fuel of the tokenizer is enough *)

Lemma plain_span_app l a b : plain_span l = (a, b) -> l = a ++ b.
Proof.
  revert a b. induction l as [|c l IH]; intros a b; simpl; [by intros [= <- <-]|].
  destruct (plain_char c); [|by intros [= <- <-]].
  destruct (plain_span l) as [a' b'] eqn:E. intros [= <- <-]. simpl. by rewrite (IH a' b').
Qed.

Lemma nonspace_span_app l a b : nonspace_span l = (a, b) -> l = a ++ b.
Proof.
  revert a b. induction l as [|c l IH]; intros a b; simpl; [by intros [= <- <-]|].
  destruct (py_isspace c); [by intros [= <- <-]|].
  destruct (nonspace_span l) as [a' b'] eqn:E. intros [= <- <-]. simpl. by rewrite (IH a' b').
Qed.

Lemma quoted_rest_app q l a b : quoted_rest q l = Some (a, b) -> l = a ++ b /\ a <> [].
Proof.
  revert a b. induction l as [l IH] using (induction_ltof1 _ (@length _)); unfold ltof in IH.
  intros a b. destruct l as [|c l']; simpl; [done|].
  case_bool_decide; [by intros [= <- <-]|]. case_match.
  - destruct l' as [|d l'']; [done|]. case_match; [done|].
    destruct (quoted_rest q l'') as [[a' b']|] eqn:E; [|done]. simpl. intros [= <- <-].
    destruct (IH l'' ltac:(simpl; lia) a' b' E) as [-> _]. done.
  - destruct (quoted_rest q l') as [[a' b']|] eqn:E; [|done]. simpl. intros [= <- <-].
    destruct (IH l' ltac:(simpl; lia) a' b' E) as [-> _]. done.
Qed.

Lemma quoted_app l a b : quoted l = Some (a, b) -> l = a ++ b /\ a <> [].
Proof.
  destruct l as [|c l]; simpl; [done|]. destruct (is_quote c); [|done].
  destruct (quoted_rest c l) as [[a' b']|] eqn:E; [|done]. simpl. intros [= <- <-].
  by destruct (quoted_rest_app _ _ _ _ E) as [-> _].
Qed.

Lemma groups_fuel n m l : length l <= n -> length l <= m -> groups n l = groups m l.
Proof.
  revert m l. induction n as [|n IH]; intros m l Hn Hm.
  - destruct l; [|simpl in Hn; lia]. by destruct m.
  - destruct m as [|m]; [destruct l; [done|simpl in Hm; lia]|]. simpl.
    destruct (quoted l) as [[qs r]|] eqn:Hq; [|done].
    destruct (plain_span r) as [p r'] eqn:Hp. apply quoted_app in Hq as [-> Hne].
    apply plain_span_app in Hp as ->. rewrite !length_app in Hn, Hm.
    destruct qs; [done|]. simpl in Hn, Hm. by rewrite (IH m r') by lia.
Qed.

Lemma groups_app n l g r : groups n l = (g, r) -> l = g ++ r.
Proof.
  revert l g r. induction n as [|n IH]; intros l g r; simpl; [by intros [= <- <-]|].
  destruct (quoted l) as [[qs r1]|] eqn:Hq; [|by intros [= <- <-]].
  destruct (plain_span r1) as [p r'] eqn:Hp. destruct (groups n r') as [g' r''] eqn:Hg'.
  intros [= <- <-]. apply quoted_app in Hq as [-> _]. apply plain_span_app in Hp as ->.
  rewrite (IH r' g' r'' Hg'). by rewrite !app_assoc.
Qed.

Lemma word_with_quotes_app l tok rest :
  word_with_quotes l = Some (tok, rest) -> l = tok ++ rest /\ tok <> [].
Proof.
  unfold word_with_quotes. destruct (plain_span l) as [a r] eqn:Ha.
  destruct (quoted r) as [[qs r1]|] eqn:Hq; [|done].
  destruct (plain_span r1) as [p r2] eqn:Hp. destruct (groups _ r2) as [g r3] eqn:Hg.
  intros [= <- <-]. apply plain_span_app in Ha as ->. apply quoted_app in Hq as [-> Hne].
  apply plain_span_app in Hp as ->. split; [|by destruct a, qs].
  rewrite (groups_app _ _ _ _ Hg). by rewrite !app_assoc.
Qed.

(** Each round of [split_bits] takes at least one character, so any fuel
    at least the length of the term gives the same bits: the fuel of
    [smart_split] never runs out. *)
Lemma split_bits_fuel n m l : length l <= n -> length l <= m -> split_bits n l = split_bits m l.
Proof.
  revert m l. induction n as [|n IH]; intros m l Hn Hm.
  - destruct l; [|simpl in Hn; lia]. by destruct m.
  - destruct m as [|m]; [destruct l; [done|simpl in Hm; lia]|].
    destruct l as [|c l]; [done|]. cbn [split_bits]. simpl in Hn, Hm.
    destruct (py_isspace c) eqn:Hs; [apply IH; lia|].
    destruct (word_with_quotes (c :: l)) as [[tok rest]|] eqn:Hw.
    + apply word_with_quotes_app in Hw as [Hl Hne]. f_equal. apply IH.
      * apply (f_equal length) in Hl. rewrite length_app in Hl. destruct tok; simpl in *; [done|lia].
      * apply (f_equal length) in Hl. rewrite length_app in Hl. destruct tok; simpl in *; [done|lia].
    + simpl. rewrite Hs. destruct (nonspace_span l) as [a b] eqn:Hns.
      apply nonspace_span_app in Hns as ->. rewrite length_app in Hn, Hm. f_equal. apply IH; lia.
Qed.

(** ** Lemmas of the change list *)

Lemma search_bit_plain w : plain_word w -> search_bit w = w.
Proof.
  intros [Hne Hw]. destruct w as [|c w]; [done|]. inversion Hw as [|? ? Hc]; subst. simpl.
  apply andb_true_iff in Hc as [_ Hc]. apply negb_true_iff in Hc. by rewrite Hc.
Qed.

Lemma words_join_nonempty ws : ws <> [] -> Forall plain_word ws -> words_join ws <> [].
Proof.
  intros Hne Hws. destruct Hws as [|w ws [Hw _] _]; [done|].
  destruct ws; [done|]. rewrite words_join_cons. by destruct w.
Qed.

Lemma icontains_occurs field bit : icontains field bit = true <-> occurs_ci field bit.
Proof. apply contains_spec. Qed.

#[export] Instance admin_news_order_total : Total admin_news_order.
Proof. intros [k1 x1] [k2 x2]. unfold admin_news_order; simpl. lia. Qed.

#[export] Instance admin_news_order_trans : Transitive admin_news_order.
Proof. intros [k1 x1] [k2 x2] [k3 x3]. unfold admin_news_order; simpl. lia. Qed.

Lemma StronglySorted_lookup_lt {A} (R : relation A) (l : list A) i j a b :
  StronglySorted R l -> i < j -> l !! i = Some a -> l !! j = Some b -> R a b.
Proof.
  intros Hs. revert i j. induction Hs as [|x l _ IH Hall]; intros i j Hij Hi Hj; [done|].
  destruct i as [|i], j as [|j]; simpl in *; try lia.
  - injection Hi as <-. rewrite List.Forall_forall in Hall. apply Hall, list_elem_of_In.
    by eapply list_elem_of_lookup_2.
  - eapply IH; [|done..]. lia.
Qed.

Lemma news_changelist_rows_elem db f k x :
  (k, x) ∈ news_changelist_rows db f <-> news db !! k = Some x /\ news_filter_ok f x = true.
Proof. unfold news_changelist_rows. by rewrite merge_sort_Permutation, elem_of_map_to_list, map_lookup_filter_Some. Qed.

Lemma news_changelist_rows_sorted db f : StronglySorted admin_news_order (news_changelist_rows db f).
Proof. apply StronglySorted_merge_sort; apply _. Qed.

Lemma news_changelist_rows_keys db f : NoDup (news_changelist_rows db f).*1.
Proof. unfold news_changelist_rows. rewrite merge_sort_Permutation. apply NoDup_fst_map_to_list. Qed.

Lemma length_take_drop_le {A} n m (l : list A) : length (take n (drop m l)) <= n.
Proof. rewrite length_take. lia. Qed.

(** ** Properties *)

(** C28: a search typed as plain words separated by single spaces (no
    quotes) finds, on the change list of [NewsAdmin], exactly the
    articles in whose title or body each word occurs, ignoring the case
    of ASCII letters; the words need not be adjacent nor in order. *)
Theorem news_search_words term ws x :
  ws <> [] -> Forall plain_word ws -> String.list_ascii_of_string term = words_join ws ->
  news_search term x = true <->
  Forall (fun w => occurs_ci (news_title x) w \/ occurs_ci (news_body x) w) ws.
Proof.
  intros Hne Hws Ht. unfold news_search.
  assert (Htruthy : py_truthy term = true).
  { destruct term; [|done]. simpl in Ht. by destruct (words_join_nonempty ws). }
  rewrite Htruthy. unfold search_bits, smart_split. rewrite Ht, split_bits_words_join by done.
  rewrite (list_fmap_ext _ id ws); [|intros i w Hi; apply search_bit_plain;
                                        eapply (proj1 (Forall_lookup _ _)); eauto].
  rewrite list_fmap_id, forallb_forall, List.Forall_forall.
  setoid_rewrite orb_true_iff. by setoid_rewrite icontains_occurs.
Qed.

(** C30: the rows of [NewsAdmin]'s change list are exactly the articles
    that pass the three list filters ([category], [is_breaking] and the
    [date_posted] range its query parameters give) and the search of the
    title and the body, and they come newest first: a row after another
    has an earlier [date_posted], or the same one and a smaller key
    ([Meta.ordering = ['-date_posted']] completed with [-pk]), so no
    article appears twice and the list is determined. *)
Theorem news_changelist_rows_spec db f :
  (forall k x, (k, x) ∈ news_changelist_rows db f <->
     news db !! k = Some x /\
     (forall c, nf_category f = Some c -> news_category x = c) /\
     (forall b, nf_is_breaking f = Some b -> news_is_breaking x = b) /\
     (forall since until, nf_date f = Some (since, until) -> (since <= news_date_posted x < until)%Z) /\
     news_search (nf_q f) x = true) /\
  (forall i j a b, i < j -> news_changelist_rows db f !! i = Some a -> news_changelist_rows db f !! j = Some b ->
     (news_date_posted b.2 < news_date_posted a.2)%Z \/
     (news_date_posted b.2 = news_date_posted a.2 /\ (b.1 < a.1)%N)).
Proof.
  split.
  - intros k x. rewrite news_changelist_rows_elem. unfold news_filter_ok.
    destruct (nf_category f) as [c|], (nf_is_breaking f) as [b|], (nf_date f) as [[since until]|];
      rewrite ?andb_true_iff, ?bool_decide_eq_true, ?Bool.eqb_true_iff; naive_solver.
  - intros i j a b Hij Ha Hb.
    pose proof (StronglySorted_lookup_lt _ _ i j a b (news_changelist_rows_sorted db f) Hij Ha Hb) as Hab.
    assert (a.1 <> b.1) as Hne.
    { intros E. assert (i = j) by (eapply NoDup_lookup; [apply news_changelist_rows_keys|
        rewrite list_lookup_fmap, Ha; reflexivity|rewrite list_lookup_fmap, Hb, E; reflexivity]). lia. }
    unfold admin_news_order in Hab. destruct Hab as [?|[? ?]]; [left; done|right; split; [done|lia]].
Qed.

(** A page of a change list holds at most [list_per_page = 100]
    rows, or at most [list_max_show_all = 200] under [?all], and is a
    contiguous slice of the ordered rows. *)
Theorem changelist_page_bounds {A} (rows : list A) p show_all l :
  changelist_page rows p show_all = Some l ->
  length l <= list_max_show_all /\ (show_all = false -> length l <= list_per_page) /\
  exists pre suf, rows = pre ++ l ++ suf.
Proof.
  unfold changelist_page. intros H.
  destruct (_ || _) eqn:Hall.
  - injection H as <-. apply orb_true_iff in Hall.
    split; [|split; [|by exists [], []; rewrite app_nil_r]].
    + destruct Hall as [[_ ?%Nat.leb_le]%andb_true_iff|?%Nat.leb_le]; unfold list_max_show_all, list_per_page in *; lia.
    + intros ->. destruct Hall as [[? _]%andb_true_iff|?%Nat.leb_le]; [done|lia].
  - case_bool_decide; [|done]. injection H as <-.
    split; [etransitivity; [apply length_take_drop_le|]; unfold list_max_show_all, list_per_page; lia|].
    split; [intros _; apply length_take_drop_le|].
    eexists (take _ rows), (drop list_per_page (drop _ rows)).
    by rewrite take_drop, take_drop.
Qed.

(** ** Tests against Django's documentation and witnesses *)

(** The double quote, which a Rocq string cannot hold alone. *)
Definition dq : Ascii.ascii := Ascii.ascii_of_nat 34.

(** [smart_split('This is "a person\'s" test.')] is
    [This], [is], ["a person\'s"], [test.]: a quoted phrase is one bit,
    quotes and backslash kept. *)
Example smart_split_doc :
  smart_split (String.string_of_list_ascii
    (String.list_ascii_of_string "This is " ++ dq :: String.list_ascii_of_string "a person\'s" ++
     dq :: String.list_ascii_of_string " test.")) =
  [String.list_ascii_of_string "This"; String.list_ascii_of_string "is";
   dq :: String.list_ascii_of_string "a person\'s" ++ [dq]; String.list_ascii_of_string "test."].
Proof. vm_compute. reflexivity. Qed.

(** A quoted phrase is searched as one bit, unquoted. *)
Example search_bits_phrase :
  search_bits (String.string_of_list_ascii (dq :: String.list_ascii_of_string "cup final" ++ [dq])) =
  [String.list_ascii_of_string "cup final"].
Proof. vm_compute. reflexivity. Qed.

Definition no_filter : NewsFilter := mkNewsFilter "" None None None None false.

Lemma news_search_words_witness :
  news_search "cup FINAL" sample_news = true <->
  Forall (fun w => occurs_ci (news_title sample_news) w \/ occurs_ci (news_body sample_news) w)
         [String.list_ascii_of_string "cup"; String.list_ascii_of_string "FINAL"].
Proof.
  apply news_search_words.
  - discriminate.
  - repeat constructor; discriminate.
  - reflexivity.
Defined.

Lemma changelist_page_bounds_witness :
  news_changelist sample_db no_filter = Some [(7%N, sample_news)] /\
  length [(7%N, sample_news)] <= list_max_show_all /\
  (false = false -> length [(7%N, sample_news)] <= list_per_page) /\
  exists pre suf, news_changelist_rows sample_db no_filter = pre ++ [(7%N, sample_news)] ++ suf.
Proof.
  assert (H : news_changelist sample_db no_filter = Some [(7%N, sample_news)]) by (vm_compute; reflexivity).
  split; [exact H|]. exact (changelist_page_bounds _ None false _ H).
Defined.
