(* ===== verification/Bounds.v ===== *)
(** * Bounds: the column widths of [models.py] across the API

    Every [CharField], [SlugField] and [EmailField] of [models.py] and of
    Django's [User] declares a [max_length], which the serializers check
    ([MaxLengthValidator]) and which a database with fixed-width columns
    enforces ([VARCHAR(n)]; SQLite does not).  [db_bounds] states the
    widths the stored rows keep under every sequence of requests: a
    username at most 150 characters and an email at most 254, a category
    name and slug at most 100, an article title and slug at most 255, a
    comment email at most 254 and a comment name at most 150, not the
    100 that [Comment.name] declares: the per-article comments view
    stores the caller's username, which may be 150 characters long, as
    the comment's name without validating it ([long_username_comment]).
    The password column holds the hash, whose length is the hasher's,
    and the image column the upload's name, whose length check belongs to
    the [ImageField] parameter; neither is bounded here. *)

From stdpp Require Import base gmap strings list.
From S2P Require Import Prelude Models Auth Serializers NewsViews CommentsView GenericViews.
From S2P Require Import Registration ReadViews UpdateViews Routing.

(** ** The widths of the stored rows *)

Definition user_fits (u : User) : Prop :=
  String.length (username u) <= 150 /\ String.length (user_email u) <= 254.

Definition category_fits (c : Category) : Prop :=
  String.length (cat_name c) <= 100 /\ String.length (cat_slug c) <= 100.

Definition news_fits (x : News) : Prop :=
  String.length (news_title x) <= 255 /\ String.length (news_slug x) <= 255.

Definition comment_fits (c : Comment) : Prop :=
  String.length (comment_name c) <= 150 /\ String.length (comment_email c) <= 254.

Definition db_bounds (db : DB) : Prop :=
  map_Forall (fun _ => user_fits) (users db) /\
  map_Forall (fun _ => category_fits) (categories db) /\
  map_Forall (fun _ => news_fits) (news db) /\
  map_Forall (fun _ => comment_fits) (Models.comments db).

#[export] Instance db_bounds_dec db : Decision (db_bounds db).
Proof. unfold db_bounds, user_fits, category_fits, news_fits, comment_fits. apply _. Defined.

(** The widths of the validated data a write takes its strings from. *)
Definition comment_valid_fits (v : CommentValid) : Prop :=
  String.length (v_name v) <= 150 /\ String.length (v_email v) <= 254.

Definition news_valid_fits (v : NewsValid) : Prop :=
  String.length (nv_title v) <= 255 /\ String.length (nv_slug v) <= 255.

(** A username of [n] letters a, which [UnicodeUsernameValidator] and the
    150 of [User.username] accept up to [n = 150]. *)
Definition long_username (n : nat) : string := String.string_of_list_ascii (replicate n (Ascii.ascii_of_nat 97)).

(** Register a user with a 120-letter username, obtain a token, comment
    on "cup-final" with that token. *)
Definition long_username_scenario : list (Request * N * list string * Body) := [
  (mkRequest POST None None 300, 0%N, ["auth"; "register"],
     mkBody (mkCategoryInput None None) (mkNewsInput None None None None None None)
            (mkCommentInput None None None None) (mkLikeInput None None None)
            (mkRegisterInput (Some (long_username 120)) None (Some "s3cret")) None None None);
  (mkRequest POST None None 301, 0%N, ["auth"; "token"],
     mkBody (mkCategoryInput None None) (mkNewsInput None None None None None None)
            (mkCommentInput None None None None) (mkLikeInput None None None)
            (mkRegisterInput None None None) (Some (long_username 120)) (Some "s3cret") None);
  (mkRequest POST (Some 3) None 302, 0%N, ["news"; "cup-final"; "comments"],
     mkBody (mkCategoryInput None None) (mkNewsInput None None None None None None)
            spoofed_body (mkLikeInput None None None)
            (mkRegisterInput None None None) None None None)].

(** ** The validators bound what they accept *)


Lemma char_field_max vs v x n :
  char_field vs v = inr x -> In (max_length_validator n) vs -> String.length x <= n.
Proof.
  intros H Hin. apply char_field_ok in H. rewrite List.Forall_forall in H. apply H in Hin.
  by apply bool_decide_eq_true in Hin.
Qed.

Lemma upd_field_max partial vs v cur x n m :
  upd_field partial (char_field vs) v cur = inr x -> In (max_length_validator n) vs -> n <= m ->
  String.length cur <= m -> String.length x <= m.
Proof.
  unfold upd_field. intros H Hin Hnm Hcur.
  destruct v; [|destruct partial; [by injection H as <-|]];
    (eapply Nat.le_trans; [by eapply char_field_max|done]).
Qed.

Lemma blank_email_max email_ok v x : blank_email_field email_ok v = inr x -> String.length x <= 254.
Proof.
  unfold blank_email_field. destruct v as [raw|]; [|intros [= <-]; simpl; lia].
  destruct (negb _); [intros [= <-]; simpl; lia|].
  intros (-> & H)%run_validators_ok. inversion H as [|? ? Hm]. by apply bool_decide_eq_true in Hm.
Qed.

(** The bound of a field the [validate_*] result is built from. *)
Ltac field_max :=
  lazymatch goal with
  | H : char_field _ _ = inr ?x |- String.length ?x <= _ =>
      eapply Nat.le_trans; [eapply (char_field_max _ _ _ _ H); simpl; eauto|]
  | H : upd_field _ (char_field _) _ _ = inr ?x |- String.length ?x <= _ =>
      eapply (upd_field_max _ _ _ _ _ _ _ H); simpl; [eauto|lia|lia]
  | H : blank_email_field _ _ = inr ?x |- String.length ?x <= _ => eapply (blank_email_max _ _ _ H)
  end.

Ltac validated_fits :=
  repeat case_match; intros; simplify_eq; split; simpl; try field_max; lia.

Lemma validate_register_fits email_ok db d v : validate_register email_ok db d = inr v -> user_fits v.
Proof. unfold validate_register, user_fits. validated_fits. Qed.

Lemma validate_category_fits db d c : validate_category db d = inr c -> category_fits c.
Proof. unfold validate_category, category_fits. validated_fits. Qed.

Lemma validate_category_update_fits db k partial c d c' :
  category_fits c -> validate_category_update db k partial c d = inr c' -> category_fits c'.
Proof. unfold validate_category_update, category_fits. intros [??]. validated_fits. Qed.

Lemma validate_news_fits image_ok db d v : validate_news image_ok db d = inr v -> news_valid_fits v.
Proof. unfold validate_news, news_valid_fits. validated_fits. Qed.

Lemma validate_news_update_fits image_ok db nid partial x d x' :
  news_fits x -> validate_news_update image_ok db nid partial x d = inr x' -> news_fits x'.
Proof. unfold validate_news_update, news_fits. intros [??]. validated_fits. Qed.

Lemma validate_comment_fits email_ok db d v : validate_comment email_ok db d = inr v -> comment_valid_fits v.
Proof. unfold validate_comment, comment_valid_fits. validated_fits. Qed.

Lemma validate_comment_update_fits email_ok db partial c d v :
  comment_fits c -> validate_comment_update email_ok db partial c d = inr v -> comment_valid_fits v.
Proof. unfold validate_comment_update, comment_valid_fits. intros [??]. validated_fits. Qed.

(** ** The writes of the ORM keep the widths of the rows they keep *)

Lemma set_likes_bounds db t n : db_bounds db -> db_bounds (set_likes t n db).
Proof. done. Qed.

Ltac bounds_op :=
  intros ? [?[?[??]]] ?; repeat (case_match || case_bool_decide); res_inv;
  unfold db_bounds; split_and!; simpl; first [apply map_Forall_insert_2; done | done].

Lemma user_insert_bounds db x k db' : user_insert db x = Ok (k, db') -> db_bounds db -> user_fits x -> db_bounds db'.
Proof. unfold user_insert. bounds_op. Qed.

Lemma category_insert_bounds db x k db' :
  category_insert db x = Ok (k, db') -> db_bounds db -> category_fits x -> db_bounds db'.
Proof. unfold category_insert. bounds_op. Qed.

Lemma category_update_bounds db k x db' :
  category_update db k x = Ok db' -> db_bounds db -> category_fits x -> db_bounds db'.
Proof. unfold category_update. bounds_op. Qed.

Lemma news_insert_bounds db nid x db' : news_insert db nid x = Ok db' -> db_bounds db -> news_fits x -> db_bounds db'.
Proof. unfold news_insert. bounds_op. Qed.

Lemma news_update_bounds db nid x db' : news_update db nid x = Ok db' -> db_bounds db -> news_fits x -> db_bounds db'.
Proof. unfold news_update. bounds_op. Qed.

Lemma comment_insert_bounds db c k db' :
  comment_insert db c = Ok (k, db') -> db_bounds db -> comment_fits c -> db_bounds db'.
Proof. unfold comment_insert. bounds_op. Qed.

Lemma comment_update_bounds db k c db' :
  comment_update db k c = Ok db' -> db_bounds db -> comment_fits c -> db_bounds db'.
Proof. unfold comment_update. bounds_op. Qed.

Lemma like_insert_bounds db row k db' : like_insert db row = Ok (k, db') -> db_bounds db -> db_bounds db'.
Proof. unfold like_insert. intros H Hb. case_match; res_inv. done. Qed.

Lemma like_update_bounds db k row db' : like_update db k row = Ok db' -> db_bounds db -> db_bounds db'.
Proof. unfold like_update. intros H Hb. case_match; res_inv. done. Qed.

Lemma like_delete_bounds db k : db_bounds db -> db_bounds (like_delete db k).
Proof. done. Qed.

Lemma get_or_create_bounds db u n now r db' :
  get_or_create db u n now = Ok (r, db') -> db_bounds db -> db_bounds db'.
Proof.
  unfold get_or_create, like_create. intros H Hb. ok_inv; try done.
  all: match goal with H : like_insert _ _ = Ok _ |- _ => by eapply like_insert_bounds end.
Qed.

Lemma comment_delete_bounds db k : db_bounds db -> db_bounds (comment_delete db k).
Proof. intros (?&?&?&?). unfold db_bounds; split_and!; simpl; try apply map_Forall_delete; done. Qed.

Lemma news_delete_bounds db n : db_bounds db -> db_bounds (news_delete db n).
Proof.
  intros (?&?&?&Hc). unfold db_bounds; split_and!; simpl; try apply map_Forall_delete; try done.
  intros k c [Hk _]%map_lookup_filter_Some. by eapply Hc.
Qed.

Lemma user_delete_bounds db u : db_bounds db -> db_bounds (user_delete db u).
Proof.
  intros Hb. assert (db_bounds (foldl news_delete db (user_news db u))) as (?&?&?&Hc).
  { generalize (user_news db u). intros l. revert db Hb.
    induction l as [|n l IH]; intros db Hb; [done|]. apply IH, news_delete_bounds, Hb. }
  unfold user_delete, user_comment_cascade, user_like_cascade, db_bounds; split_and!; simpl; try apply map_Forall_delete; try done.
  intros k c [Hk _]%map_lookup_filter_Some. by eapply Hc.
Qed.

Lemma category_delete_bounds db c : db_bounds db -> db_bounds (category_delete db c).
Proof.
  intros (?&?&Hn&?). unfold db_bounds; split_and!; simpl; try apply map_Forall_delete; try done.
  intros k x Hk. rewrite lookup_fmap in Hk. destruct (news db !! k) as [y|] eqn:Hy; simplify_eq/=.
  unfold unset_category. case_bool_decide; by apply Hn in Hy.
Qed.

(** ** Where a write takes its strings *)

Lemma users_fit db u usr : db_bounds db -> users db !! u = Some usr -> user_fits usr.
Proof. intros [Hu _] Hk. by eapply Hu. Qed.

Lemma categories_fit db pk k c : db_bounds db -> pk_lookup (categories db) pk = Ok (k, c) -> category_fits c.
Proof. intros (_&Hc&_) ?%pk_lookup_ok. by eapply Hc. Qed.

Lemma comments_fit db pk k c :
  db_bounds db -> pk_lookup (Models.comments db) pk = Ok (k, c) -> comment_fits c.
Proof. intros (_&_&_&Hc) ?%pk_lookup_ok. by eapply Hc. Qed.

Lemma get_object_fits db r slug nid x : db_bounds db -> get_object db r slug = Ok (nid, x) -> news_fits x.
Proof. intros (_&_&Hn&_) [? _]%get_object_ok. by eapply Hn. Qed.

Lemma user_fits_rehash v p : user_fits v -> user_fits (mkUser (username v) (user_email v) p).
Proof. done. Qed.

Lemma news_fits_valid v c a im b d u br :
  news_valid_fits v -> news_fits (mkNews c a (nv_title v) (nv_slug v) im b d u br).
Proof. done. Qed.

Lemma touch_fits now x : news_fits x -> news_fits (touch now x).
Proof. done. Qed.

Lemma comment_fits_valid v n u b t :
  comment_valid_fits v -> comment_fits (mkComment n u (v_name v) (v_email v) b t).
Proof. done. Qed.

(** The per-article view signs a comment with the caller's username and
    email: the 150 and 254 of [User], not the 100 of [Comment.name]. *)
Lemma comment_fits_user usr n u b t : user_fits usr -> comment_fits (mkComment n u (username usr) (user_email usr) b t).
Proof. done. Qed.

Create HintDb bounds discriminated.
#[export] Hint Resolve user_insert_bounds category_insert_bounds category_update_bounds news_insert_bounds
  news_update_bounds comment_insert_bounds comment_update_bounds like_insert_bounds like_update_bounds
  like_delete_bounds get_or_create_bounds comment_delete_bounds news_delete_bounds category_delete_bounds
  users_fit categories_fit comments_fit get_object_fits user_fits_rehash news_fits_valid touch_fits
  comment_fits_valid comment_fits_user validate_register_fits validate_category_fits
  validate_category_update_fits validate_news_fits validate_news_update_fits validate_comment_fits
  validate_comment_update_fits : bounds.

(** ** Every handler keeps the widths *)

Section handlers_bounds.
Variable email_ok : string -> bool.
Variable image_ok : string -> bool.
Variable make_password : string -> string.
Implicit Types (db : DB) (r : Request).

Ltac handler_bounds := intros Hb H; ok_inv; eauto 6 with bounds.

Lemma like_bounds db r slug p db' : db_bounds db -> like db r slug = Ok (p, db') -> db_bounds db'.
Proof. unfold like, dispatch. handler_bounds. Qed.

Lemma category_create_bounds db r d p db' :
  db_bounds db -> category_create db r d = Ok (p, db') -> db_bounds db'.
Proof. unfold category_create, dispatch. handler_bounds. Qed.

Lemma category_viewset_update_bounds db r pk b d p db' :
  db_bounds db -> category_viewset_update db r pk b d = Ok (p, db') -> db_bounds db'.
Proof. unfold category_viewset_update, dispatch. handler_bounds. Qed.

Lemma category_destroy_bounds db r pk db' : db_bounds db -> category_destroy db r pk = Ok db' -> db_bounds db'.
Proof. unfold category_destroy, dispatch. handler_bounds. Qed.

Lemma news_create_bounds db r uuid d p db' :
  db_bounds db -> news_create image_ok db r uuid d = Ok (p, db') -> db_bounds db'.
Proof. unfold news_create, dispatch. handler_bounds. Qed.

Lemma news_viewset_update_bounds db r slug b d p db' :
  db_bounds db -> news_viewset_update image_ok db r slug b d = Ok (p, db') -> db_bounds db'.
Proof. unfold news_viewset_update, dispatch. handler_bounds. Qed.

Lemma news_destroy_bounds db r slug db' : db_bounds db -> news_destroy db r slug = Ok db' -> db_bounds db'.
Proof. unfold news_destroy, dispatch. handler_bounds. Qed.

Lemma comment_viewset_create_bounds db r d p db' :
  db_bounds db -> comment_viewset_create email_ok db r d = Ok (p, db') -> db_bounds db'.
Proof. unfold comment_viewset_create, dispatch. handler_bounds. Qed.

Lemma comment_viewset_update_bounds db r pk b d p db' :
  db_bounds db -> comment_viewset_update email_ok db r pk b d = Ok (p, db') -> db_bounds db'.
Proof. unfold comment_viewset_update, dispatch. handler_bounds. Qed.

Lemma comment_viewset_destroy_bounds db r pk db' :
  db_bounds db -> comment_viewset_destroy db r pk = Ok db' -> db_bounds db'.
Proof. unfold comment_viewset_destroy, dispatch. handler_bounds. Qed.

Lemma like_viewset_create_bounds db r d p db' :
  db_bounds db -> like_viewset_create db r d = Ok (p, db') -> db_bounds db'.
Proof. unfold like_viewset_create, dispatch. handler_bounds. Qed.

Lemma like_viewset_partial_update_bounds db r pk d p db' :
  db_bounds db -> like_viewset_partial_update db r pk d = Ok (p, db') -> db_bounds db'.
Proof. unfold like_viewset_partial_update, dispatch. handler_bounds. Qed.

Lemma like_viewset_update_bounds db r pk d p db' :
  db_bounds db -> like_viewset_update db r pk d = Ok (p, db') -> db_bounds db'.
Proof.
  unfold like_viewset_update. intros Hb H. case_match; [case_match|];
    [by eapply like_viewset_partial_update_bounds|..]; unfold dispatch in H; ok_inv.
Qed.

Lemma like_viewset_destroy_bounds db r pk db' :
  db_bounds db -> like_viewset_destroy db r pk = Ok db' -> db_bounds db'.
Proof. unfold like_viewset_destroy, dispatch. handler_bounds. Qed.

Lemma register_bounds db r d p db' :
  db_bounds db -> register email_ok make_password db r d = Ok (p, db') -> db_bounds db'.
Proof. unfold register, register_create, dispatch. handler_bounds. Qed.

Lemma comments_bounds db r slug d p db' :
  db_bounds db -> comments email_ok db r slug d = Ok (p, db') -> db_bounds db'.
Proof. unfold comments, dispatch. handler_bounds. Qed.
End handlers_bounds.

#[export] Hint Resolve like_bounds category_create_bounds category_viewset_update_bounds
  category_destroy_bounds news_create_bounds news_viewset_update_bounds news_destroy_bounds
  comment_viewset_create_bounds comment_viewset_update_bounds comment_viewset_destroy_bounds
  like_viewset_create_bounds like_viewset_partial_update_bounds like_viewset_update_bounds
  like_viewset_destroy_bounds register_bounds comments_bounds : bounds.

Lemma handle_bounds email_ok image_ok make_password check_password db r uuid d rt p db' :
  db_bounds db -> handle email_ok image_ok make_password check_password db r uuid d rt = Ok (p, db') ->
  db_bounds db'.
Proof.
  intros Hb. destruct rt, (req_method r) eqn:Hm; cbn [handle]; rewrite ?Hm;
    unfold read, write, no_content, not_mapped, token_view, dispatch; intros H; ok_inv; eauto 3 with bounds.
Qed.

(** ** Properties *)

(** C22: the widths of [models.py] hold in every state the API reaches,
    with one exception.  From a database whose rows fit, every sequence
    of requests keeps usernames within 150 characters, emails within
    254, category names and slugs within 100, article titles and slugs
    within 255, and comment names within 150: comment names are not
    kept within the 100 that [Comment.name] declares, because the
    per-article view stores the caller's username there. *)
Theorem serve_all_bounds email_ok image_ok make_password check_password db reqs :
  db_bounds db -> db_bounds (serve_all email_ok image_ok make_password check_password db reqs).2.
Proof.
  revert db. induction reqs as [|[[[r uuid] path] d] reqs IH]; intros db Hb; [done|]. cbn [serve_all].
  destruct (serve _ _ _ _ db r uuid path d) as [[p db']|e] eqn:Hs.
  - destruct (serve_all _ _ _ _ db' reqs) as [out dbf] eqn:Hr. simpl.
    replace dbf with (serve_all email_ok image_ok make_password check_password db' reqs).2 by by rewrite Hr.
    apply IH. unfold serve in Hs. destruct (resolve path); [|done]. by eapply handle_bounds.
  - destruct (serve_all _ _ _ _ db reqs) as [out dbf] eqn:Hr. simpl.
    replace dbf with (serve_all email_ok image_ok make_password check_password db reqs).2 by by rewrite Hr.
    by apply IH.
Qed.

(** The 100 of [Comment.name] is not kept: a user registered with a
    120-letter username obtains a token and comments on an article; the
    stored comment's name has 120 characters.  A database that enforces
    the column's [VARCHAR(100)] answers this request with a 500. *)
Example long_username_comment :
  exists out db',
    serve_all demo_email_ok (fun _ => true) demo_make_password demo_check_password
      sample_db long_username_scenario = (out, db') /\
    (String.length <$> (comment_name <$> Models.comments db' !! 1)) = Some 120.
Proof. eexists _, _. split; [reflexivity|]. vm_compute. reflexivity. Qed.

(** ** Witnesses *)

Lemma serve_all_bounds_witness :
  db_bounds (serve_all demo_email_ok (fun _ => true) demo_make_password demo_check_password
               sample_db long_username_scenario).2.
Proof. apply serve_all_bounds. apply (bool_decide_eq_true_1 (db_bounds sample_db)). vm_compute. reflexivity. Defined.
