(* ===== verification/AdminForms.v ===== *)
(** * AdminForms: the add and change forms of the admin site

    [admin.py] registers Category and News with a [ModelAdmin] of their
    own and Comment and Like with the default one; each gets Django's
    add and change views, whose form is the [ModelForm] Django builds
    from the model's editable fields ([models.py]).  The POST of such a
    view cleans every field (a [CharField] strips, then checks required,
    then runs its validators: slug or email, [max_length], no null
    characters; a [ModelChoiceField] looks the key up; an [ImageField]
    checks the upload), runs [validate_unique] on the fields that passed,
    and, if no error is left, saves the instance ([ModelAdmin.save_model],
    [obj.save()]) with [auto_now_add] and [auto_now] stamped.  A form with
    errors is rendered again and writes nothing.  Errors are given by
    their [ValidationError] codes, on the field or on ["__all__"].

    The theorems: a valid form always saves, never hitting a database
    constraint, and the save keeps the invariant and the column widths;
    a comment the per-article API view stores for a user whose username
    is longer than 100 characters (the [User] model allows 150) is
    refused by the admin's change form as it stands, [Comment.name]
    being [max_length=100]. *)

From stdpp Require Import base gmap strings list.
From S2P Require Import Prelude Models Auth Serializers CommentsView Registration Routing Admin Bounds.

(** ** Form fields *)

(** The codes of Django's validation errors the forms raise. *)
Inductive form_error :=
| FRequired | FMaxLength | FNullCharacters | FInvalidSlug | FInvalidEmail
| FInvalidImage | FInvalidChoice | FUnique | FUniqueTogether.

#[export] Instance form_error_eq_dec : EqDecision form_error.
Proof. solve_decision. Defined.

(** Errors by field name, ["__all__"] for the form's own. *)
Definition FormErrors := list (string * form_error).

Definition form_validator := string -> option form_error.

(** [MaxLengthValidator(n)]: [len(value) <= n]. *)
Definition max_len (n : nat) : form_validator :=
  fun value => if bool_decide (String.length value <= n) then None else Some FMaxLength.

(** [ProhibitNullCharactersValidator]. *)
Definition no_nulls : form_validator :=
  fun value => if bool_decide (Ascii.ascii_of_nat 0 ∈ String.list_ascii_of_string value)
               then Some FNullCharacters else None.

(** [validate_slug]. *)
Definition slug_ok : form_validator :=
  fun value => if forallb is_slug_char (String.list_ascii_of_string value) then None else Some FInvalidSlug.

(** [forms.CharField] of a required model field ([blank=False]):
    [to_python] strips, [validate] refuses an empty value, and
    [run_validators] runs every validator, in order. *)
Definition form_char (validators : list form_validator) (v : option string) : list form_error + string :=
  let value := match v with Some raw => py_strip raw | None => "" end in
  if negb (py_truthy value) then inl [FRequired]
  else match omap (fun vd : form_validator => vd value) validators with
       | [] => inr value
       | errs => inl errs
       end.

(** [ModelChoiceField] over a table with an integer key: an empty value
    is missing, anything else must be the key of a row. *)
Definition int_choice {V} (tbl : gmap nat V) (v : option string) : list form_error + nat :=
  match v with
  | Some raw =>
      if negb (py_truthy raw) then inl [FRequired]
      else match pk_lookup tbl raw with Ok (k, _) => inr k | Err _ => inl [FInvalidChoice] end
  | None => inl [FRequired]
  end.

(** [forms.BooleanField(required=False)]: an absent checkbox, ["false"]
    and ["0"] (any case) are false. *)
Definition form_bool (v : option string) : bool :=
  match v with
  | Some s =>
      let l := String.string_of_list_ascii (ascii_lower <$> String.list_ascii_of_string s) in
      if bool_decide (l = "false" \/ l = "0") then false else py_truthy s
  | None => false
  end.

Definition form_field_errors {A} (name : string) (r : list form_error + A) : FormErrors :=
  match r with inl errs => (fun e => (name, e)) <$> errs | inr _ => [] end.

(** [Model._perform_unique_checks] for one unique field that passed its
    own cleaning: no other row holds the value. *)
Definition unique_error {K V} `{Countable K} (name : string) (proj : V -> string)
    (tbl : gmap K V) (inst : option K) (r : list form_error + string) : FormErrors :=
  match r with
  | inr value =>
      if bool_decide (map_Forall (fun k x => inst = Some k \/ proj x <> value) tbl) then []
      else [(name, FUnique)]
  | inl _ => []
  end.

(** The POST data of each model's form, one optional string per field. *)
Record CategoryForm := mkCategoryForm { cf_name : option string; cf_slug : option string }.

Record NewsForm := mkNewsForm {
  nf_category : option string; nf_author : option string; nf_title : option string;
  nf_slug : option string; nf_image : option string; nf_body : option string;
  nf_is_breaking : option string;
}.

Record CommentForm := mkCommentForm {
  mf_news : option string; mf_user : option string; mf_name : option string;
  mf_email : option string; mf_comment : option string;
}.

Record LikeForm := mkLikeForm {
  lf_user : option string; lf_news : option string; lf_is_liked : option string;
}.

Section forms.
Variable email_ok : string -> bool.
Variable image_ok : string -> bool.
(** [uuid.UUID(value)], which the key of News goes through. *)
Variable parse_uuid : string -> option N.

(** [ModelChoiceField(News.objects)]: the value must name an article. *)
Definition news_choice (db : DB) (v : option string) : list form_error + N :=
  match v with
  | Some raw =>
      if negb (py_truthy raw) then inl [FRequired]
      else match parse_uuid raw with
           | Some n => if bool_decide (is_Some (news db !! n)) then inr n else inl [FInvalidChoice]
           | None => inl [FInvalidChoice]
           end
  | None => inl [FRequired]
  end.

(** [forms.ImageField] of [News.image]: required, and Pillow must open
    the upload. *)
Definition form_image (v : option string) : list form_error + string :=
  match v with
  | Some f => if negb (py_truthy f) then inl [FRequired] else if image_ok f then inr f else inl [FInvalidImage]
  | None => inl [FRequired]
  end.

(** [CategoryForm.is_valid()]: [name] ([max_length=100], unique) and
    [slug] ([SlugField(max_length=100)], unique). *)
Definition category_form_clean (db : DB) (inst : option nat) (d : CategoryForm) : FormErrors + Category :=
  let name_r := form_char [max_len 100; no_nulls] (cf_name d) in
  let slug_r := form_char [slug_ok; max_len 100; no_nulls] (cf_slug d) in
  let uniq := unique_error "name" cat_name (categories db) inst name_r ++
              unique_error "slug" cat_slug (categories db) inst slug_r in
  match name_r, slug_r, uniq with
  | inr n, inr s, [] => inr (mkCategory n s)
  | _, _, _ => inl (form_field_errors "name" name_r ++ form_field_errors "slug" slug_r ++ uniq)
  end.

(** [NewsForm.is_valid()]: the editable fields of News in model order;
    [category] is required ([blank=False]) although the column is
    nullable.  [posted] is the instance's [date_posted] ([now] on an
    add) and [now] stamps [updated_at]. *)
Definition news_form_clean (db : DB) (inst : option N) (posted now : Z) (d : NewsForm) : FormErrors + News :=
  let cat_r := int_choice (categories db) (nf_category d) in
  let author_r := int_choice (users db) (nf_author d) in
  let title_r := form_char [max_len 255; no_nulls] (nf_title d) in
  let slug_r := form_char [slug_ok; max_len 255; no_nulls] (nf_slug d) in
  let image_r := form_image (nf_image d) in
  let body_r := form_char [no_nulls] (nf_body d) in
  let uniq := unique_error "slug" news_slug (news db) inst slug_r in
  match cat_r, author_r, title_r, slug_r, image_r, body_r, uniq with
  | inr c, inr a, inr t, inr s, inr im, inr b, [] =>
      inr (mkNews (Some c) a t s im b posted now (form_bool (nf_is_breaking d)))
  | _, _, _, _, _, _, _ =>
      inl (form_field_errors "category" cat_r ++ form_field_errors "author" author_r ++
           form_field_errors "title" title_r ++ form_field_errors "slug" slug_r ++
           form_field_errors "image" image_r ++ form_field_errors "body" body_r ++ uniq)
  end.

(** [CommentForm.is_valid()]: [news], [user] (required: the column is
    NOT NULL and [blank=False]), [name] ([max_length=100]), [email]
    ([EmailField], 254) and [comment]. *)
Definition comment_form_clean (db : DB) (stamp : Z) (d : CommentForm) : FormErrors + Comment :=
  let news_r := news_choice db (mf_news d) in
  let user_r := int_choice (users db) (mf_user d) in
  let name_r := form_char [max_len 100; no_nulls] (mf_name d) in
  let email_r := form_char [(fun v => if email_ok v then None else Some FInvalidEmail);
                            max_len 254; no_nulls] (mf_email d) in
  let body_r := form_char [no_nulls] (mf_comment d) in
  match news_r, user_r, name_r, email_r, body_r with
  | inr n, inr u, inr nm, inr e, inr b => inr (mkComment n (Some u) nm e b stamp)
  | _, _, _, _, _ =>
      inl (form_field_errors "news" news_r ++ form_field_errors "user" user_r ++
           form_field_errors "name" name_r ++ form_field_errors "email" email_r ++
           form_field_errors "comment" body_r)
  end.

(** [LikeForm.is_valid()]: [user], [news], [is_liked]; then the
    [unique_together] check once both keys are clean. *)
Definition like_form_clean (db : DB) (inst : option nat) (stamp : Z) (d : LikeForm) : FormErrors + Like :=
  let user_r := int_choice (users db) (lf_user d) in
  let news_r := news_choice db (lf_news d) in
  match user_r, news_r with
  | inr u, inr n =>
      if bool_decide (map_Forall (fun k l => inst = Some k \/ like_matches u n l = false) (likes db))
      then inr (mkLike u n (form_bool (lf_is_liked d)) stamp)
      else inl [("__all__", FUniqueTogether)]
  | _, _ => inl (form_field_errors "user" user_r ++ form_field_errors "news" news_r)
  end.

(** ** The add and change views *)

(** [ModelAdmin._changeform_view] on a POST: the add view when
    [object_id] is [None], otherwise the change view of the row the URL
    names ([get_object]; a key naming no row redirects with a message,
    rendered here as [NotFound]).  A form with errors is [Ok (inl _)],
    rendered again; a valid one is saved, [Ok (inr db')]. *)
Definition admin_save_category (db : DB) (object_id : option string) (d : CategoryForm)
    : result (FormErrors + DB) :=
  match object_id with
  | None =>
      match category_form_clean db None d with
      | inl errs => Ok (inl errs)
      | inr x => '(_, db') ← category_insert db x; Ok (inr db')
      end
  | Some oid =>
      '(k, _) ← pk_lookup (categories db) oid;
      match category_form_clean db (Some k) d with
      | inl errs => Ok (inl errs)
      | inr x => db' ← category_update db k x; Ok (inr db')
      end
  end.

(** [uuid] is the [default=uuid.uuid4] of a new article's key. *)
Definition admin_save_news (db : DB) (now : Z) (uuid : N) (object_id : option string) (d : NewsForm)
    : result (FormErrors + DB) :=
  match object_id with
  | None =>
      match news_form_clean db None now now d with
      | inl errs => Ok (inl errs)
      | inr x => db' ← news_insert db uuid x; Ok (inr db')
      end
  | Some oid =>
      match parse_uuid oid ≫= fun n => (fun x => (n, x)) <$> news db !! n with
      | None => Err NotFound
      | Some (n, x0) =>
          match news_form_clean db (Some n) (news_date_posted x0) now d with
          | inl errs => Ok (inl errs)
          | inr x => db' ← news_update db n x; Ok (inr db')
          end
      end
  end.

Definition admin_save_comment (db : DB) (now : Z) (object_id : option string) (d : CommentForm)
    : result (FormErrors + DB) :=
  match object_id with
  | None =>
      match comment_form_clean db now d with
      | inl errs => Ok (inl errs)
      | inr c => '(_, db') ← comment_insert db c; Ok (inr db')
      end
  | Some oid =>
      '(k, c0) ← pk_lookup (Models.comments db) oid;
      match comment_form_clean db (comment_timestamp c0) d with
      | inl errs => Ok (inl errs)
      | inr c => db' ← comment_update db k c; Ok (inr db')
      end
  end.

Definition admin_save_like (db : DB) (now : Z) (object_id : option string) (d : LikeForm)
    : result (FormErrors + DB) :=
  match object_id with
  | None =>
      match like_form_clean db None now d with
      | inl errs => Ok (inl errs)
      | inr l => '(_, db') ← like_insert db l; Ok (inr db')
      end
  | Some oid =>
      '(k, l0) ← pk_lookup (likes db) oid;
      match like_form_clean db (Some k) (like_timestamp l0) d with
      | inl errs => Ok (inl errs)
      | inr l => db' ← like_update db k l; Ok (inr db')
      end
  end.

(** [ModelAdmin.delete_view] on the POST of its confirmation page:
    [delete_model], i.e. [obj.delete()] with the model's cascades; a key
    naming no row redirects ([NotFound]).  Its answer is the database,
    as [inr], so that it reads as the outcome of a save. *)
Definition admin_delete_category (db : DB) (oid : string) : result (FormErrors + DB) :=
  '(k, _) ← pk_lookup (categories db) oid; Ok (inr (category_delete db k)).

Definition admin_delete_news (db : DB) (oid : string) : result (FormErrors + DB) :=
  match parse_uuid oid ≫= fun n => (fun _ => n) <$> news db !! n with
  | Some n => Ok (inr (news_delete db n))
  | None => Err NotFound
  end.

Definition admin_delete_comment (db : DB) (oid : string) : result (FormErrors + DB) :=
  '(k, _) ← pk_lookup (Models.comments db) oid; Ok (inr (comment_delete db k)).

Definition admin_delete_like (db : DB) (oid : string) : result (FormErrors + DB) :=
  '(k, _) ← pk_lookup (likes db) oid; Ok (inr (like_delete db k)).

End forms.

(** What an admin POST may end in on a database satisfying the
    invariant and the column widths: the form rendered again with its
    errors, a saved database that still satisfies both, or the redirect
    of a change view whose key names no row. *)
Definition admin_outcome_ok (res : result (FormErrors + DB)) : Prop :=
  match res with
  | Ok (inl _) => True
  | Ok (inr db') => db_wf db' /\ db_bounds db'
  | Err e => e = NotFound
  end.

(** ** What a clean field guarantees *)

Lemma omap_nil_Forall {A B} (f : A -> option B) l : omap f l = [] -> Forall (fun x => f x = None) l.
Proof.
  induction l as [|x l IH]; simpl; [constructor|].
  destruct (f x) eqn:Hx; [done|]. intros Hl. constructor; auto.
Qed.

Lemma form_char_ok vs v x : form_char vs v = inr x -> Forall (fun vd : form_validator => vd x = None) vs.
Proof.
  unfold form_char. destruct (negb _); [done|].
  destruct (omap _ vs) eqn:Ho; [|done]. intros [= <-]. by apply omap_nil_Forall.
Qed.

Lemma max_len_ok n x : max_len n x = None -> String.length x <= n.
Proof. unfold max_len. by case_bool_decide. Qed.

(** A clean [CharField] with a [max_length] validator fits. *)
Lemma form_char_max n vs v x :
  form_char vs v = inr x -> max_len n ∈ vs -> String.length x <= n.
Proof.
  intros Hc Hin. pose proof (form_char_ok _ _ _ Hc) as HF. rewrite Forall_forall in HF.
  apply max_len_ok, (HF _ Hin).
Qed.

Lemma pk_lookup_err {V} (tbl : gmap nat V) s e : pk_lookup tbl s = Err e -> e = NotFound.
Proof. unfold pk_lookup. repeat case_match; congruence. Qed.

Lemma int_choice_ok {V} (tbl : gmap nat V) v k : int_choice tbl v = inr k -> is_Some (tbl !! k).
Proof.
  unfold int_choice. destruct v; [|done]. destruct (negb _); [done|].
  destruct (pk_lookup tbl s) as [[k' x]|] eqn:Hp; [|done]. intros [= <-]. eauto with wf.
Qed.

Lemma news_choice_ok parse_uuid db v n : news_choice parse_uuid db v = inr n -> is_Some (news db !! n).
Proof.
  unfold news_choice. destruct v as [s|]; [|done]. destruct (negb _); [done|].
  destruct (parse_uuid s); [|done]. case_bool_decide; intros; simplify_eq; done.
Qed.

Lemma unique_error_nil {K V} `{Countable K} name (proj : V -> string) (tbl : gmap K V) (inst : option K) v :
  unique_error name proj tbl inst (inr v) = [] -> map_Forall (fun k x => inst = Some k \/ proj x <> v) tbl.
Proof. unfold unique_error. by case_bool_decide. Qed.

Lemma map_Forall_or2 {K V} `{Countable K} (tbl : gmap K V) (P Q : K -> V -> Prop) (A : K -> Prop) :
  map_Forall (fun k x => A k \/ P k x) tbl -> map_Forall (fun k x => A k \/ Q k x) tbl ->
  map_Forall (fun k x => A k \/ (P k x /\ Q k x)) tbl.
Proof. intros HP HQ k x Hk. destruct (HP k x Hk), (HQ k x Hk); tauto. Qed.

Lemma in_validators (vd : form_validator) vs : vd ∈ vd :: vs.
Proof. by left. Qed.

#[local] Hint Resolve in_validators : core.

(** ** What a clean form guarantees *)

Lemma category_form_clean_ok db inst d x :
  category_form_clean db inst d = inr x ->
  category_fits x /\
  map_Forall (fun k y => inst = Some k \/ (cat_name y <> cat_name x /\ cat_slug y <> cat_slug x))
    (categories db).
Proof.
  unfold category_form_clean. cbv zeta.
  destruct (form_char [max_len 100; no_nulls] (cf_name d)) as [|n] eqn:Hn; [done|].
  destruct (form_char [slug_ok; max_len 100; no_nulls] (cf_slug d)) as [|s] eqn:Hs; [done|].
  destruct (unique_error "name" cat_name (categories db) inst (inr n) ++
            unique_error "slug" cat_slug (categories db) inst (inr s)) eqn:Hu; [|done].
  intros [= <-].
  apply app_nil in Hu as [Hu1 Hu2]. split.
  - split; simpl.
    + apply (form_char_max 100 _ _ _ Hn). repeat constructor.
    + apply (form_char_max 100 _ _ _ Hs). repeat constructor.
  - apply (map_Forall_or2 _ _ _ (fun k => inst = Some k));
      [exact (unique_error_nil _ _ _ _ _ Hu1)|exact (unique_error_nil _ _ _ _ _ Hu2)].
Qed.

(** Splits a successful clean into the successful cleans of its fields. *)
Ltac clean_inv :=
  repeat match goal with
  | |- context [match ?x with inl _ => _ | inr _ => _ end] => let H := fresh "Hf" in destruct x eqn:H
  | |- context [match ?x with [] => _ | _ :: _ => _ end] => let H := fresh "Hu" in destruct x eqn:H
  end; try discriminate.

Section clean_lemmas.
Context (email_ok image_ok : string -> bool) (parse_uuid : string -> option N).

Lemma news_form_clean_ok db inst posted now d x :
  news_form_clean image_ok db inst posted now d = inr x ->
  news_fits x /\ is_Some (users db !! news_author x) /\
  (exists c, news_category x = Some c /\ is_Some (categories db !! c)) /\
  map_Forall (fun k y => inst = Some k \/ news_slug y <> news_slug x) (news db) /\
  news_date_posted x = posted.
Proof.
  unfold news_form_clean. cbv zeta. clean_inv. intros [= <-]. simpl.
  split_and!; eauto using int_choice_ok, unique_error_nil.
  split; [apply (form_char_max 255 _ _ _ Hf1)|apply (form_char_max 255 _ _ _ Hf2)]; repeat constructor.
Qed.

Lemma comment_form_clean_ok db stamp d x :
  comment_form_clean email_ok parse_uuid db stamp d = inr x ->
  String.length (comment_name x) <= 100 /\ String.length (comment_email x) <= 254 /\
  is_Some (news db !! comment_news x) /\
  (exists u, comment_user x = Some u /\ is_Some (users db !! u)) /\ comment_timestamp x = stamp.
Proof.
  unfold comment_form_clean. cbv zeta. clean_inv. intros [= <-]. simpl.
  split_and!; eauto using int_choice_ok, news_choice_ok.
  - apply (form_char_max 100 _ _ _ Hf1). repeat constructor.
  - apply (form_char_max 254 _ _ _ Hf2). repeat constructor.
Qed.

Lemma like_form_clean_ok db inst stamp d x :
  like_form_clean parse_uuid db inst stamp d = inr x ->
  is_Some (users db !! like_user x) /\ is_Some (news db !! like_news x) /\
  map_Forall (fun k l => inst = Some k \/ like_matches (like_user x) (like_news x) l = false) (likes db) /\
  like_timestamp x = stamp.
Proof.
  unfold like_form_clean. cbv zeta. clean_inv.
  case_bool_decide; [|discriminate]. intros [= <-]. simpl.
  split_and!; eauto using int_choice_ok, news_choice_ok.
Qed.

End clean_lemmas.

(** ** A valid form always saves *)

Section save_lemmas.
Context (email_ok image_ok : string -> bool) (parse_uuid : string -> option N).
Context (db : DB) (Hwf : db_wf db) (Hb : db_bounds db).

Lemma admin_save_category_ok oid d : admin_outcome_ok (admin_save_category db oid d).
Proof.
  unfold admin_save_category. destruct oid as [oid|].
  - destruct (pk_lookup (categories db) oid) as [[k c0]|e] eqn:Hk; simpl; [|by eapply pk_lookup_err].
    destruct (category_form_clean db (Some k) d) as [errs|x] eqn:Hc; [done|].
    apply category_form_clean_ok in Hc as [Hfit Hu].
    assert (exists db', category_update db k x = Ok db') as [db' Hup].
    { unfold category_update. rewrite bool_decide_true; [eauto|].
      intros k' y Hy. destruct (Hu k' y Hy) as [[= ->]|]; auto. }
    rewrite Hup. simpl. split; [eapply category_update_wf|eapply category_update_bounds]; eauto with wf.
  - destruct (category_form_clean db None d) as [errs|x] eqn:Hc; [done|].
    apply category_form_clean_ok in Hc as [Hfit Hu].
    assert (exists k db', category_insert db x = Ok (k, db')) as (k & db' & Hins).
    { unfold category_insert. rewrite bool_decide_true; [eauto|].
      intros k' y Hy. by destruct (Hu k' y Hy). }
    rewrite Hins. simpl. split; [eapply category_insert_wf|eapply category_insert_bounds]; eauto.
Qed.

Lemma admin_save_news_ok now uuid oid d :
  news db !! uuid = None -> admin_outcome_ok (admin_save_news image_ok parse_uuid db now uuid oid d).
Proof.
  intros Hfresh. unfold admin_save_news. destruct oid as [oid|].
  - destruct (parse_uuid oid) as [n|]; simpl; [|done].
    destruct (news db !! n) as [x0|] eqn:Hx0; simpl; [|done].
    destruct (news_form_clean _ _ _ _ _ _) as [errs|x] eqn:Hc; [done|].
    apply news_form_clean_ok in Hc as (Hfit & Ha & (c & Hcat & Hc) & Hu & _).
    assert (exists db', news_update db n x = Ok db') as [db' Hup].
    { unfold news_update. rewrite Hcat, !bool_decide_true; eauto.
      intros n' y Hy. destruct (Hu n' y Hy) as [[= ->]|]; auto. }
    rewrite Hup. simpl. split; [eapply news_update_wf|eapply news_update_bounds]; eauto.
  - destruct (news_form_clean _ _ _ _ _ _) as [errs|x] eqn:Hc; [done|].
    apply news_form_clean_ok in Hc as (Hfit & Ha & (c & Hcat & Hc) & Hu & _).
    assert (exists db', news_insert db uuid x = Ok db') as [db' Hins].
    { unfold news_insert. rewrite Hcat, !bool_decide_true; eauto.
      intros n' y Hy. by destruct (Hu n' y Hy). }
    rewrite Hins. simpl. split; [eapply news_insert_wf|eapply news_insert_bounds]; eauto.
Qed.

Lemma admin_save_comment_ok now oid d : admin_outcome_ok (admin_save_comment email_ok parse_uuid db now oid d).
Proof.
  unfold admin_save_comment. destruct oid as [oid|].
  - destruct (pk_lookup (Models.comments db) oid) as [[k c0]|e] eqn:Hk; simpl; [|by eapply pk_lookup_err].
    destruct (comment_form_clean _ _ _ _ _) as [errs|c] eqn:Hc; [done|].
    apply comment_form_clean_ok in Hc as (Hn & He & Hnews & (u & Hu & Hus) & _).
    assert (exists db', comment_update db k c = Ok db') as [db' Hup].
    { unfold comment_update. rewrite Hu, !bool_decide_true; eauto. }
    rewrite Hup. simpl. split; [eapply comment_update_wf|eapply comment_update_bounds]; eauto with wf.
    split; lia.
  - destruct (comment_form_clean _ _ _ _ _) as [errs|c] eqn:Hc; [done|].
    apply comment_form_clean_ok in Hc as (Hn & He & Hnews & (u & Hu & Hus) & _).
    assert (exists k db', comment_insert db c = Ok (k, db')) as (k & db' & Hins).
    { unfold comment_insert. rewrite Hu, !bool_decide_true; eauto. }
    rewrite Hins. simpl. split; [eapply comment_insert_wf|eapply comment_insert_bounds]; eauto.
    split; lia.
Qed.

Lemma admin_save_like_ok now oid d : admin_outcome_ok (admin_save_like parse_uuid db now oid d).
Proof.
  unfold admin_save_like. destruct oid as [oid|].
  - destruct (pk_lookup (likes db) oid) as [[k l0]|e] eqn:Hk; simpl; [|by eapply pk_lookup_err].
    destruct (like_form_clean _ _ _ _ _) as [errs|l] eqn:Hc; [done|].
    apply like_form_clean_ok in Hc as (Hus & Hn & Hu & _).
    assert (exists db', like_update db k l = Ok db') as [db' Hup].
    { unfold like_update. rewrite !bool_decide_true; eauto.
      intros k' y Hy. destruct (Hu k' y Hy) as [[= ->]|]; auto. }
    rewrite Hup. simpl. split; [eapply like_update_wf|eapply like_update_bounds]; eauto with wf.
  - destruct (like_form_clean _ _ _ _ _) as [errs|l] eqn:Hc; [done|].
    apply like_form_clean_ok in Hc as (Hus & Hn & Hu & _).
    assert (exists k db', like_insert db l = Ok (k, db')) as (k & db' & Hins).
    { unfold like_insert. rewrite !bool_decide_true; eauto.
      apply count_where_zero. intros k' y Hy. by destruct (Hu k' y Hy). }
    rewrite Hins. simpl. split; [eapply like_insert_wf|eapply like_insert_bounds]; eauto.
Qed.

Lemma admin_delete_ok oid :
  admin_outcome_ok (admin_delete_category db oid) /\
  admin_outcome_ok (admin_delete_news parse_uuid db oid) /\
  admin_outcome_ok (admin_delete_comment db oid) /\
  admin_outcome_ok (admin_delete_like db oid).
Proof.
  unfold admin_delete_category, admin_delete_news, admin_delete_comment, admin_delete_like.
  split_and!.
  all: first [destruct (pk_lookup _ oid) as [[k x]|e] eqn:Hk; simpl; [|by eapply pk_lookup_err]
             |repeat case_match; simplify_eq/=; try done].
  all: split; eauto using category_delete_wf, category_delete_bounds, news_delete_wf, news_delete_bounds,
      comment_delete_wf, comment_delete_bounds, like_delete_wf, like_delete_bounds.
Qed.

End save_lemmas.

(** A field error of [name] survives into the form's errors. *)
Lemma comment_form_clean_name_error email_ok parse_uuid db stamp d es e :
  form_char [max_len 100; no_nulls] (mf_name d) = inl es -> e ∈ es ->
  exists errs, comment_form_clean email_ok parse_uuid db stamp d = inl errs /\ ("name", e) ∈ errs.
Proof.
  intros Hn He. unfold comment_form_clean. cbv zeta. rewrite Hn.
  exists (form_field_errors "news" (news_choice parse_uuid db (mf_news d)) ++
          form_field_errors "user" (int_choice (users db) (mf_user d)) ++
          form_field_errors "name" (@inl _ string es) ++
          form_field_errors "email" (form_char [(fun v => if email_ok v then None else Some FInvalidEmail);
                                               max_len 254; no_nulls] (mf_email d)) ++
          form_field_errors "comment" (form_char [no_nulls] (mf_comment d))).
  split; [by repeat case_match|].
  rewrite !elem_of_app. right; right; left. apply list_elem_of_fmap. eauto.
Qed.

Lemma admin_change_comment_invalid email_ok parse_uuid db now oid k c0 d errs :
  pk_lookup (Models.comments db) oid = Ok (k, c0) ->
  comment_form_clean email_ok parse_uuid db (comment_timestamp c0) d = inl errs ->
  admin_save_comment email_ok parse_uuid db now (Some oid) d = Ok (inl errs).
Proof. intros Hk Hc. unfold admin_save_comment. rewrite Hk. simpl. by rewrite Hc. Qed.

(** The change form of a comment, each field holding its stored value;
    [news_value] and [user_value] are the keys the two selects show. *)
Definition comment_change_form (c : Comment) (news_value user_value : string) : CommentForm :=
  mkCommentForm (Some news_value) (Some user_value) (Some (comment_name c))
                (Some (comment_email c)) (Some (comment_body c)).

(** A stripped value longer than [n] fails [max_length=n]. *)
Lemma form_char_too_long n vs s :
  n < String.length (py_strip s) ->
  exists es, form_char (max_len n :: vs) (Some s) = inl es /\ FMaxLength ∈ es.
Proof.
  intros Hl. unfold form_char.
  assert (Ht : py_truthy (py_strip s) = true) by (destruct (py_strip s); [simpl in Hl; lia|done]).
  rewrite Ht. simpl. unfold max_len at 1. rewrite bool_decide_eq_false_2 by lia. simpl.
  eexists. split; [reflexivity|left].
Qed.

(** The database after a user with a 120-letter username registered
    and obtained a token. *)
Definition long_user_db : DB :=
  Eval vm_compute in (serve_all demo_email_ok (fun _ => true) demo_make_password demo_check_password
                        sample_db (take 2 long_username_scenario)).2.

Lemma long_user_db_wf : db_wf long_user_db.
Proof. apply db_wf_check_sound. apply (bool_decide_eq_true_1 _). vm_compute. reflexivity. Qed.

(** ** Properties *)

(** C29: the admin never hits a database constraint.  On a database
    satisfying the invariant and the column widths, a POST to the add
    or change view of any of the four registered models, with any form
    data (and a fresh UUID for a new article), ends in the form rendered
    again with its errors, in a save that keeps the invariant and the
    widths, or in the redirect of a change view whose key names no row;
    a POST to a delete view deletes with the cascades and keeps both:
    the forms' field and [validate_unique] checks anticipate every
    NOT NULL, foreign-key and unique constraint. *)
Theorem admin_saves_keep_invariants email_ok image_ok parse_uuid db now uuid oid dc dn dm dl :
  db_wf db -> db_bounds db -> news db !! uuid = None ->
  admin_outcome_ok (admin_save_category db oid dc) /\
  admin_outcome_ok (admin_save_news image_ok parse_uuid db now uuid oid dn) /\
  admin_outcome_ok (admin_save_comment email_ok parse_uuid db now oid dm) /\
  admin_outcome_ok (admin_save_like parse_uuid db now oid dl) /\
  forall key, admin_outcome_ok (admin_delete_category db key) /\
    admin_outcome_ok (admin_delete_news parse_uuid db key) /\
    admin_outcome_ok (admin_delete_comment db key) /\ admin_outcome_ok (admin_delete_like db key).
Proof.
  intros Hwf Hb Hfresh. split_and!;
    eauto using admin_save_category_ok, admin_save_news_ok, admin_save_comment_ok, admin_save_like_ok.
  intros key. by apply admin_delete_ok.
Qed.

(** C24: the API stores what the admin refuses.  On every database, an
    authenticated POST with a valid body to the comments of an article,
    by a user whose username (stripped) is longer than 100 characters,
    stores a comment whose name is that username; the admin's change
    form of that comment, submitted as it stands (whatever the email
    check, the selects' values and the time), is then refused with the
    [max_length] error of [name] ([Comment.name] is [max_length=100]):
    an administrator cannot save the comment without shortening the
    name. *)
Theorem admin_refuses_api_comment email_ok db r slug data u usr nid x v :
  db_wf db -> req_method r = POST -> req_token r = Some u -> users db !! u = Some usr ->
  get_news_or_404 db slug = Ok (nid, x) -> validate_comment email_ok db data = inr v ->
  100 < String.length (py_strip (username usr)) ->
  exists k c db',
    comments email_ok db r slug data = Ok (CommentCreated (comment_repr db' (k, c)), db') /\
    Models.comments db' !! k = Some c /\ comment_name c = username usr /\
    forall email_ok' parse_uuid oid news_value user_value now,
      pk_lookup (Models.comments db') oid = Ok (k, c) ->
      exists errs,
        admin_save_comment email_ok' parse_uuid db' now (Some oid) (comment_change_form c news_value user_value) =
          Ok (inl errs) /\ ("name", FMaxLength) ∈ errs.
Proof.
  intros Hwf Hm Ht Hu Hg Hv Hlen.
  destruct (comments_post_stores email_ok db r slug data u usr nid x v Hwf Hm Ht Hu Hg Hv _ eq_refl)
    as [Hres _].
  eexists _, _, _. split; [exact Hres|]. split; [apply lookup_insert_eq|]. split; [reflexivity|].
  intros email_ok' parse_uuid oid news_value user_value now Hk.
  destruct (form_char_too_long 100 [no_nulls] (username usr) Hlen) as (es & Hes & Hin).
  match goal with
  | |- context [admin_save_comment _ _ ?db' _ _ (comment_change_form ?c _ _)] =>
      destruct (comment_form_clean_name_error email_ok' parse_uuid db' (comment_timestamp c)
                  (comment_change_form c news_value user_value) es FMaxLength Hes Hin) as (errs & Hc & Hin')
  end.
  exists errs. split; [|exact Hin']. by eapply admin_change_comment_invalid.
Qed.

(** ** Witnesses *)

Lemma admin_saves_keep_invariants_witness :
  db_wf sample_db /\ db_bounds sample_db /\ news sample_db !! 99%N = None /\
  admin_outcome_ok (admin_save_category sample_db None (mkCategoryForm (Some "Politics") (Some "politics"))).
Proof.
  assert (db_bounds sample_db) as Hb by (apply (bool_decide_eq_true_1 (db_bounds sample_db)); vm_compute; reflexivity).
  assert (news sample_db !! 99%N = None) as Hf by reflexivity.
  split; [exact sample_db_wf|]. split; [exact Hb|]. split; [exact Hf|].
  exact (proj1 (admin_saves_keep_invariants demo_email_ok (fun _ => true) (fun _ => None) sample_db 500 99%N None
    (mkCategoryForm (Some "Politics") (Some "politics"))
    (mkNewsForm None None None None None None None) (mkCommentForm None None None None None)
    (mkLikeForm None None None) sample_db_wf Hb Hf)).
Defined.

Lemma admin_refuses_api_comment_witness :
  exists k c db',
    comments demo_email_ok long_user_db (mkRequest POST (Some 3) None 302) "cup-final" spoofed_body =
      Ok (CommentCreated (comment_repr db' (k, c)), db') /\
    Models.comments db' !! k = Some c /\
    comment_name c = username (mkUser (long_username 120) "" (demo_make_password "s3cret")) /\
    forall email_ok' parse_uuid oid news_value user_value now,
      pk_lookup (Models.comments db') oid = Ok (k, c) ->
      exists errs,
        admin_save_comment email_ok' parse_uuid db' now (Some oid) (comment_change_form c news_value user_value) =
          Ok (inl errs) /\ ("name", FMaxLength) ∈ errs.
Proof.
  apply (admin_refuses_api_comment demo_email_ok long_user_db (mkRequest POST (Some 3) None 302) "cup-final"
           spoofed_body 3 (mkUser (long_username 120) "" (demo_make_password "s3cret")) 7%N sample_news
           (mkCommentValid 7%N "mallory" "mallory@example.com" "Great match!")).
  - exact long_user_db_wf.
  - reflexivity.
  - reflexivity.
  - vm_compute. reflexivity.
  - vm_compute. reflexivity.
  - vm_compute. reflexivity.
  - vm_compute. lia.
Defined.
